(** * MathSTK-Ex: exercise generation, grading and plan accounting

    A shallow embedding of the core of [main.py]: the exercise generator
    ([generate_exercise]), the plan and usage tracker ([can_use_plan],
    [track_usage]), the request handlers that drive them ([index_get],
    [index_post], [choose_plan], [update_activation_after_payment]) and the
    grader ([answers_route]).

    Python exceptions are values of [exn]; a computation that reads or
    mutates the process-wide globals of the module ([users],
    [latest_exercises], [latest_meta], [latest_result], the generator of the
    [random] module) is a function from the state of those globals to a
    result and the state it leaves.  The state survives an exception, as it
    does in Python: a mutation made before a [raise] stays made. *)

From Stdlib Require Import ZArith Lia List Ascii String.
From Stdlib Require Import SpecFloat.
From stdpp Require Import base option list gmap strings pretty.

Local Open Scope string_scope.
Local Open Scope Z_scope.

(* ===================================================================== *)
(** * Python values and builtins used by the program *)
(* ===================================================================== *)

Module Py.

(** The exceptions the modelled code can raise. *)
Inductive exn : Set :=
| KeyError
| ValueError
| TypeError
| ZeroDivisionError
| UnboundLocalError.

Inductive result (A : Type) : Type :=
| Ok (a : A)
| Raise (e : exn).
Arguments Ok {A} a.
Arguments Raise {A} e.

(** Exceptions without state, for code that only reads its arguments. *)
Definition rbind {A B} (r : result A) (k : A -> result B) : result B :=
  match r with
  | Ok a => k a
  | Raise e => Raise e
  end.

(** State and exceptions. *)
Definition M (S A : Type) : Type := S -> result A * S.

Definition ret {S A} (a : A) : M S A := fun s => (Ok a, s).
Definition raise {S A} (e : exn) : M S A := fun s => (Raise e, s).
Definition bind {S A B} (m : M S A) (k : A -> M S B) : M S B :=
  fun s => match m s with
           | (Ok a, s') => k a s'
           | (Raise e, s') => (Raise e, s')
           end.
Definition get {S} : M S S := fun s => (Ok s, s).
Definition modify {S} (f : S -> S) : M S unit := fun s => (Ok tt, f s).
Definition lift {S A} (r : result A) : M S A := fun s => (r, s).

(** [for x in l: body(x)] *)
Fixpoint for_each {S A} (l : list A) (body : A -> M S unit) : M S unit :=
  match l with
  | [] => ret tt
  | x :: l' => bind (body x) (fun _ => for_each l' body)
  end.

(** [[f(x) for x in l]] *)
Fixpoint list_comp {S A B} (l : list A) (f : A -> M S B) : M S (list B) :=
  match l with
  | [] => ret []
  | x :: l' => bind (f x) (fun y => bind (list_comp l' f) (fun ys => ret (y :: ys)))
  end.

(** A value read with [request.form.get(key)]: a string, or [None]. *)
Definition pstr : Type := option string.

(** [x == lit] for such a value and a string literal. *)
Definition is_str (x : pstr) (lit : string) : bool :=
  match x with
  | Some s => String.eqb s lit
  | None => false
  end.

(** [f"{x}"] *)
Definition fmt_pstr (x : pstr) : string :=
  match x with
  | Some s => s
  | None => "None"
  end.

(** [str(n)] and [len(str(n))] for an int. *)
Definition str_of_int (n : Z) : string := pretty n.
Definition len_str_of_int (n : Z) : nat := String.length (str_of_int n).

(** [f"{n:3d}"]: right-aligned in a field of width 3, sign included. *)
Fixpoint spaces (n : nat) : string :=
  match n with
  | O => ""
  | S n' => String " "%char (spaces n')
  end.
Definition fmt_3d (n : Z) : string :=
  let s := str_of_int n in
  spaces (3 - String.length s) +:+ s.

(** [sys.int_info.default_max_str_digits]: CPython converts no int of
    more digits to a [str], and no such literal to an int. *)
Definition int_max_str_digits : nat := 4300.

(** An int [str(n)], [f"{n}"] and [f"{n:3d}"] convert: of at most 4300
    digits, the sign not counted.  On the others they raise
    [ValueError].  An int below [2 ^ 14284] is below [10 ^ 4300]: the
    first test spares the power for the ints that are short in binary. *)
Definition prints (n : Z) : bool :=
  if Z.log2 (Z.abs n) <? 14284 then true
  else Z.abs n <? 10 ^ Z.of_nat int_max_str_digits.

Definition checked_str (n : Z) : result string :=
  if prints n then Ok (str_of_int n) else Raise ValueError.

Definition checked_fmt_3d (n : Z) : result string :=
  if prints n then Ok (fmt_3d n) else Raise ValueError.

(** ** Text

    A [str] is modelled by its UTF-8 encoding: a [string] holds the bytes
    of the encoded text, so that [==], concatenation, [startswith] and
    [endswith] on the bytes are those on the code points.  The builtins
    that look at code points, [str.strip()] and [int()], decode them; they
    follow CPython 3.11 (Unicode 14.0), with the default limit of 4300
    digits for conversions between [str] and [int]. *)

Definition byte (c : ascii) : N := N_of_ascii c.

(** A continuation byte, [10xxxxxx]. *)
Definition is_cont (c : ascii) : bool := (0x80 <=? byte c)%N && (byte c <? 0xC0)%N.

(** The code point that two, three or four bytes encode, when they are
    the UTF-8 encoding of one: the shortest encoding, no surrogate,
    nothing above U+10FFFF. *)
Definition code2 (c1 c2 : ascii) : option N :=
  if (0xC2 <=? byte c1)%N && (byte c1 <? 0xE0)%N && is_cont c2
  then Some ((byte c1 - 0xC0) * 64 + (byte c2 - 0x80))%N
  else None.

Definition code3 (c1 c2 c3 : ascii) : option N :=
  if (0xE0 <=? byte c1)%N && (byte c1 <? 0xF0)%N && is_cont c2 && is_cont c3 then
    let cp := ((byte c1 - 0xE0) * 4096 + (byte c2 - 0x80) * 64 + (byte c3 - 0x80))%N in
    if (0x800 <=? cp)%N && negb ((0xD800 <=? cp)%N && (cp <? 0xE000)%N)
    then Some cp else None
  else None.

Definition code4 (c1 c2 c3 c4 : ascii) : option N :=
  if (0xF0 <=? byte c1)%N && (byte c1 <? 0xF5)%N
     && is_cont c2 && is_cont c3 && is_cont c4 then
    let cp := ((byte c1 - 0xF0) * 262144 + (byte c2 - 0x80) * 4096
               + (byte c3 - 0x80) * 64 + (byte c4 - 0x80))%N in
    if (0x10000 <=? cp)%N && (cp <? 0x110000)%N then Some cp else None
  else None.

(** The whitespace outside ASCII: NEL, the no-break space, the Ogham
    space mark, U+2000 to U+200A, the line and paragraph separators, the
    narrow no-break space, the medium mathematical space and the
    ideographic space. *)
Definition wide_space (cp : N) : bool :=
  ((cp =? 0x85) || (cp =? 0xA0) || (cp =? 0x1680)
   || ((0x2000 <=? cp) && (cp <=? 0x200A))
   || (cp =? 0x2028) || (cp =? 0x2029) || (cp =? 0x202F)
   || (cp =? 0x205F) || (cp =? 0x3000))%N.

Definition is_wide_space (cp : option N) : bool :=
  match cp with
  | Some cp => wide_space cp
  | None => false
  end.

(** Whitespace of [str.strip()] within ASCII: TAB, LF, VT, FF, CR,
    FS, GS, RS, US and the blank. *)
Definition is_space (c : ascii) : bool :=
  let n := nat_of_ascii c in
  ((9 <=? n)%nat && (n <=? 13)%nat) || ((28 <=? n)%nat && (n <=? 32)%nat).

(** [str.lstrip()]; with [backwards], on the reversed bytes, where the
    bytes of a code point come last byte first. *)
Fixpoint lstrip_bytes (backwards : bool) (s : string) : string :=
  match s with
  | String c1 s1 =>
      if is_space c1 then lstrip_bytes backwards s1
      else
        match s1 with
        | String c2 s2 =>
            if is_wide_space (if backwards then code2 c2 c1 else code2 c1 c2)
            then lstrip_bytes backwards s2
            else
              match s2 with
              | String c3 s3 =>
                  if is_wide_space (if backwards then code3 c3 c2 c1 else code3 c1 c2 c3)
                  then lstrip_bytes backwards s3
                  else s
              | EmptyString => s
              end
        | EmptyString => s
        end
  | EmptyString => EmptyString
  end.

Definition lstrip (s : string) : string := lstrip_bytes false s.
Definition strip (s : string) : string :=
  String.rev (lstrip_bytes true (String.rev (lstrip s))).

(** The decimal digits of Unicode 14.0 come in runs of ten, zero to
    nine; the zero of each run. *)
Definition decimal_zeros : list N :=
  [0x30; 0x660; 0x6F0; 0x7C0; 0x966; 0x9E6; 0xA66; 0xAE6; 0xB66; 0xBE6;
    0xC66; 0xCE6; 0xD66; 0xDE6; 0xE50; 0xED0; 0xF20; 0x1040; 0x1090; 0x17E0;
    0x1810; 0x1946; 0x19D0; 0x1A80; 0x1A90; 0x1B50; 0x1BB0; 0x1C40; 0x1C50;
    0xA620; 0xA8D0; 0xA900; 0xA9D0; 0xA9F0; 0xAA50; 0xABF0; 0xFF10; 0x104A0;
    0x10D30; 0x11066; 0x110F0; 0x11136; 0x111D0; 0x112F0; 0x11450; 0x114D0;
    0x11650; 0x116C0; 0x11730; 0x118E0; 0x11950; 0x11C50; 0x11D50; 0x11DA0;
    0x16A60; 0x16AC0; 0x16B50; 0x1D7CE; 0x1D7D8; 0x1D7E2; 0x1D7EC; 0x1D7F6;
    0x1E140; 0x1E2F0; 0x1E950; 0x1FBF0]%N.

(** [Py_UNICODE_TODECIMAL] *)
Definition decimal_of (cp : N) : option N :=
  match List.find (fun zero => (zero <=? cp) && (cp <? zero + 10))%N decimal_zeros with
  | Some zero => Some (cp - zero)%N
  | None => None
  end.

(** What [int()] makes of a code point outside ASCII before it parses:
    a blank of whitespace, the ASCII digit of a decimal digit; any other
    one ends in [ValueError]. *)
Definition int_char (cp : option N) : option ascii :=
  match cp with
  | Some cp =>
      if wide_space cp then Some " "%char
      else
        match decimal_of cp with
        | Some d => Some (ascii_of_N (0x30 + d))
        | None => None
        end
  | None => None
  end.

(** The ASCII text [int()] parses: the bytes below 128 as they are, the
    other code points through [int_char]. *)
Fixpoint int_text (s : string) : option string :=
  match s with
  | EmptyString => Some EmptyString
  | String c1 s1 =>
      if (byte c1 <? 0x80)%N then String c1 <$> int_text s1
      else
        match s1 with
        | String c2 s2 =>
            match int_char (code2 c1 c2) with
            | Some c => String c <$> int_text s2
            | None =>
                match s2 with
                | String c3 s3 =>
                    match int_char (code3 c1 c2 c3) with
                    | Some c => String c <$> int_text s3
                    | None =>
                        match s3 with
                        | String c4 s4 =>
                            match int_char (code4 c1 c2 c3 c4) with
                            | Some c => String c <$> int_text s4
                            | None => None
                            end
                        | EmptyString => None
                        end
                    end
                | EmptyString => None
                end
            end
        | EmptyString => None
        end
  end.

(** The literal [int()] parses in that text.  Blanks TAB, LF, VT, FF, CR
    and the space are dropped at both ends, one sign may follow, then
    decimal digits, single underscores allowed between two digits. *)
Definition is_int_space (c : ascii) : bool :=
  let n := nat_of_ascii c in
  ((9 <=? n)%nat && (n <=? 13)%nat) || (n =? 32)%nat.

Fixpoint drop_int_space (s : string) : string :=
  match s with
  | String c s' => if is_int_space c then drop_int_space s' else s
  | EmptyString => EmptyString
  end.

Definition digit_of (c : ascii) : option Z :=
  let n := nat_of_ascii c in
  if ((48 <=? n)%nat && (n <=? 57)%nat) then Some (Z.of_nat (n - 48)) else None.

(** [digits acc prev s]: [prev] tells whether the character before [s]
    was a digit; the literal may stop at trailing blanks. *)
Fixpoint digits (acc : Z) (prev : bool) (s : string) : option Z :=
  match s with
  | EmptyString => if prev then Some acc else None
  | String c s' =>
      match digit_of c with
      | Some d => digits (10 * acc + d) true s'
      | None =>
          if Ascii.eqb c "_"%char then
            if prev then
              match s' with
              | String c' _ =>
                  match digit_of c' with
                  | Some _ => digits acc false s'
                  | None => None
                  end
              | EmptyString => None
              end
            else None
          else if is_int_space c then
            if prev then
              match drop_int_space s with
              | EmptyString => Some acc
              | String _ _ => None
              end
            else None
          else None
      end
  end.

Definition literal (s : string) : option Z :=
  match drop_int_space s with
  | String "-"%char s' => Z.opp <$> digits 0 false s'
  | String "+"%char s' => digits 0 false s'
  | s' => digits 0 false s'
  end.

Fixpoint count_digits (s : string) : nat :=
  match s with
  | EmptyString => O
  | String c s' =>
      match digit_of c with
      | Some _ => S (count_digits s')
      | None => count_digits s'
      end
  end.

(** [int(s)] for a string, [None] standing for [ValueError]: also that
    of a literal of more than 4300 digits, underscores not counted. *)
Definition int_of_str (s : string) : option Z :=
  match int_text s with
  | Some text =>
      match literal text with
      | Some n => if (int_max_str_digits <? count_digits text)%nat then None else Some n
      | None => None
      end
  | None => None
  end.

(** [int(x)] for a form value: [TypeError] on [None], [ValueError] on a
    string that is no integer literal. *)
Definition int_of_pstr (x : pstr) : result Z :=
  match x with
  | None => Raise TypeError
  | Some s =>
      match int_of_str s with
      | Some n => Ok n
      | None => Raise ValueError
      end
  end.

(** [a // b] on ints: floor division, [ZeroDivisionError] when [b] is 0. *)
Definition floordiv (a b : Z) : result Z :=
  if b =? 0 then Raise ZeroDivisionError else Ok (a / b).

(** ** Floats

    A Python float is an IEEE 754 binary64 number; the operations round
    to nearest, ties to even. *)
Definition prec : Z := 53.
Definition emax : Z := 1024.
Abbreviation float := spec_float.

(** [float(n)] for an int *)
Definition float_of_int (n : Z) : float := binary_normalize prec emax n 0 false.

(** [a / b] on ints whose magnitude is below 2^53 (both convert exactly),
    [b] not 0. *)
Definition truediv (a b : Z) : float :=
  SFdiv prec emax (float_of_int a) (float_of_int b).

Definition fmul (x y : float) : float := SFmul prec emax x y.

(** Nearest integer of the rational [n / d], [d > 0], ties to even. *)
Definition round_half_even (n d : Z) : Z :=
  let q := n / d in
  let r := n mod d in
  match (2 * r) ?= d with
  | Lt => q
  | Gt => q + 1
  | Eq => if Z.even q then q else q + 1
  end.

(** [round(x)] for a finite float: an int, ties to even. *)
Definition round (x : float) : Z :=
  match x with
  | S754_finite s m e =>
      let v := if s then Z.neg m else Z.pos m in
      if 0 <=? e then v * 2 ^ e else round_half_even v (2 ^ (- e))
  | _ => 0
  end.

End Py.

Import Py.

Declare Scope py_scope.
Delimit Scope py_scope with py.
Notation "'let*' p := m 'in' k" := (bind m (fun p => k))
  (at level 10, p pattern, m at level 100, k at level 200, only parsing) : py_scope.
Local Open Scope py_scope.

(* ===================================================================== *)
(** * Data model *)
(* ===================================================================== *)

(** The five difficulty tiers of the selection page, and the strings the
    program knows them by. *)
Inductive tier : Set := Easy | Intermediate | Hard | VeryHard | Expert.

Definition tier_name (t : tier) : string :=
  match t with
  | Easy => "easy"
  | Intermediate => "intermediate"
  | Hard => "hard"
  | VeryHard => "very hard"
  | Expert => "expert"
  end.

Definition all_tiers : list tier := [Easy; Intermediate; Hard; VeryHard; Expert].

(** The [levels] list of [index_get] and [choose_plan]. *)
Definition levels : list string := map tier_name all_tiers.

(** The dict returned by [generate_exercise]. *)
Module Exercise.
Record t : Set := mk {
  a : Z;
  b : Z;
  op : string;
  result : Z;
  res_len : nat
}.
End Exercise.

(** The operator signs of the exercises: U+00D7 and U+00F7 for product and
    quotient. *)
Definition sign_add : string := "+".
Definition sign_sub : string := "-".
Definition sign_mul : string := "×".
Definition sign_div : string := "÷".

(** An entry of the [users] dict.  The keys the plan logic reads are
    fields, [None] for a key that is absent; the remaining keys (password
    hash, birth date, parents' names, theme, remember token) are kept as a
    dict. *)
Record user_data : Type := mk_user {
  plan : option string;
  plan_start : option Z;               (* a datetime, in microseconds *)
  usage_count : option (gmap string Z);
  activation_id : option string;
  profile : gmap string pstr
}.

Definition set_plan (v : option string) (u : user_data) : user_data :=
  mk_user v (plan_start u) (usage_count u) (activation_id u) (profile u).
Definition set_plan_start (v : option Z) (u : user_data) : user_data :=
  mk_user (plan u) v (usage_count u) (activation_id u) (profile u).
Definition set_usage_count (v : option (gmap string Z)) (u : user_data) : user_data :=
  mk_user (plan u) (plan_start u) v (activation_id u) (profile u).
Definition set_activation_id (v : option string) (u : user_data) : user_data :=
  mk_user (plan u) (plan_start u) (usage_count u) v (profile u).

(** [latest_meta] *)
Record meta : Type := mk_meta {
  meta_level : pstr;
  meta_selected_category : pstr;
  meta_theme : string;
  meta_nb_ops : Z;
  meta_pdf_columns : Z
}.

(** A dict from operation to a list, in insertion order. *)
Abbreviation by_operation A := (list (pstr * list A)).

Record feedback_item : Type := mk_feedback { fb_text : string; fb_correct : bool }.
Record solution_item : Type := mk_solution { sol_question : string; sol_solution : Z }.

(** [latest_result] *)
Record result_data : Type := mk_result {
  res_feedback : by_operation feedback_item;
  res_solutions : by_operation solution_item;
  res_score : Z;
  res_theme : pstr;
  res_level : pstr;
  res_selected_category : pstr;
  res_exercises : by_operation (option Exercise.t);
  res_pdf_columns : Z
}.

(** The globals of the module.  The generator of [random] is a sequence of
    raw draws and the number of draws taken so far: every sequence of
    results [randint] can give comes from some sequence of raw draws. *)
Record state : Type := mk_state {
  users : gmap string user_data;
  latest_exercises : option (by_operation (option Exercise.t));
  latest_meta : option meta;
  latest_result : option result_data;
  random_draws : nat -> Z;
  random_taken : nat
}.

Definition set_users (v : gmap string user_data) (s : state) : state :=
  mk_state v (latest_exercises s) (latest_meta s) (latest_result s)
           (random_draws s) (random_taken s).
Definition set_latest_exercises v (s : state) : state :=
  mk_state (users s) v (latest_meta s) (latest_result s)
           (random_draws s) (random_taken s).
Definition set_latest_meta v (s : state) : state :=
  mk_state (users s) (latest_exercises s) v (latest_result s)
           (random_draws s) (random_taken s).
Definition set_latest_result v (s : state) : state :=
  mk_state (users s) (latest_exercises s) (latest_meta s) v
           (random_draws s) (random_taken s).
Definition set_random_taken (v : nat) (s : state) : state :=
  mk_state (users s) (latest_exercises s) (latest_meta s) (latest_result s)
           (random_draws s) v.

Abbreviation St := (M state).

(* ===================================================================== *)
(** * Exercise generator *)
(* ===================================================================== *)

(** [random.randint(low, high)]: an int [n] with [low <= n <= high];
    [ValueError] on an empty range. *)
Definition randint (low high : Z) : St Z :=
  fun s =>
    if high <? low then (Raise ValueError, s)
    else
      let raw := random_draws s (random_taken s) in
      (Ok (low + raw mod (high - low + 1)),
       set_random_taken (S (random_taken s)) s).

(** The three [if level == ... elif ...] chains.  No branch assigns the
    bounds for a level that is none of the five: they stay unbound, and
    their first use raises. *)
Definition addsub_bounds (level : pstr) : option (Z * Z) :=
  if is_str level "easy" then Some (0, 10)
  else if is_str level "intermediate" then Some (0, 50)
  else if is_str level "hard" then Some (0, 100)
  else if is_str level "very hard" then Some (0, 200)
  else if is_str level "expert" then Some (0, 1000000)
  else None.

Definition mul_bounds (level : pstr) : option (Z * Z) :=
  if is_str level "easy" then Some (0, 5)
  else if is_str level "intermediate" then Some (0, 10)
  else if is_str level "hard" then Some (0, 20)
  else if is_str level "very hard" then Some (0, 30)
  else if is_str level "expert" then Some (0, 1000)
  else None.

(** [((b_low, b_high), (q_low, q_high))] *)
Definition div_bounds (level : pstr) : option ((Z * Z) * (Z * Z)) :=
  if is_str level "easy" then Some ((1, 5), (0, 5))
  else if is_str level "intermediate" then Some ((1, 10), (0, 10))
  else if is_str level "hard" then Some ((1, 20), (0, 20))
  else if is_str level "very hard" then Some ((1, 30), (0, 30))
  else if is_str level "expert" then Some ((1, 100), (0, 10000))
  else None.

Definition bound {A} (v : option A) : St A :=
  match v with
  | Some x => ret x
  | None => raise UnboundLocalError
  end.

(** [generate_exercise(operation, level)]; the function falls off its end,
    returning [None], for an operation that is none of the four. *)
Definition generate_exercise (operation level : pstr) : St (option Exercise.t) :=
  if is_str operation "addition" || is_str operation "subtraction" then
    let* (low, high) := bound (addsub_bounds level) in
    let* a := randint low high in
    if is_str operation "addition" then
      let* b := randint low high in
      let result := a + b in
      ret (Some (Exercise.mk a b sign_add result (len_str_of_int result)))
    else
      let* b := randint low a in
      let result := a - b in
      ret (Some (Exercise.mk a b sign_sub result (len_str_of_int result)))
  else if is_str operation "multiplication" then
    let* (low, high) := bound (mul_bounds level) in
    let* a := randint low high in
    let* b := randint low high in
    let result := a * b in
    ret (Some (Exercise.mk a b sign_mul result (len_str_of_int result)))
  else if is_str operation "division" then
    let* ((b_low, b_high), (q_low, q_high)) := bound (div_bounds level) in
    let* b := randint b_low b_high in
    let* quotient := randint q_low q_high in
    let a := b * quotient in
    ret (Some (Exercise.mk a b sign_div quotient (len_str_of_int quotient)))
  else
    ret None.

(* ===================================================================== *)
(** * Plan and usage tracker *)
(* ===================================================================== *)

(** The dict literal every [setdefault("usage_count", ...)] passes. *)
Definition default_usage : gmap string Z :=
  list_to_map [("easy", 0); ("intermediate", 0); ("hard", 0);
               ("very hard", 0); ("expert", 0); ("total", 0)].

(** [d[key]] *)
Definition item {A} (v : option A) : St A :=
  match v with
  | Some x => ret x
  | None => raise KeyError
  end.

(** [d.get(key, default)] for a key that may be [None] *)
Definition dict_get (d : gmap string Z) (key : pstr) (default : Z) : Z :=
  match key with
  | Some k => match d !! k with Some v => v | None => default end
  | None => default
  end.

(** [users[email]] *)
Definition user_of (email : string) : St user_data :=
  let* s := get in item (users s !! email).

Definition store_user (email : string) (u : user_data) : St unit :=
  modify (fun s => set_users (<[email := u]> (users s)) s).

(** [users[email].setdefault("usage_count", {...})]: the dict held by the
    entry, put there first when the key is absent. *)
Definition usage_count_setdefault (email : string) : St (gmap string Z) :=
  let* u := user_of email in
  match usage_count u with
  | Some d => ret d
  | None =>
      let* _ := store_user email (set_usage_count (Some default_usage) u) in
      ret default_usage
  end.

(** [usage_count[key] += 1].  The local [usage_count] of the callers is the
    dict object held by [users[email]], so the update is made in the
    entry. *)
Definition usage_count_incr (email : string) (key : pstr) : St unit :=
  let* u := user_of email in
  let* d := item (usage_count u) in
  let* k := item key in
  let* n := item (d !! k) in
  store_user email (set_usage_count (Some (<[k := n + 1]> d)) u).

(** [save_users()] uploads a JSON copy of [users] to the file store and
    swallows every failure; it leaves the globals as they are. *)
Definition save_users : St unit := ret tt.

Definition can_use_plan (email : string) (level : pstr) : St bool :=
  let* _ := user_of email in
  let* uc := usage_count_setdefault email in
  let* user_data := user_of email in
  let* p := item (plan user_data) in
  if String.eqb p "free" then
    ret (dict_get uc level 0 <? 1)
  else if String.eqb p "monthly" then
    ret true
  else if String.eqb p "twenty" then
    let* total := item (uc !! "total") in
    ret (total <? 20)
  else
    ret false.

Definition track_usage (email : string) (level : pstr) : St unit :=
  let* _ := user_of email in
  let* _ := usage_count_setdefault email in
  let* user_data := user_of email in
  let* p := item (plan user_data) in
  let* _ :=
    if String.eqb p "free" then
      usage_count_incr email level
    else if String.eqb p "twenty" then
      let* _ := usage_count_incr email (Some "total") in
      usage_count_incr email level
    else
      ret tt in
  save_users.

(* ===================================================================== *)
(** * Request handlers *)
(* ===================================================================== *)

(** What a handler reads of the request: the session cookie, the method,
    the form.  [flash] appends to the messages shown with the response. *)
Record session : Type := mk_session {
  session_user : option string;
  session_theme : option string
}.

(** The response: a redirect, or a template with the values it is rendered
    with.  The host address of the pages is left out, and the plan dates of
    the selection page are kept as datetimes ([None] for the empty
    string). *)
Inductive page : Type :=
| Landing
| Redirect (url : string)
| SelectionPage (user_plan : string) (usage_count : gmap string Z)
                (plan_start plan_end : option Z) (can_use : list (string * bool))
| ExercisePage (exercises : by_operation (option Exercise.t))
               (level selected_category : pstr)
| ChoosePlanPage (free_disabled : bool)
| ResultPage (feedback : by_operation feedback_item) (score : Z) (theme : pstr).

Record response : Type := mk_response {
  body : page;
  flashed : list (string * string)
}.

(** [timedelta(days=30)], in microseconds *)
Definition thirty_days : Z := 30 * 86400 * 1000000.

(** [all(usage_count.get(lvl, 0) >= 1 for lvl in levels)] *)
Definition all_exhausted (uc : gmap string Z) : bool :=
  forallb (fun lvl => 1 <=? dict_get uc (Some lvl) 0) levels.

(** [index_get()], [now] being what [datetime.now()] returns. *)
Definition index_get (sess : session) (now : Z) : St response :=
  match session_user sess with
  | None => ret (mk_response Landing [])
  | Some email =>
      let* user_data := user_of email in
      match plan user_data with
      | None => ret (mk_response (Redirect "/choose_plan") [])
      | Some p =>
          let* expired :=
            if String.eqb p "monthly" then
              let* start := item (plan_start user_data) in
              ret (start + thirty_days <? now)
            else ret false in
          if expired : bool then
            let* _ := store_user email (set_plan_start None (set_plan None user_data)) in
            let* _ := save_users in
            ret (mk_response (Redirect "/choose_plan")
                   [("Your monthly subscription has expired. Please choose a new plan.",
                     "warning")])
          else
            let* exhausted :=
              if String.eqb p "free" then
                let* uc := usage_count_setdefault email in
                ret (all_exhausted uc)
              else ret false in
            if exhausted : bool then
              ret (mk_response (Redirect "/choose_plan")
                     [("Your free trial is exhausted. Please choose another plan.",
                       "warning")])
            else
              let* _ := usage_count_setdefault email in
              let* can_use_dict :=
                list_comp levels (fun lvl =>
                  let* ok := can_use_plan email (Some lvl) in ret (lvl, ok)) in
              let* user_data := user_of email in
              let* p := item (plan user_data) in
              let* dates :=
                if String.eqb p "monthly" then
                  let* start := item (plan_start user_data) in
                  ret (Some start, Some (start + thirty_days))
                else ret (None, None) in
              let* uc := item (usage_count user_data) in
              ret (mk_response (SelectionPage p uc dates.1 dates.2 can_use_dict) [])
      end
  end.

(** [int(request.form.get(key, default))] with an int default *)
Definition form_int (form : gmap string string) (key : string) (default : Z) : result Z :=
  match form !! key with
  | Some v => int_of_pstr (Some v)
  | None => Ok default
  end.

(** The list of operations of a category: all four, or the category. *)
Definition operations_of (selected_category : pstr) : list pstr :=
  if is_str selected_category "all" then
    [Some "addition"; Some "subtraction"; Some "multiplication"; Some "division"]
  else [selected_category].

(** [index_post()] *)
Definition index_post (sess : session) (form : gmap string string) : St response :=
  match session_user sess with
  | None => ret (mk_response (Redirect "/login") [])
  | Some email =>
      let* user_data := user_of email in
      match plan user_data with
      | None => ret (mk_response (Redirect "/choose_plan") [])
      | Some _ =>
          if is_str (form !! "phase") "generate" then
            let level := form !! "level" in
            let* allowed := can_use_plan email level in
            if negb allowed then
              ret (mk_response (Redirect "/")
                     [("You have exhausted your uses for this level.", "danger")])
            else
              let* _ := track_usage email level in
              let selected_category := form !! "category" in
              let theme := default "blue" (session_theme sess) in
              let* nb_ops := lift (form_int form "nb_ops" 100) in
              let* pdf_columns := lift (form_int form "pdf_columns" 3) in
              let* _ := modify (set_latest_meta
                          (Some (mk_meta level selected_category theme nb_ops pdf_columns))) in
              let* exercises :=
                list_comp (operations_of selected_category) (fun op =>
                  let* l := list_comp (seq 0 (Z.to_nat nb_ops))
                              (fun _ => generate_exercise op level) in
                  ret (op, l)) in
              let* _ := modify (set_latest_exercises (Some exercises)) in
              let* _ := modify (set_latest_result None) in
              ret (mk_response (ExercisePage exercises level selected_category) [])
          else
            ret (mk_response (Redirect "/") [])
      end
  end.

(** [choose_plan()] *)
Definition choose_plan (sess : session) (method : string) (form : gmap string string)
  : St response :=
  match session_user sess with
  | None => ret (mk_response (Redirect "/login") [])
  | Some email =>
      let* user_data := user_of email in
      let free_disabled :=
        match usage_count user_data with
        | Some uc => all_exhausted uc
        | None => false
        end in
      if String.eqb method "POST" then
        let plan := form !! "plan" in
        if is_str plan "monthly" || is_str plan "twenty" then
          ret (mk_response (Redirect ("/purchase_plan/" +:+ fmt_pstr plan)) [])
        else if negb (is_str plan "free" || is_str plan "monthly" || is_str plan "twenty") then
          ret (mk_response (ChoosePlanPage free_disabled) [("Invalid plan.", "danger")])
        else if is_str plan "free" && free_disabled then
          ret (mk_response (ChoosePlanPage true)
                 [("Your free trial is exhausted. Please choose another plan.", "warning")])
        else
          let* _ := store_user email (set_plan plan user_data) in
          let* _ := usage_count_setdefault email in
          let* _ := save_users in
          ret (mk_response (Redirect "/") [("Plan successfully saved.", "success")])
      else
        ret (mk_response (ChoosePlanPage free_disabled) [])
  end.

(** [update_activation_after_payment(plan)]; [now_str] is the first clock
    reading, formatted, and [now] the second one. *)
Definition update_activation_after_payment
  (sess : session) (now_str : string) (now : Z) (plan : string) : St unit :=
  let* email := item (session_user sess) in
  let* user_data := user_of email in
  let* _ :=
    if String.eqb plan "monthly" then
      let activation_id := email +:+ "_" +:+ now_str in
      store_user email
        (set_activation_id (Some activation_id)
           (set_plan_start (Some now) (set_plan (Some "monthly") user_data)))
    else if String.eqb plan "twenty" then
      let birth_date := default (Some "unknown") (profile user_data !! "birth_date") in
      let activation_id := email +:+ "_" +:+ fmt_pstr birth_date +:+ "_" +:+ now_str in
      store_user email
        (set_activation_id (Some activation_id) (set_plan (Some "twenty") user_data))
    else ret tt in
  save_users.

(* ===================================================================== *)
(** * Answer grader *)
(* ===================================================================== *)

(** [user_answer] once normalised: the string ["Not answered"], or an int. *)
Inductive answer : Set :=
| NotAnswered
| Answered (n : Z).

Definition not_answered : string := "Not answered".

(** Lines 1528-1535: a missing or blank field, and a field [int] rejects
    (the bare [except] catches the error), all become ["Not answered"]. *)
Definition normalize_answer (user_answer : pstr) : answer :=
  match user_answer with
  | None => NotAnswered
  | Some s =>
      if String.eqb (strip s) "" then NotAnswered
      else
        match int_of_str s with
        | Some n => Answered n
        | None => NotAnswered
        end
  end.

(** [f"{user_answer}"] *)
Definition fmt_answer (x : answer) : string :=
  match x with
  | NotAnswered => not_answered
  | Answered n => str_of_int n
  end.

(** The value of [correct], recomputed from the operands and the sign the
    form sends back; [None] for an unknown sign. *)
Definition expected (a b : Z) (op_symbol : pstr) : result (option Z) :=
  if is_str op_symbol "+" then Ok (Some (a + b))
  else if is_str op_symbol "-" then Ok (Some (a - b))
  else if is_str op_symbol "*" || is_str op_symbol sign_mul then Ok (Some (a * b))
  else if is_str op_symbol "/" || is_str op_symbol sign_div then
    rbind (floordiv a b) (fun q => Ok (Some q))
  else Ok None.

(** [f"{correct}"] *)
Definition fmt_expected (x : option Z) : result string :=
  match x with
  | Some n => checked_str n
  | None => Ok "None"
  end.

(** [user_answer == correct], for a [user_answer] that is an int *)
Definition answer_matches (n : Z) (correct : option Z) : bool :=
  match correct with
  | Some c => n =? c
  | None => false
  end.

(** The locals [feedback[op]], [total_correct] and [total_questions]. *)
Record tally : Type := mk_tally {
  feedback_op : list feedback_item;
  total_correct : Z;
  total_questions : Z
}.

(** [f"{op}_{i}{suffix}"] *)
Definition field (op : pstr) (i : nat) (suffix : string) : string :=
  fmt_pstr op +:+ "_" +:+ pretty i +:+ suffix.

(** One turn of the loop [for i in range(nb_ops)].  The operands and the
    answer were read by [int], so they have no more than 4300 digits and
    convert to text; [i] is below the length of a list.  The value of
    [correct], a sum or a product, can have more digits: the message
    that shows it then raises [ValueError]. *)
Definition grade_question (form : gmap string string) (op : pstr)
  (t : tally) (i : nat) : result tally :=
  let user_answer := normalize_answer (form !! field op i "") in
  rbind (int_of_pstr (form !! field op i "_a")) (fun a =>
  rbind (int_of_pstr (form !! field op i "_b")) (fun b =>
  let op_symbol := form !! field op i "_op" in
  rbind (expected a b op_symbol) (fun correct =>
  let total_questions := total_questions t + 1 in
  let question_text := fmt_3d a +:+ " " +:+ fmt_pstr op_symbol +:+ " " +:+ fmt_3d b in
  let line := fmt_3d (Z.of_nat i + 1) +:+ ". " +:+ question_text +:+ " = "
              +:+ fmt_answer user_answer in
  match user_answer with
  | NotAnswered =>
      Ok (mk_tally (feedback_op t ++ [mk_feedback line false])
            (total_correct t) total_questions)
  | Answered n =>
      if answer_matches n correct then
        Ok (mk_tally (feedback_op t ++ [mk_feedback (line +:+ " -> Well done") true])
              (total_correct t + 1) total_questions)
      else
        rbind (fmt_expected correct) (fun expected_text =>
        Ok (mk_tally
              (feedback_op t ++
                 [mk_feedback (line +:+ " -> Try again (expected "
                                 +:+ expected_text +:+ ")") false])
              (total_correct t) total_questions))
  end))).

Fixpoint grade_questions (form : gmap string string) (op : pstr)
  (t : tally) (indices : list nat) : result tally :=
  match indices with
  | [] => Ok t
  | i :: rest => rbind (grade_question form op t i) (fun t' => grade_questions form op t' rest)
  end.

(** [key.startswith(prefix)] and [key.endswith(suffix)] *)
Definition startswith (key prefix : string) : bool := String.prefix prefix key.
Definition endswith (key suffix : string) : bool :=
  String.prefix (String.rev suffix) (String.rev key).

(** [len(op_keys)] *)
Definition nb_ops_of (form : gmap string string) (op : pstr) : nat :=
  length (List.filter (fun key => startswith key (fmt_pstr op +:+ "_") && endswith key "_a")
            (map fst (map_to_list form))).

(** The loop [for op in operations]: the feedback lists in the order of
    the operations, and the two totals. *)
Fixpoint grade_operations (form : gmap string string) (operations : list pstr)
  (feedback : by_operation feedback_item) (correct questions : Z)
  : result (by_operation feedback_item * Z * Z) :=
  match operations with
  | [] => Ok (feedback, correct, questions)
  | op :: rest =>
      rbind (grade_questions form op (mk_tally [] correct questions)
               (seq 0 (nb_ops_of form op))) (fun t =>
      grade_operations form rest (feedback ++ [(op, feedback_op t)])
        (total_correct t) (total_questions t))
  end.

(** Line 1558:
    [round((total_correct / total_questions) * 100) if total_questions > 0 else 0] *)
Definition score (total_correct total_questions : Z) : Z :=
  if 0 <? total_questions then
    round (fmul (truediv total_correct total_questions) (float_of_int 100))
  else 0.

(** The [solutions] dict built from [latest_exercises]; an entry that is
    [None] cannot be subscripted. *)
Definition solution_of (ex : option Exercise.t) : result solution_item :=
  match ex with
  | Some ex =>
      rbind (checked_fmt_3d (Exercise.a ex)) (fun a_text =>
      rbind (checked_fmt_3d (Exercise.b ex)) (fun b_text =>
      Ok (mk_solution (a_text +:+ " " +:+ Exercise.op ex +:+ " " +:+ b_text)
            (Exercise.result ex))))
  | None => Raise TypeError
  end.

Fixpoint solutions_of_list (l : list (option Exercise.t)) : result (list solution_item) :=
  match l with
  | [] => Ok []
  | ex :: rest =>
      rbind (solution_of ex) (fun x =>
      rbind (solutions_of_list rest) (fun xs => Ok (x :: xs)))
  end.

Fixpoint solutions_of (exercises : by_operation (option Exercise.t))
  : result (by_operation solution_item) :=
  match exercises with
  | [] => Ok []
  | (op, ex_list) :: rest =>
      rbind (solutions_of_list ex_list) (fun x =>
      rbind (solutions_of rest) (fun xs => Ok ((op, x) :: xs)))
  end.

(** [answers_route()] *)
Definition answers_route (sess : session) (form : gmap string string) : St response :=
  match session_user sess with
  | None => ret (mk_response (Redirect "/login") [])
  | Some _ =>
      let level := form !! "level" in
      let selected_category := form !! "selected_category" in
      let theme := form !! "theme" in
      let* s := get in
      match latest_exercises s, latest_meta s with
      | Some ((_ :: _) as exercises), Some latest_meta =>
          let* (feedback, correct, questions) :=
            lift (grade_operations form (operations_of selected_category) [] 0 0) in
          let score := score correct questions in
          let* solutions := lift (solutions_of exercises) in
          let* _ := modify (set_latest_result
                      (Some (mk_result feedback solutions score theme
                               (meta_level latest_meta)
                               (meta_selected_category latest_meta)
                               exercises (meta_pdf_columns latest_meta)))) in
          ret (mk_response (ResultPage feedback score theme) [])
      | _, _ =>
          ret (mk_response (Redirect "/") [("No exercise in progress.", "danger")])
      end
  end.

(* ===================================================================== *)
(** * Notions the statements below are written with *)
(* ===================================================================== *)

(** The usage dict of an entry once [setdefault] has run. *)
Definition usage_or_default (u : user_data) : gmap string Z :=
  default default_usage (usage_count u).

Definition with_usage (u : user_data) : user_data :=
  set_usage_count (Some (usage_or_default u)) u.

(** The globals with the entry of [email] replaced. *)
Definition update_user (email : string) (u : user_data) (s : state) : state :=
  set_users (<[email := u]> (users s)) s.

(** The counter of a tier, as [usage_count.get(level, 0)] reads it. *)
Definition tier_count (u : user_data) (t : tier) : Z :=
  dict_get (usage_or_default u) (Some (tier_name t)) 0.

(** The keys of the [setdefault] literal. *)
Definition counters : list string := levels ++ ["total"].

(** A usage dict that holds every counter, none of them negative: what
    [setdefault] creates and what the increments of [track_usage] keep. *)
Definition complete (uc : gmap string Z) : bool :=
  forallb (fun k => match uc !! k with Some n => 0 <=? n | None => false end) counters.

(** [track_usage] once per tier of a list, in order. *)
Definition track_usages (email : string) (ts : list tier) : St unit :=
  for_each ts (fun t => track_usage email (Some (tier_name t))).

(** The flash of [index_get] on an expired monthly plan. *)
Definition expired_message : string * string :=
  ("Your monthly subscription has expired. Please choose a new plan.", "warning").

(** The operand fields and the sign of a question, read and recomputed as
    [answers_route] does before it looks at the answer. *)
Definition recomputed (form : gmap string string) (op : pstr) (i : nat)
  : result (Z * Z * option Z) :=
  rbind (int_of_pstr (form !! field op i "_a")) (fun a =>
  rbind (int_of_pstr (form !! field op i "_b")) (fun b =>
  rbind (expected a b (form !! field op i "_op")) (fun correct =>
  Ok (a, b, correct)))).

(** The line of feedback of a question left unanswered. *)
Definition unanswered_line (form : gmap string string) (op : pstr) (i : nat) (a b : Z)
  : string :=
  fmt_3d (Z.of_nat i + 1) +:+ ". "
  +:+ (fmt_3d a +:+ " " +:+ fmt_pstr (form !! field op i "_op") +:+ " " +:+ fmt_3d b)
  +:+ " = " +:+ not_answered.

(* ===================================================================== *)
(** * Sample requests *)
(* ===================================================================== *)

(** The form the exercise page posts to [/answers]: the hidden fields, and
    for each exercise its operands, its sign and what was typed. *)
Definition question_fields (cat : pstr) (typed : nat -> Exercise.t -> string)
  (i : nat) (ex : option Exercise.t) : list (string * string) :=
  match ex with
  | Some ex =>
      [(field cat i "", typed i ex);
       (field cat i "_a", str_of_int (Exercise.a ex));
       (field cat i "_b", str_of_int (Exercise.b ex));
       (field cat i "_op", Exercise.op ex)]
  | None => []
  end.

Definition exercise_form (level selected_category theme : string)
  (exercises : by_operation (option Exercise.t))
  (typed : nat -> Exercise.t -> string) : gmap string string :=
  list_to_map
    ([("phase", "answers"); ("level", level);
      ("selected_category", selected_category); ("theme", theme)]
     ++ flat_map (fun '(cat, ex_list) =>
                    concat (imap (question_fields cat typed) ex_list)) exercises).

(** An account as [register_route] stores it, and the globals of a process
    that holds this account only. *)
Definition ann : string := "ann@example.org".

Definition new_account : user_data :=
  mk_user None None None None
    (list_to_map
       [("password",
         Some "5e884898da28047151d0e56f8dc6292773603d0d6aabbdd62a11ef721d1542d8");
        ("birth_date", Some "2014-05-17"); ("birth_place", Some "Rabat");
        ("father_name", Some "Omar"); ("mother_name", Some "Lina")]).

Definition only_ann (u : user_data) : state :=
  mk_state {[ann := u]} None None None (fun n => 7 * Z.of_nat n + 3) 0.

Definition ann_session : session := mk_session (Some ann) (Some "blue").

(** 40 easy additions for a monthly subscriber, the first 23 answered with
    the right sum and the others with the sum plus one. *)
Definition forty_additions : gmap string string :=
  list_to_map [("phase", "generate"); ("level", "easy"); ("category", "addition");
               ("nb_ops", "40"); ("pdf_columns", "3")].

Definition monthly_subscriber : user_data :=
  set_plan_start (Some 1750000000000000) (set_plan (Some "monthly") new_account).

Definition after_forty_additions : state :=
  (index_post ann_session forty_additions (only_ann monthly_subscriber)).2.

Definition first_23_right (i : nat) (ex : Exercise.t) : string :=
  if (i <? 23)%nat then str_of_int (Exercise.result ex)
  else str_of_int (Exercise.result ex + 1).

Definition answers_23_of_40 : gmap string string :=
  exercise_form "easy" "addition" "blue"
    (default [] (latest_exercises after_forty_additions)) first_23_right.

(** The score and the feedback items of a response of [answers_route]. *)
Definition page_score (r : result response) : option Z :=
  match r with
  | Ok (mk_response (ResultPage _ score _) _) => Some score
  | _ => None
  end.

Definition page_feedback (r : result response) : list feedback_item :=
  match r with
  | Ok (mk_response (ResultPage feedback _ _) _) => concat (map snd feedback)
  | _ => []
  end.

Definition count_correct (l : list feedback_item) : nat :=
  length (List.filter fb_correct l).

(** The account on each plan, and one that has used the free plan at two
    tiers. *)
Definition free_account : user_data := set_plan (Some "free") new_account.
Definition twenty_account : user_data := set_plan (Some "twenty") new_account.

Definition used_account : user_data :=
  set_usage_count (Some (<["easy" := 1]> (<["hard" := 1]> default_usage))) free_account.

(** A posted form with one addition answered by a word. *)
Definition word_answer : gmap string string :=
  list_to_map [("selected_category", "addition"); ("addition_0", "twelve");
               ("addition_0_a", "7"); ("addition_0_b", "5"); ("addition_0_op", "+")].

(** A posted form with one division left blank. *)
Definition blank_division : gmap string string :=
  list_to_map [("selected_category", "division"); ("division_0", "");
               ("division_0_a", "12"); ("division_0_b", "4");
               ("division_0_op", sign_div)].

(* ===================================================================== *)
(** * The invariant of the usage dicts *)
(* ===================================================================== *)

(** Every entry holds a complete usage dict, or none yet. *)
Definition users_ok (s : state) : Prop :=
  forall email u, users s !! email = Some u -> complete (usage_or_default u) = true.

(** [m], run in a state that satisfies [I], leaves a state that satisfies
    [I], whether it returns or raises, and a value it returns satisfies
    [Q]. *)
Definition keeps {A} (I : state -> Prop) (m : St A) (Q : A -> Prop) : Prop :=
  forall s, I s -> I (m s).2 /\ forall a, (m s).1 = Ok a -> Q a.


(* ===================================================================== *)
(** * Notions for the statements on counters and frames *)
(* ===================================================================== *)

(** No counter of [d'] is below the counter of [d], read with [get(k, 0)]. *)
Definition counters_grow (d d' : gmap string Z) : Prop :=
  forall k, dict_get d k 0 <= dict_get d' k 0.

(** Two states that differ at most in the entry of [email]. *)
Definition same_but_user (email : string) (s s' : state) : Prop :=
  (forall other, other <> email -> users s' !! other = users s !! other)
  /\ latest_exercises s' = latest_exercises s
  /\ latest_meta s' = latest_meta s
  /\ latest_result s' = latest_result s
  /\ random_draws s' = random_draws s
  /\ random_taken s' = random_taken s.

(** Two entries that differ at most in their usage dict. *)
Definition same_but_usage (u u' : user_data) : Prop :=
  plan u' = plan u /\ plan_start u' = plan_start u
  /\ activation_id u' = activation_id u /\ profile u' = profile u.

(** The flashes of the handlers on an exhausted free trial. *)
Definition trial_exhausted_message : string * string :=
  ("Your free trial is exhausted. Please choose another plan.", "warning").

Definition uses_exhausted_message : string * string :=
  ("You have exhausted your uses for this level.", "danger").

(** The four operations of [generate_exercise]. *)
Definition four_operations : list string :=
  ["addition"; "subtraction"; "multiplication"; "division"].

(** An exercise the grader agrees with: what [answers_route] recomputes
    from its operands and its sign is its reported result. *)
Definition agrees_with_grader (ex : option Exercise.t) : Prop :=
  exists e, ex = Some e
            /\ expected (Exercise.a e) (Exercise.b e) (Some (Exercise.op e))
               = Ok (Some (Exercise.result e)).

(** The feedback items of a feedback dict, all operations together. *)
Definition all_feedback (feedback : by_operation feedback_item) : list feedback_item :=
  concat (map snd feedback).

(** A state with exercises in progress whose solution key can be built:
    what [answers_route] needs to serve a result page. *)
Definition in_progress (s : state) : Prop :=
  exists e es m sols,
    latest_exercises s = Some (e :: es) /\ latest_meta s = Some m
    /\ solutions_of (e :: es) = Ok sols.

(* ===================================================================== *)
(** * Activation keys *)
(* ===================================================================== *)

Definition alphabet : string := "0123456789ABCDEFGHIJKLMNOPQRSTUVWXYZ".

(** [alphabet[rem]], for the remainder of a division by 36. *)
Definition alphabet_at (rem : N) : ascii :=
  match String.get (N.to_nat rem) alphabet with
  | Some c => c
  | None => "0"%char
  end.

(** The loop [while num > 0: num, rem = divmod(num, 36); key = alphabet[rem] + key],
    with a bound on the number of turns. *)
Fixpoint base36_loop (turns : nat) (num : N) (key_base36 : string) : string :=
  match turns with
  | O => key_base36
  | S turns' =>
      if (0 <? num)%N then
        base36_loop turns' (num / 36)%N (String (alphabet_at (num mod 36)%N) key_base36)
      else key_base36
  end.

(** A division by 36 takes at least one bit off, so as many turns as [num]
    has bits are enough. *)
Definition base36 (num : N) : string := base36_loop (N.size_nat num) num "".

Fixpoint zeros (n : nat) : string :=
  match n with
  | O => ""
  | S n' => String "0"%char (zeros n')
  end.

(** [s.zfill(width)]: zeros on the left, after a leading sign. *)
Definition zfill (width : nat) (s : string) : string :=
  let pad := zeros (width - String.length s) in
  match s with
  | String c s' =>
      if Ascii.eqb c "+" || Ascii.eqb c "-" then String c (pad +:+ s') else pad +:+ s
  | EmptyString => pad
  end.

(** [range(0, n, step)] *)
Fixpoint range_step (count : nat) (start step : nat) : list nat :=
  match count with
  | O => []
  | S count' => start :: range_step count' (start + step) step
  end.

(** [[s[i:i+4] for i in range(0, len(s), 4)]] *)
Definition groups_of_4 (s : string) : list string :=
  map (fun i => String.substring i 4 s)
      (range_step ((String.length s + 3) / 4) 0 4).

(** The lines of [generate_activation_key] after the hash. *)
Definition format_key (num : N) : string :=
  let key_base36 := zfill 16 (base36 num) in
  let activation_key := String.substring 0 16 key_base36 in
  String.concat "-" (groups_of_4 activation_key).

(** The value a string of [alphabet] characters writes in base 36. *)
Definition alphabet_index (c : ascii) : option N :=
  let n := nat_of_ascii c in
  if ((48 <=? n)%nat && (n <=? 57)%nat) then Some (N.of_nat (n - 48))
  else if ((65 <=? n)%nat && (n <=? 90)%nat) then Some (N.of_nat (n - 55))
  else None.

Fixpoint base36_value (acc : N) (s : string) : option N :=
  match s with
  | EmptyString => Some acc
  | String c s' =>
      match alphabet_index c with
      | Some d => base36_value (36 * acc + d)%N s'
      | None => None
      end
  end.

Fixpoint string_forall (P : ascii -> bool) (s : string) : bool :=
  match s with
  | EmptyString => true
  | String c s' => P c && string_forall P s'
  end.

Definition in_alphabet (c : ascii) : bool :=
  match alphabet_index c with Some _ => true | None => false end.

Section ActivationKey.

(** [str.lower()], on the encoded text: the lowercase mapping of Unicode is
    no part of this development, which holds for whatever function stands
    here. *)
Variable lower : string -> string.

(** [int(hashlib.sha256(data.encode()).hexdigest(), 16)] *)
Variable sha256_int : string -> N.

Definition generate_activation_key (email plan secret date_str : string) : string :=
  let data := lower email +:+ "_" +:+ plan +:+ "_" +:+ secret +:+ "_" +:+ date_str in
  format_key (sha256_int data).

(** [activate_key()]; [activation_token] is [ACTIVATION_TOKEN], [today] is
    the clock reading formatted as [%Y%m%d], and [now_str], [now] are the
    readings of [update_activation_after_payment]. *)
Definition activate_key (activation_token : string) (sess : session)
  (form : gmap string string) (today now_str : string) (now : Z) : St response :=
  match session_user sess with
  | None => ret (mk_response (Redirect "/login") [])
  | Some email =>
      let activation_key_input := form !! "activation_key" in
      let expected_key_monthly :=
        generate_activation_key email "monthly" activation_token today in
      let expected_key_twenty :=
        generate_activation_key email "twenty" activation_token today in
      if is_str activation_key_input expected_key_monthly then
        let* _ := update_activation_after_payment sess now_str now "monthly" in
        ret (mk_response (Redirect "/")
               [("Activation key valid! Your monthly plan is activated.", "success")])
      else if is_str activation_key_input expected_key_twenty then
        let* _ := update_activation_after_payment sess now_str now "twenty" in
        ret (mk_response (Redirect "/")
               [("Activation key valid! Your 20-tries plan is activated.", "success")])
      else
        ret (mk_response (Redirect "/activation") [("Invalid activation key.", "danger")])
  end.

End ActivationKey.

(* ===================================================================== *)
(** * Accounts: registration, login, passwords, the remember-me cookie *)
(* ===================================================================== *)

(** What a run of an account handler can end with besides a value: an
    exception of [exn]; the [AttributeError] of [None.encode] in
    [hash_password]; or [StoredUnderNone], which is no exception: the run
    stores an entry under the key [None] ([register_route] without an email
    field), a dict this model, whose [users] has string keys, does not
    hold. *)
Inductive error : Set :=
| Core (e : exn)
| AttributeError
| StoredUnderNone.

Inductive outcome (A : Type) : Type :=
| Done (a : A)
| Failed (e : error).
Arguments Done {A} a.
Arguments Failed {A} e.

Definition Act (A : Type) : Type := state -> outcome A * state.

(** [resp.set_cookie("remember_token", ...)]: a token that expires at a
    datetime, or the empty value that expires at once. *)
Inductive cookie : Type :=
| SetToken (token : string) (expires : Z)
| ClearToken.

Inductive account_page : Type :=
| LoginPage
| RegisterPage
| ForgotPage
| ChangePage
| GoTo (url : string).

(** The response of an account handler, with the session it leaves. *)
Record reply : Type := mk_reply {
  reply_body : account_page;
  reply_flashed : list (string * string);
  reply_session : session;
  reply_cookie : option cookie
}.

Definition set_profile (v : gmap string pstr) (u : user_data) : user_data :=
  mk_user (plan u) (plan_start u) (usage_count u) (activation_id u) v.

Definition set_session_user (v : option string) (sess : session) : session :=
  mk_session v (session_theme sess).

(** [x == y] on values that are strings or [None] *)
Definition pstr_eqb (x y : pstr) : bool := bool_decide (x = y).

(** [users[email]] for a form value, when [email in users].  The dict of
    this model has string keys: for a value that is [None] this is the
    code's answer as long as no entry has been stored under [None], which
    only [register_route] does (the run that ends in [StoredUnderNone]). *)
Definition known_user (email : pstr) (s : state) : option (string * user_data) :=
  match email with
  | Some e =>
      match users s !! e with
      | Some u => Some (e, u)
      | None => None
      end
  | None => None
  end.

Section Accounts.

(** [hashlib.sha256(password.encode('utf-8')).hexdigest()] *)
Variable sha256_hex : string -> string.

Definition hash_password (password : pstr) : outcome string :=
  match password with
  | Some p => Done (sha256_hex p)
  | None => Failed AttributeError
  end.

(** [login_route()]; [token] is what [secrets.token_hex(32)] returns and
    [now] the clock reading of the cookie's expiry. *)
Definition login_route (method : string) (form : gmap string string) (sess : session)
  (token : string) (now : Z) : Act reply :=
  fun s =>
    if String.eqb method "POST" then
      let email := form !! "email" in
      let password := form !! "password" in
      let remember := form !! "remember" in
      let invalid :=
        (Done (mk_reply LoginPage [("Invalid credentials.", "danger")] sess None), s) in
      match known_user email s with
      | Some (email, user_data) =>
          match profile user_data !! "password" with
          | None => (Failed (Core KeyError), s)
          | Some stored_hash =>
              match hash_password password with
              | Failed e => (Failed e, s)
              | Done h =>
                  if pstr_eqb stored_hash (Some h) then
                    let sess' := set_session_user (Some email) sess in
                    let flashes := [("Login successful.", "success")] in
                    if is_str remember "on" then
                      (Done (mk_reply (GoTo "/") flashes sess'
                               (Some (SetToken token (now + thirty_days)))),
                       update_user email
                         (set_profile (<["remember_token" := Some token]> (profile user_data))
                            user_data) s)
                    else
                      (Done (mk_reply (GoTo "/") flashes sess' (Some ClearToken)),
                       update_user email
                         (set_profile (delete "remember_token" (profile user_data))
                            user_data) s)
                  else invalid
              end
          end
      | None => invalid
      end
    else (Done (mk_reply LoginPage [] sess None), s).

(** [logout_route()] *)
Definition logout_route (sess : session) : Act reply :=
  fun s =>
    let s' :=
      match known_user (session_user sess) s with
      | Some (email, user_data) =>
          update_user email
            (set_profile (delete "remember_token" (profile user_data)) user_data) s
      | None => s
      end in
    (Done (mk_reply (GoTo "/login") [("Logged out.", "info")]
             (set_session_user None sess) (Some ClearToken)),
     s').

(** [register_route()] *)
Definition register_route (method : string) (form : gmap string string) (sess : session)
  : Act reply :=
  fun s =>
    if String.eqb method "POST" then
      let email := form !! "email" in
      let pw := form !! "password" in
      let cpw := form !! "confirm_password" in
      match known_user email s with
      | Some _ =>
          (Done (mk_reply RegisterPage [("This email is already used.", "warning")] sess None),
           s)
      | None =>
          if negb (pstr_eqb pw cpw) then
            (Done (mk_reply RegisterPage [("Passwords do not match.", "warning")] sess None),
             s)
          else
            match hash_password pw with
            | Failed e => (Failed e, s)
            | Done h =>
                match email with
                | None => (Failed StoredUnderNone, s)
                | Some email =>
                    (Done (mk_reply (GoTo "/login")
                             [("Account created successfully!", "success")] sess None),
                     update_user email
                       (mk_user None None None None
                          (list_to_map
                             [("password", Some h);
                              ("birth_date", form !! "birth_date");
                              ("birth_place", form !! "birth_place");
                              ("father_name", form !! "father_name");
                              ("mother_name", form !! "mother_name")])) s)
                end
            end
      end
    else (Done (mk_reply RegisterPage [] sess None), s).

(** [forgot_password_route()] *)
Definition forgot_password_route (method : string) (form : gmap string string)
  (sess : session) : Act reply :=
  fun s =>
    if String.eqb method "POST" then
      let father := form !! "father_name" in
      let mother := form !! "mother_name" in
      let new_pw := form !! "new_password" in
      let conf_pw := form !! "confirm_password" in
      match known_user (form !! "email") s with
      | None => (Done (mk_reply ForgotPage [("Email not found.", "danger")] sess None), s)
      | Some (email, user_data) =>
          if negb (pstr_eqb new_pw conf_pw) then
            (Done (mk_reply ForgotPage [("Passwords do not match.", "warning")] sess None), s)
          else
            let incorrect :=
              (Done (mk_reply ForgotPage
                       [("Incorrect verification information.", "danger")] sess None), s) in
            match profile user_data !! "father_name" with
            | None => (Failed (Core KeyError), s)
            | Some stored_father =>
                if pstr_eqb stored_father father then
                  match profile user_data !! "mother_name" with
                  | None => (Failed (Core KeyError), s)
                  | Some stored_mother =>
                      if pstr_eqb stored_mother mother then
                        match hash_password new_pw with
                        | Failed e => (Failed e, s)
                        | Done h =>
                            (Done (mk_reply (GoTo "/login")
                                     [("Password reset successfully!", "success")] sess None),
                             update_user email
                               (set_profile (<["password" := Some h]> (profile user_data))
                                  user_data) s)
                        end
                      else incorrect
                  end
                else incorrect
            end
      end
    else (Done (mk_reply ForgotPage [] sess None), s).

(** [change_password_route()] *)
Definition change_password_route (method : string) (form : gmap string string)
  (sess : session) : Act reply :=
  fun s =>
    match session_user sess with
    | None => (Done (mk_reply (GoTo "/login") [("Please log in.", "warning")] sess None), s)
    | Some email =>
        if String.eqb method "POST" then
          let old_pw := form !! "old_password" in
          let new_pw := form !! "new_password" in
          let conf_pw := form !! "confirm_password" in
          match users s !! email with
          | None => (Failed (Core KeyError), s)
          | Some user_data =>
              match profile user_data !! "password" with
              | None => (Failed (Core KeyError), s)
              | Some stored_hash =>
                  match hash_password old_pw with
                  | Failed e => (Failed e, s)
                  | Done old_hash =>
                      if negb (pstr_eqb stored_hash (Some old_hash)) then
                        (Done (mk_reply ChangePage
                                 [("Incorrect old password.", "danger")] sess None), s)
                      else if negb (pstr_eqb new_pw conf_pw) then
                        (Done (mk_reply ChangePage
                                 [("New passwords do not match.", "warning")] sess None), s)
                      else
                        match hash_password new_pw with
                        | Failed e => (Failed e, s)
                        | Done h =>
                            (Done (mk_reply (GoTo "/")
                                     [("Password changed successfully!", "success")]
                                     sess None),
                             update_user email
                               (set_profile (<["password" := Some h]> (profile user_data))
                                  user_data) s)
                        end
                  end
              end
          end
        else (Done (mk_reply ChangePage [] sess None), s)
    end.

End Accounts.

(** [users.items()], for the order [keys] in which the dict holds its
    keys. *)
Definition users_items (keys : list string) (s : state) : list (string * user_data) :=
  omap (fun email => known_user (Some email) s) keys.

(** [data.get("remember_token") == token] *)
Definition holds_token (token : string) (data : user_data) : bool :=
  match profile data !! "remember_token" with
  | Some stored => pstr_eqb stored (Some token)
  | None => false
  end.

(** [check_remember_me()], run before each request: the session it
    leaves.  [remember_token] is the cookie of the request and [keys] the
    order of [users]. *)
Definition check_remember_me (sess : session) (remember_token : pstr)
  (keys : list string) (s : state) : session :=
  match session_user sess with
  | Some _ => sess
  | None =>
      match remember_token with
      | Some token =>
          if String.eqb token "" then sess
          else
            match List.find (fun item => holds_token token item.2) (users_items keys s) with
            | Some (email, _) => set_session_user (Some email) sess
            | None => sess
            end
      | None => sess
      end
  end.

(** Two entries with the same plan, start, usage dict and activation id:
    they differ at most in the profile. *)
Definition same_plan_state (u u' : user_data) : Prop :=
  plan u' = plan u /\ plan_start u' = plan_start u
  /\ usage_count u' = usage_count u /\ activation_id u' = activation_id u.

(** The hash stored for an account. *)
Definition stored_password (u : user_data) : option pstr := profile u !! "password".

(** [in_progress], decided. *)
Definition in_progressb (s : state) : bool :=
  match latest_exercises s, latest_meta s with
  | Some (e :: es), Some _ =>
      match solutions_of (e :: es) with
      | Ok _ => true
      | Raise _ => false
      end
  | _, _ => false
  end.

(* ===================================================================== *)
(** * Sample accounts, forms and digests for the examples *)
(* ===================================================================== *)

(** A free account that has used every level once. *)
Definition exhausted_account : user_data :=
  set_usage_count
    (Some (list_to_map [("easy", 1); ("intermediate", 1); ("hard", 1);
                        ("very hard", 1); ("expert", 1); ("total", 5)]))
    free_account.

Definition choose_free : gmap string string := {["plan" := "free"]}.

Definition generate_easy : gmap string string :=
  list_to_map [("phase", "generate"); ("level", "easy")].

(** A generate form whose number of operations is a word. *)
Definition many_operations : gmap string string :=
  list_to_map [("phase", "generate"); ("level", "easy"); ("nb_ops", "many")].

(** A posted form with one addition answered by its sum. *)
Definition right_answer : gmap string string :=
  list_to_map [("selected_category", "addition"); ("addition_0", "12");
               ("addition_0_a", "7"); ("addition_0_b", "5"); ("addition_0_op", "+")].

(** A posted form whose first operand is not a number. *)
Definition bad_operand : gmap string string :=
  list_to_map [("selected_category", "addition"); ("addition_0", "3");
               ("addition_0_a", "x"); ("addition_0_b", "5"); ("addition_0_op", "+")].

(** Stand-ins for the two readings of SHA-256 and for [str.lower()] in the
    examples: the statements hold for every function in their place.
    [sample_sha256_hex] is the digest on the one password the sample
    account has, and [sample_lower] is [str.lower()] on text without
    capitals, as the addresses of the examples are. *)
Definition sample_lower (s : string) : string := s.

Definition sample_sha256_hex (s : string) : string :=
  if String.eqb s "password"
  then "5e884898da28047151d0e56f8dc6292773603d0d6aabbdd62a11ef721d1542d8"
  else "0000" +:+ s.

Definition sample_sha256_int (s : string) : N :=
  (N.of_nat (String.length s) * 1000000007 + 987654321) * 1000000000000000000000003.

Definition sample_monthly_key : string :=
  generate_activation_key sample_lower sample_sha256_int ann "monthly" "secret" "20250615".

Definition key_form : gmap string string := {["activation_key" := sample_monthly_key]}.

Definition bob : string := "bob@example.org".

Definition bob_registers : gmap string string :=
  list_to_map [("email", bob); ("password", "password"); ("confirm_password", "password");
               ("birth_date", "2013-01-02"); ("birth_place", "Fes");
               ("father_name", "Ali"); ("mother_name", "Sara")].

Definition bob_logs_in : gmap string string :=
  list_to_map [("email", bob); ("password", "password")].

Definition ann_registers_again : gmap string string :=
  list_to_map [("email", ann); ("password", "tiger"); ("confirm_password", "tiger")].

Definition ann_changes_password : gmap string string :=
  list_to_map [("old_password", "password"); ("new_password", "tiger");
               ("confirm_password", "tiger")].

Definition ann_forgot_password : gmap string string :=
  list_to_map [("email", ann); ("father_name", "Omar"); ("mother_name", "Lina");
               ("new_password", "tiger"); ("confirm_password", "tiger")].

Definition ann_logs_in_remembered : gmap string string :=
  list_to_map [("email", ann); ("password", "password"); ("remember", "on")].

Definition anonymous_session : session := mk_session None None.
(* ===================================================================== *)
(** * Properties of the generator *)
(* ===================================================================== *)

Section Monad.
Context {S A B : Type}.

Lemma bind_ok (m : M S A) (k : A -> M S B) s a s' :
  m s = (Ok a, s') -> bind m k s = k a s'.
Proof. intros H. unfold bind. now rewrite H. Qed.

Lemma bind_raise (m : M S A) (k : A -> M S B) s e s' :
  m s = (Raise e, s') -> bind m k s = (Raise e, s').
Proof. intros H. unfold bind. now rewrite H. Qed.

Lemma bind_ret (a : A) (k : A -> M S B) s : bind (ret a) k s = k a s.
Proof. reflexivity. Qed.

Lemma bind_assoc {C} (m : M S A) (k1 : A -> M S B) (k2 : B -> M S C) s :
  bind (bind m k1) k2 s = bind m (fun a => bind (k1 a) k2) s.
Proof. unfold bind. destruct (m s) as [[a | e] s']; reflexivity. Qed.
End Monad.

Section Generator.

(** [randint] on a range that is not empty takes one draw and returns a
    value of the range. *)
Lemma randint_in_range low high s :
  low <= high ->
  exists n, randint low high s = (Ok n, set_random_taken (S (random_taken s)) s)
            /\ low <= n <= high.
Proof.
  intros Hle. unfold randint.
  destruct (Z.ltb_spec high low) as [Hlt | _]; [lia |].
  eexists; split; [reflexivity |].
  pose proof (Z.mod_pos_bound (random_draws s (random_taken s)) (high - low + 1)).
  lia.
Qed.

Lemma randint_empty low high s :
  high < low -> randint low high s = (Raise ValueError, s).
Proof.
  intros Hlt. unfold randint.
  destruct (Z.ltb_spec high low); [reflexivity | lia].
Qed.

(** The division branch, for a level the table knows. *)
Lemma generate_division level b_low b_high q_low q_high s :
  div_bounds level = Some ((b_low, b_high), (q_low, q_high)) ->
  b_low <= b_high -> q_low <= q_high ->
  exists b quotient s',
    generate_exercise (Some "division") level s
    = (Ok (Some (Exercise.mk (b * quotient) b sign_div quotient
                   (len_str_of_int quotient))), s')
    /\ b_low <= b <= b_high /\ q_low <= quotient <= q_high.
Proof.
  intros Hb Hle1 Hle2.
  destruct (randint_in_range b_low b_high s Hle1) as (b & Eb & Rb).
  destruct (randint_in_range q_low q_high
              (set_random_taken (S (random_taken s)) s) Hle2) as (q & Eq & Rq).
  exists b, q. eexists. split; [| split; assumption].
  unfold generate_exercise. cbn [is_str String.eqb Ascii.eqb Bool.eqb orb].
  rewrite Hb. cbn [bound]. rewrite bind_ret.
  rewrite (bind_ok _ _ _ _ _ Eb), (bind_ok _ _ _ _ _ Eq). reflexivity.
Qed.

(** The subtraction branch, for a level the table knows. *)
Lemma generate_subtraction level low high s :
  addsub_bounds level = Some (low, high) ->
  low <= high ->
  exists a b s',
    generate_exercise (Some "subtraction") level s
    = (Ok (Some (Exercise.mk a b sign_sub (a - b) (len_str_of_int (a - b)))), s')
    /\ low <= a <= high /\ low <= b <= a.
Proof.
  intros Hb Hle.
  destruct (randint_in_range low high s Hle) as (a & Ea & Ra).
  destruct (randint_in_range low a
              (set_random_taken (S (random_taken s)) s) (proj1 Ra)) as (b & Eb & Rb).
  exists a, b. eexists. split; [| split; assumption].
  unfold generate_exercise. cbn [is_str String.eqb Ascii.eqb Bool.eqb orb].
  rewrite Hb. cbn [bound]. rewrite bind_ret.
  rewrite (bind_ok _ _ _ _ _ Ea), (bind_ok _ _ _ _ _ Eb). reflexivity.
Qed.

Lemma div_bounds_tier t :
  exists b_high q_high,
    div_bounds (Some (tier_name t)) = Some ((1, b_high), (0, q_high))
    /\ 1 <= b_high /\ 0 <= q_high.
Proof. destruct t; do 2 eexists; (split; [reflexivity | lia]). Qed.

Lemma addsub_bounds_tier t :
  exists high, addsub_bounds (Some (tier_name t)) = Some (0, high) /\ 0 <= high.
Proof. destruct t; eexists; (split; [reflexivity | lia]). Qed.

End Generator.

(** C2. For every difficulty tier and every state of the random generator,
    [generate_exercise("division", tier)] returns an exercise with
    [a = b * result]: the division of [a] by [b] leaves no remainder, and
    the reported result is the quotient [a // b]. *)
Theorem division_exercise_is_exact (t : tier) (s : state) :
  exists ex s',
    generate_exercise (Some "division") (Some (tier_name t)) s = (Ok (Some ex), s')
    /\ Exercise.op ex = sign_div
    /\ Exercise.a ex = Exercise.b ex * Exercise.result ex
    /\ Exercise.a ex mod Exercise.b ex = 0
    /\ Exercise.a ex / Exercise.b ex = Exercise.result ex.
Proof.
  destruct (div_bounds_tier t) as (bh & qh & Hb & Hbh & Hqh).
  destruct (generate_division _ _ _ _ _ s Hb Hbh Hqh) as (b & q & s' & E & Rb & Rq).
  eexists; exists s'. split; [exact E |]. cbn.
  repeat split.
  - rewrite Z.mul_comm. apply Z.mod_mul. lia.
  - rewrite Z.mul_comm. apply Z.div_mul. lia.
Qed.

(** C3. For every difficulty tier and every state of the random generator,
    [generate_exercise("subtraction", tier)] returns an exercise with
    [b <= a] and [result = a - b >= 0]. *)
Theorem subtraction_exercise_is_nonnegative (t : tier) (s : state) :
  exists ex s',
    generate_exercise (Some "subtraction") (Some (tier_name t)) s = (Ok (Some ex), s')
    /\ Exercise.op ex = sign_sub
    /\ Exercise.b ex <= Exercise.a ex
    /\ Exercise.result ex = Exercise.a ex - Exercise.b ex
    /\ 0 <= Exercise.result ex.
Proof.
  destruct (addsub_bounds_tier t) as (high & Hb & Hh).
  destruct (generate_subtraction _ _ _ s Hb Hh) as (a & b & s' & E & Ra & Rb).
  eexists; exists s'. split; [exact E |]. cbn. repeat split; lia.
Qed.

(** C10. For every difficulty tier, a division exercise from
    [generate_exercise] has a divisor [b >= 1].  The grader recomputes a
    quotient with [a // b] and no test on [b]: for either division sign it
    raises [ZeroDivisionError] when [b] is 0 and returns the floor quotient
    otherwise; on a generated exercise it returns the reported result. *)
Theorem division_divisor_is_positive (t : tier) (s : state) :
  (exists ex s',
      generate_exercise (Some "division") (Some (tier_name t)) s = (Ok (Some ex), s')
      /\ 1 <= Exercise.b ex
      /\ expected (Exercise.a ex) (Exercise.b ex) (Some (Exercise.op ex))
         = Ok (Some (Exercise.result ex)))
  /\ (forall a b,
        expected a b (Some "/")
        = if b =? 0 then Raise ZeroDivisionError else Ok (Some (a / b)))
  /\ (forall a b,
        expected a b (Some sign_div)
        = if b =? 0 then Raise ZeroDivisionError else Ok (Some (a / b))).
Proof.
  split; [| split].
  - destruct (div_bounds_tier t) as (bh & qh & Hb & Hbh & Hqh).
    destruct (generate_division _ _ _ _ _ s Hb Hbh Hqh) as (b & q & s' & E & Rb & Rq).
    eexists; exists s'. split; [exact E |].
    cbn [Exercise.a Exercise.b Exercise.op Exercise.result].
    split; [lia |].
    unfold expected, sign_div, sign_mul. cbn [is_str String.eqb Ascii.eqb Bool.eqb orb].
    unfold floordiv. destruct (Z.eqb_spec b 0); [lia |]. cbn [rbind].
    rewrite Z.mul_comm, Z.div_mul by lia. reflexivity.
  - intros a b. unfold expected, sign_div, sign_mul, floordiv.
    cbn [is_str String.eqb Ascii.eqb Bool.eqb orb]. destruct (b =? 0); reflexivity.
  - intros a b. unfold expected, sign_div, sign_mul, floordiv.
    cbn [is_str String.eqb Ascii.eqb Bool.eqb orb]. destruct (b =? 0); reflexivity.
Qed.

(* ===================================================================== *)
(** * Properties of the tracker *)
(* ===================================================================== *)

Section Store.

Lemma update_user_lookup email u s :
  users (update_user email u s) !! email = Some u.
Proof. unfold update_user. cbn [users set_users]. apply lookup_insert_eq. Qed.

Lemma update_user_lookup_ne email email' u s :
  email <> email' -> users (update_user email u s) !! email' = users s !! email'.
Proof. intros H. unfold update_user. cbn [users set_users]. now apply lookup_insert_ne. Qed.

Lemma update_user_twice email u1 u2 s :
  update_user email u2 (update_user email u1 s) = update_user email u2 s.
Proof.
  unfold update_user. cbn [users set_users]. rewrite insert_insert_eq.
  destruct s; reflexivity.
Qed.

Lemma update_user_same email u s :
  users s !! email = Some u -> update_user email u s = s.
Proof.
  intros H. unfold update_user. rewrite insert_id by exact H.
  destruct s; reflexivity.
Qed.

Lemma with_usage_some u d : usage_count u = Some d -> with_usage u = u.
Proof. intros H. destruct u; cbn in *. unfold with_usage, usage_or_default; cbn. now subst. Qed.

Lemma usage_count_with_usage u : usage_count (with_usage u) = Some (usage_or_default u).
Proof. reflexivity. Qed.

Lemma plan_with_usage u : plan (with_usage u) = plan u.
Proof. reflexivity. Qed.

Lemma user_of_ok email u s :
  users s !! email = Some u -> user_of email s = (Ok u, s).
Proof. intros H. unfold user_of, bind, get, item. rewrite H. reflexivity. Qed.

Lemma user_of_missing email s :
  users s !! email = None -> user_of email s = (Raise KeyError, s).
Proof. intros H. unfold user_of, bind, get, item. rewrite H. reflexivity. Qed.

Lemma store_user_ok email u s :
  store_user email u s = (Ok tt, update_user email u s).
Proof. reflexivity. Qed.

(** [setdefault] returns the usage dict and leaves it in the entry. *)
Lemma usage_count_setdefault_ok email u s :
  users s !! email = Some u ->
  usage_count_setdefault email s
  = (Ok (usage_or_default u), update_user email (with_usage u) s).
Proof.
  intros H. unfold usage_count_setdefault.
  rewrite (bind_ok _ _ _ _ _ (user_of_ok _ _ _ H)).
  destruct (usage_count u) as [d |] eqn:E.
  - rewrite (with_usage_some _ _ E), (update_user_same _ _ _ H).
    unfold usage_or_default. rewrite E. reflexivity.
  - rewrite (bind_ok _ _ _ _ _ (store_user_ok _ _ _)).
    unfold usage_or_default, with_usage, usage_or_default. rewrite E. reflexivity.
Qed.

Lemma usage_count_incr_ok email u d k n s :
  users s !! email = Some u -> usage_count u = Some d -> d !! k = Some n ->
  usage_count_incr email (Some k) s
  = (Ok tt, update_user email (set_usage_count (Some (<[k := n + 1]> d)) u) s).
Proof.
  intros H Hd Hk. unfold usage_count_incr.
  rewrite (bind_ok _ _ _ _ _ (user_of_ok _ _ _ H)).
  rewrite Hd. cbn [item]. rewrite bind_ret. rewrite bind_ret.
  rewrite Hk. cbn [item]. rewrite bind_ret. reflexivity.
Qed.

Lemma usage_count_incr_missing email u d k s :
  users s !! email = Some u -> usage_count u = Some d -> d !! k = None ->
  usage_count_incr email (Some k) s = (Raise KeyError, s).
Proof.
  intros H Hd Hk. unfold usage_count_incr.
  rewrite (bind_ok _ _ _ _ _ (user_of_ok _ _ _ H)).
  rewrite Hd. cbn [item]. rewrite bind_ret. rewrite bind_ret.
  rewrite Hk. reflexivity.
Qed.

End Store.

Section Tracker.

(** What [can_use_plan] answers for a plan name and a usage dict. *)
Lemma can_use_plan_ok email level u p s :
  users s !! email = Some u -> plan u = Some p ->
  can_use_plan email level s
  = ((if String.eqb p "free" then Ok (dict_get (usage_or_default u) level 0 <? 1)
      else if String.eqb p "monthly" then Ok true
      else if String.eqb p "twenty" then
        match usage_or_default u !! "total" with
        | Some total => Ok (total <? 20)
        | None => Raise KeyError
        end
      else Ok false),
     update_user email (with_usage u) s).
Proof.
  intros H Hp. unfold can_use_plan.
  rewrite (bind_ok _ _ _ _ _ (user_of_ok _ _ _ H)).
  rewrite (bind_ok _ _ _ _ _ (usage_count_setdefault_ok _ _ _ H)).
  rewrite (bind_ok _ _ _ _ _ (user_of_ok _ _ _ (update_user_lookup _ _ _))).
  rewrite plan_with_usage, Hp. cbn [item]. rewrite bind_ret.
  destruct (String.eqb p "free"); [reflexivity |].
  destruct (String.eqb p "monthly"); [reflexivity |].
  destruct (String.eqb p "twenty"); [| reflexivity].
  destruct (usage_or_default u !! "total"); reflexivity.
Qed.

(** An entry without the key ["plan"]: the subscript raises, once
    [setdefault] has run. *)
Lemma can_use_plan_no_plan email level u s :
  users s !! email = Some u -> plan u = None ->
  can_use_plan email level s = (Raise KeyError, update_user email (with_usage u) s).
Proof.
  intros H Hp. unfold can_use_plan.
  rewrite (bind_ok _ _ _ _ _ (user_of_ok _ _ _ H)).
  rewrite (bind_ok _ _ _ _ _ (usage_count_setdefault_ok _ _ _ H)).
  rewrite (bind_ok _ _ _ _ _ (user_of_ok _ _ _ (update_user_lookup _ _ _))).
  rewrite plan_with_usage, Hp. reflexivity.
Qed.

Lemma track_usage_free email u k n s :
  users s !! email = Some u -> plan u = Some "free" ->
  usage_or_default u !! k = Some n ->
  track_usage email (Some k) s
  = (Ok tt, update_user email
              (set_usage_count (Some (<[k := n + 1]> (usage_or_default u))) u) s).
Proof.
  intros H Hp Hk. unfold track_usage.
  rewrite (bind_ok _ _ _ _ _ (user_of_ok _ _ _ H)).
  rewrite (bind_ok _ _ _ _ _ (usage_count_setdefault_ok _ _ _ H)).
  rewrite (bind_ok _ _ _ _ _ (user_of_ok _ _ _ (update_user_lookup _ _ _))).
  rewrite plan_with_usage, Hp. cbn [item]. rewrite bind_ret.
  cbn [String.eqb Ascii.eqb Bool.eqb].
  rewrite (bind_ok _ _ _ _ _
             (usage_count_incr_ok _ _ _ _ _ _ (update_user_lookup _ _ _)
                (usage_count_with_usage u) Hk)).
  rewrite update_user_twice. reflexivity.
Qed.

Lemma track_usage_twenty email u k n total s :
  users s !! email = Some u -> plan u = Some "twenty" ->
  usage_or_default u !! "total" = Some total ->
  k <> "total" -> usage_or_default u !! k = Some n ->
  track_usage email (Some k) s
  = (Ok tt, update_user email
              (set_usage_count
                 (Some (<[k := n + 1]> (<["total" := total + 1]> (usage_or_default u)))) u) s).
Proof.
  intros H Hp Ht Hne Hk. unfold track_usage.
  rewrite (bind_ok _ _ _ _ _ (user_of_ok _ _ _ H)).
  rewrite (bind_ok _ _ _ _ _ (usage_count_setdefault_ok _ _ _ H)).
  rewrite (bind_ok _ _ _ _ _ (user_of_ok _ _ _ (update_user_lookup _ _ _))).
  rewrite plan_with_usage, Hp. cbn [item]. rewrite bind_ret.
  cbn [String.eqb Ascii.eqb Bool.eqb].
  rewrite bind_assoc.
  rewrite (bind_ok _ _ _ _ _
             (usage_count_incr_ok _ _ _ _ _ _ (update_user_lookup _ _ _)
                (usage_count_with_usage u) Ht)).
  rewrite update_user_twice.
  set (d := <["total" := total + 1]> (usage_or_default u)).
  assert (Hk' : d !! k = Some n).
  { unfold d. rewrite lookup_insert_ne by congruence. exact Hk. }
  rewrite (bind_ok _ _ _ _ _
             (usage_count_incr_ok _ (set_usage_count (Some d) (with_usage u)) d k n _
                (update_user_lookup _ _ _) eq_refl Hk')).
  rewrite update_user_twice. reflexivity.
Qed.

End Tracker.

Section Counters.

Lemma tier_name_inj t t' : tier_name t = tier_name t' -> t = t'.
Proof. destruct t, t'; intros H; (reflexivity || discriminate H). Qed.

Lemma tier_name_not_total t : tier_name t <> "total".
Proof. destruct t; discriminate. Qed.

Lemma tier_name_counter t : In (tier_name t) counters.
Proof. destruct t; cbn; tauto. Qed.

Lemma total_counter : In "total" counters.
Proof. cbn; tauto. Qed.

Lemma complete_lookup uc k :
  complete uc = true -> In k counters -> exists n, uc !! k = Some n /\ 0 <= n.
Proof.
  unfold complete. rewrite forallb_forall. intros H Hin.
  specialize (H k Hin). destruct (uc !! k) as [n |]; [| discriminate].
  exists n. split; [reflexivity | lia].
Qed.

Lemma complete_incr uc k n :
  complete uc = true -> uc !! k = Some n -> complete (<[k := n + 1]> uc) = true.
Proof.
  intros H Hk. pose proof H as H'. unfold complete in *.
  rewrite forallb_forall in *. intros key Hin.
  destruct (decide (k = key)) as [<- | Hne].
  - rewrite lookup_insert_eq. specialize (H k Hin). rewrite Hk in H. lia.
  - rewrite lookup_insert_ne by exact Hne. apply H, Hin.
Qed.

Lemma complete_default_usage : complete default_usage = true.
Proof. vm_compute. reflexivity. Qed.

Lemma usage_or_default_set uc u :
  usage_or_default (set_usage_count (Some uc) u) = uc.
Proof. reflexivity. Qed.

End Counters.

(** C4. For every account on the free plan and every tier,
    [can_use_plan] answers true exactly when the counter of the tier is
    below 1.  After one [track_usage] at a tier whose counter is there and
    not negative, [can_use_plan] answers false for that tier, and still true
    for every other tier whose counter is 0. *)
Theorem free_plan_one_use_per_tier (s : state) (email : string) (u : user_data) (t : tier) :
  users s !! email = Some u -> plan u = Some "free" ->
  (can_use_plan email (Some (tier_name t)) s).1 = Ok (tier_count u t <? 1)
  /\ forall n, usage_or_default u !! tier_name t = Some n -> 0 <= n ->
       exists s',
         track_usage email (Some (tier_name t)) s = (Ok tt, s')
         /\ (can_use_plan email (Some (tier_name t)) s').1 = Ok false
         /\ forall t', t' <> t -> tier_count u t' = 0 ->
              (can_use_plan email (Some (tier_name t')) s').1 = Ok true.
Proof.
  intros H Hp. split.
  - rewrite (can_use_plan_ok _ _ _ _ _ H Hp). reflexivity.
  - intros n Hn H0. eexists. split; [apply (track_usage_free _ _ _ _ _ H Hp Hn) |].
    set (u' := set_usage_count _ u).
    assert (Hu' : forall lvl,
               (can_use_plan email lvl (update_user email u' s)).1
               = Ok (dict_get (<[tier_name t := n + 1]> (usage_or_default u)) lvl 0 <? 1)).
    { intros lvl.
      rewrite (can_use_plan_ok _ _ u' "free" _ (update_user_lookup _ _ _) Hp).
      reflexivity. }
    split.
    + rewrite Hu'. cbn [dict_get]. rewrite lookup_insert_eq.
      destruct (Z.ltb_spec (n + 1) 1); [lia | reflexivity].
    + intros t' Hne Hc. rewrite Hu'. cbn [dict_get].
      rewrite lookup_insert_ne by (intros E; apply Hne; symmetry; now apply tier_name_inj).
      unfold tier_count in Hc. cbn [dict_get] in Hc. rewrite Hc. reflexivity.
Qed.

Section Twenty.

Variables (email : string).

(** One [track_usage] on the fixed-count plan: both counters move by 1,
    the plan stays, and the usage dict stays complete. *)
Lemma track_usage_twenty_step s u t total :
  users s !! email = Some u -> plan u = Some "twenty" ->
  complete (usage_or_default u) = true ->
  usage_or_default u !! "total" = Some total ->
  exists s' u',
    track_usage email (Some (tier_name t)) s = (Ok tt, s')
    /\ users s' !! email = Some u' /\ plan u' = Some "twenty"
    /\ complete (usage_or_default u') = true
    /\ usage_or_default u' !! "total" = Some (total + 1)
    /\ tier_count u' t = tier_count u t + 1
    /\ (forall t', t' <> t -> tier_count u' t' = tier_count u t').
Proof.
  intros H Hp Hc Ht.
  destruct (complete_lookup _ _ Hc (tier_name_counter t)) as (n & Hn & _).
  do 2 eexists.
  split; [apply (track_usage_twenty _ _ _ _ _ _ H Hp Ht (tier_name_not_total t) Hn) |].
  split; [apply update_user_lookup |].
  split; [exact Hp |].
  rewrite usage_or_default_set.
  assert (Hn' : <["total" := total + 1]> (usage_or_default u) !! tier_name t = Some n).
  { rewrite lookup_insert_ne by (intros E; symmetry in E; now apply tier_name_not_total in E).
    exact Hn. }
  split; [| split; [| split]].
  - apply complete_incr; [apply complete_incr; assumption | exact Hn'].
  - rewrite lookup_insert_ne by apply tier_name_not_total. apply lookup_insert_eq.
  - unfold tier_count. rewrite usage_or_default_set. cbn [dict_get].
    rewrite lookup_insert_eq, Hn. reflexivity.
  - intros t' Hne. unfold tier_count. rewrite usage_or_default_set. cbn [dict_get].
    rewrite lookup_insert_ne by (intros E; apply Hne; symmetry; now apply tier_name_inj).
    rewrite lookup_insert_ne
      by (intros E; symmetry in E; now apply tier_name_not_total in E).
    reflexivity.
Qed.

(** Any number of [track_usage] calls, in any tier mix: the total counter
    moves by the number of calls. *)
Lemma track_usages_twenty ts : forall s u total,
  users s !! email = Some u -> plan u = Some "twenty" ->
  complete (usage_or_default u) = true ->
  usage_or_default u !! "total" = Some total ->
  exists s' u',
    track_usages email ts s = (Ok tt, s')
    /\ users s' !! email = Some u' /\ plan u' = Some "twenty"
    /\ complete (usage_or_default u') = true
    /\ usage_or_default u' !! "total" = Some (total + Z.of_nat (length ts)).
Proof.
  induction ts as [| t ts IH]; intros s u total H Hp Hc Ht.
  - exists s, u. rewrite Z.add_0_r. repeat split; assumption.
  - destruct (track_usage_twenty_step s u t total H Hp Hc Ht)
      as (s1 & u1 & E1 & H1 & Hp1 & Hc1 & Ht1 & _).
    destruct (IH s1 u1 (total + 1) H1 Hp1 Hc1 Ht1) as (s2 & u2 & E2 & H2 & Hp2 & Hc2 & Ht2).
    exists s2, u2. split.
    + unfold track_usages. cbn [for_each]. rewrite (bind_ok _ _ _ _ _ E1). exact E2.
    + repeat split; try assumption.
      rewrite Ht2. f_equal. cbn [length]. lia.
Qed.

End Twenty.

(** C5. For every account on the fixed-count plan whose usage dict holds
    every counter, [can_use_plan] answers true exactly when the total
    counter is below 20, whatever the tier.  Each [track_usage] adds exactly
    1 to the total counter and 1 to the counter of the tier.  After 20
    [track_usage] calls, in any tier mix, [can_use_plan] answers false for
    every tier. *)
Theorem twenty_plan_twenty_uses (s : state) (email : string) (u : user_data) :
  users s !! email = Some u -> plan u = Some "twenty" ->
  complete (usage_or_default u) = true ->
  exists total,
    usage_or_default u !! "total" = Some total
    /\ (forall level, (can_use_plan email level s).1 = Ok (total <? 20))
    /\ (forall t, exists s' u',
           track_usage email (Some (tier_name t)) s = (Ok tt, s')
           /\ users s' !! email = Some u'
           /\ usage_or_default u' !! "total" = Some (total + 1)
           /\ tier_count u' t = tier_count u t + 1
           /\ (forall t', t' <> t -> tier_count u' t' = tier_count u t'))
    /\ (forall ts, length ts = 20%nat ->
          exists s', track_usages email ts s = (Ok tt, s')
                     /\ forall level, (can_use_plan email level s').1 = Ok false).
Proof.
  intros H Hp Hc.
  destruct (complete_lookup _ _ Hc total_counter) as (total & Ht & H0).
  exists total. split; [exact Ht |]. split; [| split].
  - intros level. rewrite (can_use_plan_ok _ _ _ _ _ H Hp).
    cbn [String.eqb Ascii.eqb Bool.eqb]. rewrite Ht. reflexivity.
  - intros t.
    destruct (track_usage_twenty_step email s u t total H Hp Hc Ht)
      as (s' & u' & E & H' & _ & _ & Ht' & Hc' & Ho).
    exists s', u'. repeat split; assumption.
  - intros ts Hlen.
    destruct (track_usages_twenty email ts s u total H Hp Hc Ht)
      as (s' & u' & E & H' & Hp' & _ & Ht').
    exists s'. split; [exact E |].
    intros level. rewrite (can_use_plan_ok _ _ _ _ _ H' Hp').
    cbn [String.eqb Ascii.eqb Bool.eqb]. rewrite Ht', Hlen.
    destruct (Z.ltb_spec (total + Z.of_nat 20) 20); [lia | reflexivity].
Qed.

(* ===================================================================== *)
(** * Properties of the request handlers *)
(* ===================================================================== *)

Section Handlers.

Variables (sess : session) (email : string).
Hypothesis logged_in : session_user sess = Some email.

(** Once the usage dict is in the entry, [can_use_plan] changes nothing. *)
Lemma can_use_plan_settled level u d p s :
  users s !! email = Some u -> usage_count u = Some d -> plan u = Some p ->
  (can_use_plan email level s).2 = s.
Proof.
  intros H Hd Hp. rewrite (can_use_plan_ok _ _ _ _ _ H Hp). cbn [snd].
  rewrite (with_usage_some _ _ Hd). now apply update_user_same.
Qed.

Lemma can_use_dict_monthly u d s (ls : list string) :
  users s !! email = Some u -> usage_count u = Some d -> plan u = Some "monthly" ->
  list_comp ls (fun lvl => bind (can_use_plan email (Some lvl)) (fun ok => ret (lvl, ok))) s
  = (Ok (map (fun lvl => (lvl, true)) ls), s).
Proof.
  intros H Hd Hp. induction ls as [| lvl ls IH]; [reflexivity |].
  cbn [list_comp map].
  pose proof (can_use_plan_ok email (Some lvl) u "monthly" s H Hp) as E.
  cbn [String.eqb Ascii.eqb Bool.eqb] in E.
  rewrite (with_usage_some _ _ Hd), (update_user_same _ _ _ H) in E.
  rewrite bind_assoc, (bind_ok _ _ _ _ _ E), bind_ret.
  rewrite (bind_ok _ _ _ _ _ IH). reflexivity.
Qed.

(** [index_get] for an account on the monthly plan. *)
Lemma index_get_monthly u start now s :
  users s !! email = Some u -> plan u = Some "monthly" -> plan_start u = Some start ->
  index_get sess now s
  = if start + thirty_days <? now then
      (Ok (mk_response (Redirect "/choose_plan") [expired_message]),
       update_user email (set_plan_start None (set_plan None u)) s)
    else
      (Ok (mk_response
             (SelectionPage "monthly" (usage_or_default u) (Some start)
                (Some (start + thirty_days)) (map (fun lvl => (lvl, true)) levels)) []),
       update_user email (with_usage u) s).
Proof.
  intros H Hp Hs. unfold index_get. rewrite logged_in.
  rewrite (bind_ok _ _ _ _ _ (user_of_ok _ _ _ H)). rewrite Hp.
  cbn [String.eqb Ascii.eqb Bool.eqb]. rewrite Hs. cbn [item].
  rewrite bind_assoc, bind_ret, bind_ret.
  destruct (start + thirty_days <? now); [reflexivity |].
  rewrite bind_ret.
  rewrite (bind_ok _ _ _ _ _ (usage_count_setdefault_ok _ _ _ H)).
  set (s1 := update_user email (with_usage u) s).
  assert (H1 : users s1 !! email = Some (with_usage u)) by apply update_user_lookup.
  rewrite (bind_ok _ _ _ _ _
             (can_use_dict_monthly (with_usage u) _ s1 levels H1 eq_refl Hp)).
  rewrite (bind_ok _ _ _ _ _ (user_of_ok _ _ _ H1)).
  rewrite plan_with_usage, Hp. cbn [item]. rewrite bind_ret.
  cbn [String.eqb Ascii.eqb Bool.eqb].
  change (plan_start (with_usage u)) with (plan_start u). rewrite Hs.
  reflexivity.
Qed.

(** An entry without the key ["plan"]: both index handlers redirect to
    the plan selection and touch nothing. *)
Lemma index_get_no_plan u now s :
  users s !! email = Some u -> plan u = None ->
  index_get sess now s = (Ok (mk_response (Redirect "/choose_plan") []), s).
Proof.
  intros H Hp. unfold index_get. rewrite logged_in.
  rewrite (bind_ok _ _ _ _ _ (user_of_ok _ _ _ H)). rewrite Hp. reflexivity.
Qed.

Lemma index_post_no_plan u form s :
  users s !! email = Some u -> plan u = None ->
  index_post sess form s = (Ok (mk_response (Redirect "/choose_plan") []), s).
Proof.
  intros H Hp. unfold index_post. rewrite logged_in.
  rewrite (bind_ok _ _ _ _ _ (user_of_ok _ _ _ H)). rewrite Hp. reflexivity.
Qed.

(** [choose_plan] returns, and writes at most the plan and a usage dict
    that was missing. *)
Lemma choose_plan_entry u method form s :
  users s !! email = Some u ->
  exists r s' u',
    choose_plan sess method form s = (Ok r, s')
    /\ users s' !! email = Some u'
    /\ usage_count (with_usage u') = usage_count (with_usage u)
    /\ (usage_count u' = usage_count u \/ usage_count u = None).
Proof.
  intros H. unfold choose_plan. rewrite logged_in.
  rewrite (bind_ok _ _ _ _ _ (user_of_ok _ _ _ H)).
  destruct (String.eqb method "POST");
    [| do 2 eexists; exists u; split; [reflexivity | auto]].
  destruct (is_str (form !! "plan") "monthly" || is_str (form !! "plan") "twenty");
    [do 2 eexists; exists u; split; [reflexivity | auto] |].
  destruct (negb _);
    [do 2 eexists; exists u; split; [reflexivity | auto] |].
  destruct (is_str (form !! "plan") "free" && _);
    [do 2 eexists; exists u; split; [reflexivity | auto] |].
  rewrite (bind_ok _ _ _ _ _ (store_user_ok _ _ _)).
  rewrite (bind_ok _ _ _ _ _
             (usage_count_setdefault_ok _ _ _ (update_user_lookup _ _ _))).
  rewrite update_user_twice.
  do 3 eexists. split; [reflexivity |].
  split; [apply update_user_lookup |].
  split; [reflexivity |].
  destruct (usage_count u) eqn:E; [left | right; reflexivity].
  cbn. unfold usage_or_default. cbn. rewrite E. reflexivity.
Qed.

(** [update_activation_after_payment] returns, and writes the plan, its
    start and the activation id only. *)
Lemma update_activation_entry u now_str now p s :
  users s !! email = Some u ->
  exists s' u',
    update_activation_after_payment sess now_str now p s = (Ok tt, s')
    /\ users s' !! email = Some u'
    /\ usage_count u' = usage_count u
    /\ profile u' = profile u.
Proof.
  intros H. unfold update_activation_after_payment. rewrite logged_in.
  cbn [item]. rewrite bind_ret.
  rewrite (bind_ok _ _ _ _ _ (user_of_ok _ _ _ H)).
  destruct (String.eqb p "monthly");
    [do 2 eexists; split; [reflexivity |];
     split; [apply update_user_lookup | split; reflexivity] |].
  destruct (String.eqb p "twenty");
    [do 2 eexists; split; [reflexivity |];
     split; [apply update_user_lookup | split; reflexivity] |].
  exists s, u. repeat split. exact H.
Qed.

End Handlers.

(** C1 (as the code has it). For every account whose entry has no plan
    field and every level, [can_use_plan] authorizes nothing: it raises
    [KeyError].  The handlers [index_get] and [index_post] test for the
    missing field before they call it and redirect to the plan selection,
    leaving the globals as they are.  For an entry whose plan is none of
    free, monthly and twenty, [can_use_plan] returns false. *)
Theorem no_plan_is_guarded_by_handlers (s : state) (email : string) (u : user_data) :
  users s !! email = Some u ->
  (plan u = None ->
     (forall level, (can_use_plan email level s).1 = Raise KeyError)
     /\ (forall sess form, session_user sess = Some email ->
           index_post sess form s = (Ok (mk_response (Redirect "/choose_plan") []), s))
     /\ (forall sess now, session_user sess = Some email ->
           index_get sess now s = (Ok (mk_response (Redirect "/choose_plan") []), s)))
  /\ (forall p, plan u = Some p -> p <> "free" -> p <> "monthly" -> p <> "twenty" ->
        forall level, (can_use_plan email level s).1 = Ok false).
Proof.
  intros H. split.
  - intros Hp. split; [| split].
    + intros level. now rewrite (can_use_plan_no_plan _ _ _ _ H Hp).
    + intros sess form Hs. exact (index_post_no_plan sess email Hs u form s H Hp).
    + intros sess now Hs. exact (index_get_no_plan sess email Hs u now s H Hp).
  - intros p Hp Hf Hm Ht level. rewrite (can_use_plan_ok _ _ _ _ _ H Hp).
    apply String.eqb_neq in Hf, Hm, Ht. rewrite Hf, Hm, Ht. reflexivity.
Qed.

(** C8. For every account on the monthly plan, [can_use_plan] answers
    true for every level, whatever the usage counters.  The expiry test of
    [index_get] removes the plan exactly when [now > plan_start + 30 days]:
    past 30 days the fields [plan] and [plan_start] are removed and the
    handler redirects to the plan selection; up to 30 days, the 30th day's
    last instant included, both fields stay and the selection page is
    served. *)
Theorem monthly_plan_expires_after_thirty_days
  (s : state) (email : string) (u : user_data) (start : Z) :
  users s !! email = Some u -> plan u = Some "monthly" -> plan_start u = Some start ->
  (forall level, (can_use_plan email level s).1 = Ok true)
  /\ forall sess now, session_user sess = Some email ->
       (start + thirty_days < now ->
          exists u',
            index_get sess now s
            = (Ok (mk_response (Redirect "/choose_plan") [expired_message]),
               update_user email u' s)
            /\ plan u' = None /\ plan_start u' = None
            /\ usage_count u' = usage_count u)
       /\ (now <= start + thirty_days ->
             exists r s' u',
               index_get sess now s = (Ok (mk_response r []), s')
               /\ r <> Redirect "/choose_plan"
               /\ users s' !! email = Some u'
               /\ plan u' = Some "monthly" /\ plan_start u' = Some start)
       /\ (now = start + thirty_days ->
             exists u', users (index_get sess now s).2 !! email = Some u'
                        /\ plan u' = Some "monthly" /\ plan_start u' = Some start).
Proof.
  intros H Hp Hs. split.
  - intros level. now rewrite (can_use_plan_ok _ _ _ _ _ H Hp).
  - intros sess now Hl.
    pose proof (index_get_monthly sess email Hl u start now s H Hp Hs) as E.
    split; [| split].
    + intros Hlt. destruct (Z.ltb_spec (start + thirty_days) now); [| lia].
      eexists. split; [exact E |]. repeat split.
    + intros Hle. destruct (Z.ltb_spec (start + thirty_days) now); [lia |].
      do 3 eexists. split; [exact E |].
      split; [discriminate |]. split; [apply update_user_lookup |].
      split; [exact Hp | exact Hs].
    + intros ->. destruct (Z.ltb_spec (start + thirty_days) (start + thirty_days)); [lia |].
      rewrite E. eexists. split; [apply update_user_lookup |].
      split; [exact Hp | exact Hs].
Qed.

(** C9. For every account, the plan activations ([choose_plan], and
    [update_activation_after_payment] once a paid plan is confirmed) and the
    expiry of [index_get] leave the usage dict the entry holds as it is: no
    counter, of a tier or the total, is cleared or reset. *)
Theorem plan_change_keeps_usage_count
  (s : state) (sess : session) (email : string) (u : user_data) (uc : gmap string Z) :
  session_user sess = Some email ->
  users s !! email = Some u -> usage_count u = Some uc ->
  (forall method form, exists r s' u',
      choose_plan sess method form s = (Ok r, s')
      /\ users s' !! email = Some u' /\ usage_count u' = Some uc)
  /\ (forall now_str now p, exists s' u',
        update_activation_after_payment sess now_str now p s = (Ok tt, s')
        /\ users s' !! email = Some u' /\ usage_count u' = Some uc)
  /\ (forall now start, plan u = Some "monthly" -> plan_start u = Some start ->
        start + thirty_days < now ->
        exists r s' u',
          index_get sess now s = (Ok r, s')
          /\ users s' !! email = Some u' /\ plan u' = None /\ usage_count u' = Some uc).
Proof.
  intros Hl H Hu. split; [| split].
  - intros method form.
    destruct (choose_plan_entry sess email Hl u method form s H)
      as (r & s' & u' & E & H' & _ & [Hk | Hk]).
    + exists r, s', u'. repeat split; [exact E | exact H' | congruence].
    + congruence.
  - intros now_str now p.
    destruct (update_activation_entry sess email Hl u now_str now p s H)
      as (s' & u' & E & H' & Hk & _).
    exists s', u'. repeat split; [exact E | exact H' | congruence].
  - intros now start Hp Hs Hlt.
    pose proof (index_get_monthly sess email Hl u start now s H Hp Hs) as E.
    destruct (Z.ltb_spec (start + thirty_days) now); [| lia].
    do 3 eexists. split; [exact E |].
    split; [apply update_user_lookup |]. split; [reflexivity | exact Hu].
Qed.

(* ===================================================================== *)
(** * Properties of the grader *)
(* ===================================================================== *)

Section Grader.

Lemma strip_empty : strip "" = "".
Proof. reflexivity. Qed.

Lemma int_of_str_empty : int_of_str "" = None.
Proof. reflexivity. Qed.

(** The three ways of giving no answer. *)
Lemma normalize_answer_unanswered (user_answer : pstr) :
  user_answer = None \/ user_answer = Some ""
  \/ (exists s, user_answer = Some s /\ int_of_str s = None) ->
  normalize_answer user_answer = NotAnswered.
Proof.
  intros [-> | [-> | (s & -> & Hs)]]; [reflexivity | reflexivity |].
  unfold normalize_answer. rewrite Hs. now destruct (String.eqb (strip s) "").
Qed.

(** A turn of the loop raises what reading the operands raises. *)
Lemma recomputed_raises form op t i e :
  recomputed form op i = Raise e -> grade_question form op t i = Raise e.
Proof.
  unfold grade_question, recomputed.
  destruct (int_of_pstr (form !! field op i "_a")) as [a |]; cbn [rbind];
    [| now intros [= ->]].
  destruct (int_of_pstr (form !! field op i "_b")) as [b |]; cbn [rbind];
    [| now intros [= ->]].
  destruct (expected a b (form !! field op i "_op")) as [c |]; cbn [rbind];
    [discriminate | now intros [= ->]].
Qed.

(** On a question with no answer it raises nothing else. *)
Lemma grade_question_raises form op t i e :
  normalize_answer (form !! field op i "") = NotAnswered ->
  grade_question form op t i = Raise e <-> recomputed form op i = Raise e.
Proof.
  intros Hn. split; [| apply recomputed_raises].
  unfold grade_question, recomputed. rewrite Hn.
  destruct (int_of_pstr (form !! field op i "_a")) as [a |]; cbn [rbind];
    [| now intros [= ->]].
  destruct (int_of_pstr (form !! field op i "_b")) as [b |]; cbn [rbind];
    [| now intros [= ->]].
  destruct (expected a b (form !! field op i "_op")) as [c |]; cbn [rbind];
    [discriminate | now intros [= ->]].
Qed.

Lemma grade_question_unanswered form op t i a b correct :
  normalize_answer (form !! field op i "") = NotAnswered ->
  recomputed form op i = Ok (a, b, correct) ->
  grade_question form op t i
  = Ok (mk_tally (feedback_op t ++ [mk_feedback (unanswered_line form op i a b) false])
          (total_correct t) (total_questions t + 1)).
Proof.
  unfold grade_question, recomputed. intros ->.
  destruct (int_of_pstr (form !! field op i "_a")) as [a' |]; cbn [rbind]; [| discriminate].
  destruct (int_of_pstr (form !! field op i "_b")) as [b' |]; cbn [rbind]; [| discriminate].
  destruct (expected a' b' (form !! field op i "_op")) as [c |]; cbn [rbind]; [| discriminate].
  intros [= -> -> ->]. reflexivity.
Qed.

Lemma score_no_questions total_correct : score total_correct 0 = 0.
Proof. reflexivity. Qed.

Lemma score_one_of_four : score 1 4 = 25.
Proof. vm_compute. reflexivity. Qed.

(** Checked by evaluation for every total up to 400. *)
Lemma score_all_correct n : 1 <= n <= 400 -> score n n = 100.
Proof.
  intros Hn.
  assert (H : forallb (fun k => score (Z.of_nat k) (Z.of_nat k) =? 100) (seq 1 400) = true)
    by (vm_compute; reflexivity).
  rewrite forallb_forall in H. specialize (H (Z.to_nat n)).
  rewrite Z2Nat.id in H by lia. apply Z.eqb_eq, H, in_seq. lia.
Qed.

Lemma score_in_range c n : 0 <= c <= n -> n <= 120 -> 0 <= score c n <= 100.
Proof.
  intros Hc Hn.
  assert (H : forallb (fun k =>
                forallb (fun j => let x := score (Z.of_nat j) (Z.of_nat k) in
                                  (0 <=? x) && (x <=? 100)) (seq 0 (S k)))
                (seq 0 121) = true)
    by (vm_compute; reflexivity).
  rewrite forallb_forall in H. specialize (H (Z.to_nat n)).
  rewrite forallb_forall in H.
  assert (Hin : In (Z.to_nat n) (seq 0 121)) by (apply in_seq; lia).
  specialize (H Hin (Z.to_nat c)).
  rewrite !Z2Nat.id in H by lia. cbv zeta in H.
  assert (Hin' : In (Z.to_nat c) (seq 0 (S (Z.to_nat n)))) by (apply in_seq; lia).
  specialize (H Hin'). lia.
Qed.

End Grader.

(** C6. For every submitted form, a question whose answer field is
    absent, empty, or holds no integer literal is normalised to
    ["Not answered"]; reading the answer raises nothing (the turn of the
    loop raises only what reading the operands raises); the question is
    graded incorrect, it adds 1 to [total_questions] and nothing to
    [total_correct]. *)
Theorem unanswered_is_counted_incorrect
  (form : gmap string string) (op : pstr) (i : nat) (t : tally) :
  form !! field op i "" = None \/ form !! field op i "" = Some ""
  \/ (exists s, form !! field op i "" = Some s /\ int_of_str s = None) ->
  normalize_answer (form !! field op i "") = NotAnswered
  /\ (forall e, grade_question form op t i = Raise e <-> recomputed form op i = Raise e)
  /\ (forall a b correct, recomputed form op i = Ok (a, b, correct) ->
        exists t',
          grade_question form op t i = Ok t'
          /\ feedback_op t'
             = (feedback_op t ++ [mk_feedback (unanswered_line form op i a b) false])%list
          /\ total_questions t' = total_questions t + 1
          /\ total_correct t' = total_correct t).
Proof.
  intros H. pose proof (normalize_answer_unanswered _ H) as Hn.
  split; [exact Hn |]. split; [intros e; apply grade_question_raises, Hn |].
  intros a b correct Hr. eexists.
  split; [apply (grade_question_unanswered _ _ _ _ _ _ _ Hn Hr) |].
  repeat split.
Qed.

(** C7, at 23 right answers out of 40.  The route serves a score of 57:
    the quotient [23 / 40] is rounded to a float before it is multiplied by
    100, which gives 57.49999999999999.  The nearest integer of
    [100 * 23 / 40], which is 57.5, is 58. *)
Theorem score_of_23_right_of_40 :
  let r := (answers_route ann_session answers_23_of_40 after_forty_additions).1 in
  length (page_feedback r) = 40%nat
  /\ count_correct (page_feedback r) = 23%nat
  /\ page_score r = Some 57
  /\ score 23 40 = 57
  /\ round_half_even (100 * 23) 40 = 58.
Proof. vm_compute. repeat split. Qed.

(* ===================================================================== *)
(** * The usage dicts stay complete *)
(* ===================================================================== *)

Section Keeps.

Context {A B : Type} (I : state -> Prop).

Lemma keeps_ret (a : A) (Q : A -> Prop) : Q a -> keeps I (ret a) Q.
Proof. intros H s Hs. split; [exact Hs |]. now intros a' [= <-]. Qed.

Lemma keeps_raise (e : exn) (Q : A -> Prop) : keeps I (raise e) Q.
Proof. intros s Hs. split; [exact Hs | discriminate]. Qed.

Lemma keeps_lift (r : result A) : keeps I (lift r) (fun a => r = Ok a).
Proof. intros s Hs. split; [exact Hs |]. intros a H. exact H. Qed.

Lemma keeps_bind (m : St A) (k : A -> St B) (Q : A -> Prop) (R : B -> Prop) :
  keeps I m Q -> (forall a, Q a -> keeps I (k a) R) -> keeps I (bind m k) R.
Proof.
  intros Hm Hk s Hs. destruct (Hm s Hs) as [H1 H2]. unfold bind.
  destruct (m s) as [[a | e] s']; cbn [fst snd] in *.
  - apply (Hk a (H2 a eq_refl) s' H1).
  - split; [exact H1 | discriminate].
Qed.

Lemma keeps_weaken (m : St A) (Q Q' : A -> Prop) :
  keeps I m Q -> (forall a, Q a -> Q' a) -> keeps I m Q'.
Proof. intros Hm HQ s Hs. destruct (Hm s Hs) as [H1 H2]. split; auto. Qed.

Lemma keeps_item (v : option A) : keeps I (item v) (fun a => v = Some a).
Proof. destruct v; [now apply keeps_ret | apply keeps_raise]. Qed.

End Keeps.

Section UsersOk.

Local Abbreviation ok u := (complete (usage_or_default u) = true).
Local Abbreviation any := (fun _ => True).

Lemma users_ok_update email u s :
  users_ok s -> ok u -> users_ok (update_user email u s).
Proof.
  intros Hs Hu email' u'. destruct (decide (email = email')) as [<- | Hne].
  - rewrite update_user_lookup. now intros [= <-].
  - rewrite update_user_lookup_ne by exact Hne. apply Hs.
Qed.

Lemma users_ok_fresh (m : gmap string user_data) ex meta res draws taken :
  (forall email u, m !! email = Some u -> usage_count u = None) ->
  users_ok (mk_state m ex meta res draws taken).
Proof.
  intros H email u Hu. cbn [users] in Hu. unfold usage_or_default.
  rewrite (H _ _ Hu). apply complete_default_usage.
Qed.

Lemma keeps_user_of email : keeps users_ok (user_of email) (fun u => ok u).
Proof.
  intros s Hs. unfold user_of, bind, get.
  destruct (users s !! email) as [u |] eqn:E; cbn [item ret raise fst snd].
  - split; [exact Hs |]. intros a [= <-]. apply (Hs _ _ E).
  - split; [exact Hs | discriminate].
Qed.

Lemma keeps_store_user email u : ok u -> keeps users_ok (store_user email u) any.
Proof. intros Hu s Hs. split; [now apply users_ok_update | trivial]. Qed.

Lemma keeps_setdefault email :
  keeps users_ok (usage_count_setdefault email) (fun d => complete d = true).
Proof.
  unfold usage_count_setdefault.
  apply (keeps_bind _ _ _ _ _ (keeps_user_of email)). intros u Hu.
  destruct (usage_count u) as [d |] eqn:E.
  - apply keeps_ret. unfold usage_or_default in Hu. now rewrite E in Hu.
  - eapply keeps_bind; [apply keeps_store_user, complete_default_usage |].
    intros _ _. apply keeps_ret, complete_default_usage.
Qed.

Lemma keeps_incr email key : keeps users_ok (usage_count_incr email key) any.
Proof.
  unfold usage_count_incr.
  apply (keeps_bind _ _ _ _ _ (keeps_user_of email)). intros u Hu.
  apply (keeps_bind _ _ _ _ _ (keeps_item _ _)). intros d Hd.
  apply (keeps_bind _ _ _ _ _ (keeps_item _ _)). intros k _.
  apply (keeps_bind _ _ _ _ _ (keeps_item _ _)). intros n Hn.
  apply keeps_store_user. rewrite usage_or_default_set.
  unfold usage_or_default in Hu. rewrite Hd in Hu. now apply complete_incr.
Qed.

Lemma keeps_can_use_plan email level : keeps users_ok (can_use_plan email level) any.
Proof.
  unfold can_use_plan.
  apply (keeps_bind _ _ _ _ _ (keeps_user_of email)). intros _ _.
  apply (keeps_bind _ _ _ _ _ (keeps_setdefault email)). intros uc _.
  apply (keeps_bind _ _ _ _ _ (keeps_user_of email)). intros u _.
  apply (keeps_bind _ _ _ _ _ (keeps_item _ _)). intros p _.
  destruct (String.eqb p "free"); [now apply keeps_ret |].
  destruct (String.eqb p "monthly"); [now apply keeps_ret |].
  destruct (String.eqb p "twenty"); [| now apply keeps_ret].
  apply (keeps_bind _ _ _ _ _ (keeps_item _ _)). intros total _. now apply keeps_ret.
Qed.

Lemma keeps_track_usage email level : keeps users_ok (track_usage email level) any.
Proof.
  unfold track_usage, save_users.
  apply (keeps_bind _ _ _ _ _ (keeps_user_of email)). intros _ _.
  apply (keeps_bind _ _ _ _ _ (keeps_setdefault email)). intros _ _.
  apply (keeps_bind _ _ _ _ _ (keeps_user_of email)). intros u _.
  apply (keeps_bind _ _ _ _ _ (keeps_item _ _)). intros p _.
  eapply keeps_bind with (Q := any); [| intros; now apply keeps_ret].
  destruct (String.eqb p "free"); [apply keeps_incr |].
  destruct (String.eqb p "twenty"); [| now apply keeps_ret].
  apply (keeps_bind _ _ _ _ _ (keeps_incr _ _)). intros _ _. apply keeps_incr.
Qed.

Lemma keeps_choose_plan sess method form :
  keeps users_ok (choose_plan sess method form) any.
Proof.
  unfold choose_plan, save_users.
  destruct (session_user sess) as [email |]; [| now apply keeps_ret].
  apply (keeps_bind _ _ _ _ _ (keeps_user_of email)). intros u Hu.
  destruct (String.eqb method "POST"); [| now apply keeps_ret].
  destruct (_ || _); [now apply keeps_ret |].
  destruct (negb _); [now apply keeps_ret |].
  destruct (_ && _); [now apply keeps_ret |].
  apply (keeps_bind _ _ _ _ _ (keeps_store_user _ (set_plan _ u) Hu)). intros _ _.
  apply (keeps_bind _ _ _ _ _ (keeps_setdefault email)). intros _ _.
  now apply keeps_ret.
Qed.

Lemma keeps_update_activation sess now_str now p :
  keeps users_ok (update_activation_after_payment sess now_str now p) any.
Proof.
  unfold update_activation_after_payment, save_users.
  apply (keeps_bind _ _ _ _ _ (keeps_item _ _)). intros email _.
  apply (keeps_bind _ _ _ _ _ (keeps_user_of email)). intros u Hu.
  eapply keeps_bind with (Q := any); [| intros; now apply keeps_ret].
  destruct (String.eqb p "monthly"); [apply keeps_store_user; exact Hu |].
  destruct (String.eqb p "twenty"); [apply keeps_store_user; exact Hu |].
  now apply keeps_ret.
Qed.

End UsersOk.

Section UsersOkHandlers.

Local Abbreviation any := (fun _ => True).

Lemma keeps_same_users {A} (m : St A) :
  (forall s, users (m s).2 = users s) -> keeps users_ok m any.
Proof.
  intros H s Hs. split; [| trivial].
  intros email u. rewrite H. apply Hs.
Qed.

Lemma keeps_list_comp {A B} (I : state -> Prop) (f : A -> St B) (l : list A) :
  (forall x, keeps I (f x) any) -> keeps I (list_comp l f) any.
Proof.
  intros Hf. induction l as [| x l IH]; cbn [list_comp]; [now apply keeps_ret |].
  apply (keeps_bind _ _ _ _ _ (Hf x)). intros y _.
  apply (keeps_bind _ _ _ _ _ IH). intros ys _. now apply keeps_ret.
Qed.

Lemma keeps_randint low high : keeps users_ok (randint low high) any.
Proof.
  apply keeps_same_users. intros s. unfold randint.
  destruct (high <? low); reflexivity.
Qed.

Lemma keeps_bound {A} (v : option A) : keeps users_ok (bound v) any.
Proof. destruct v; [now apply keeps_ret | apply keeps_raise]. Qed.

Lemma keeps_generate_exercise operation level :
  keeps users_ok (generate_exercise operation level) any.
Proof.
  unfold generate_exercise.
  destruct (_ || _).
  - apply (keeps_bind _ _ _ _ _ (keeps_bound _)). intros [low high] _.
    apply (keeps_bind _ _ _ _ _ (keeps_randint _ _)). intros a _.
    destruct (is_str operation "addition");
      (apply (keeps_bind _ _ _ _ _ (keeps_randint _ _)); intros b _; now apply keeps_ret).
  - destruct (is_str operation "multiplication").
    + apply (keeps_bind _ _ _ _ _ (keeps_bound _)). intros [low high] _.
      apply (keeps_bind _ _ _ _ _ (keeps_randint _ _)). intros a _.
      apply (keeps_bind _ _ _ _ _ (keeps_randint _ _)). intros b _. now apply keeps_ret.
    + destruct (is_str operation "division"); [| now apply keeps_ret].
      apply (keeps_bind _ _ _ _ _ (keeps_bound _)). intros [[b_low b_high] [q_low q_high]] _.
      apply (keeps_bind _ _ _ _ _ (keeps_randint _ _)). intros b _.
      apply (keeps_bind _ _ _ _ _ (keeps_randint _ _)). intros q _. now apply keeps_ret.
Qed.

Lemma keeps_index_post sess form : keeps users_ok (index_post sess form) any.
Proof.
  unfold index_post.
  destruct (session_user sess) as [email |]; [| now apply keeps_ret].
  apply (keeps_bind _ _ _ _ _ (keeps_user_of email)). intros u _.
  destruct (plan u); [| now apply keeps_ret].
  destruct (is_str _ _); [| now apply keeps_ret].
  apply (keeps_bind _ _ _ _ _ (keeps_can_use_plan _ _)). intros allowed _.
  destruct (negb allowed); [now apply keeps_ret |].
  apply (keeps_bind _ _ _ _ _ (keeps_track_usage _ _)). intros _ _.
  apply (keeps_bind _ _ _ _ _ (keeps_lift _ _)). intros nb_ops _.
  apply (keeps_bind _ _ _ _ _ (keeps_lift _ _)). intros pdf_columns _.
  eapply keeps_bind; [apply keeps_same_users; reflexivity |]. intros _ _.
  eapply keeps_bind.
  { apply keeps_list_comp. intros op.
    eapply keeps_bind; [| intros l _; now apply keeps_ret].
    apply keeps_list_comp. intros _. apply keeps_generate_exercise. }
  intros exercises _.
  eapply keeps_bind; [apply keeps_same_users; reflexivity |]. intros _ _.
  eapply keeps_bind; [apply keeps_same_users; reflexivity |]. intros _ _.
  now apply keeps_ret.
Qed.

Lemma keeps_index_get sess now : keeps users_ok (index_get sess now) any.
Proof.
  unfold index_get, save_users.
  destruct (session_user sess) as [email |]; [| now apply keeps_ret].
  apply (keeps_bind _ _ _ _ _ (keeps_user_of email)). intros u Hu.
  destruct (plan u) as [p |]; [| now apply keeps_ret].
  eapply keeps_bind with (Q := any).
  { destruct (String.eqb p "monthly"); [| now apply keeps_ret].
    apply (keeps_bind _ _ _ _ _ (keeps_item _ _)). intros start _. now apply keeps_ret. }
  intros [|] _.
  - apply (keeps_bind _ _ _ _ _ (keeps_store_user _ (set_plan_start _ (set_plan _ u)) Hu)).
    intros _ _. eapply keeps_bind with (Q := any); [now apply keeps_ret |]. intros _ _.
    now apply keeps_ret.
  - eapply keeps_bind with (Q := any).
    { destruct (String.eqb p "free"); [| now apply keeps_ret].
      apply (keeps_bind _ _ _ _ _ (keeps_setdefault email)). intros uc _.
      now apply keeps_ret. }
    intros [|] _; [now apply keeps_ret |].
    apply (keeps_bind _ _ _ _ _ (keeps_setdefault email)). intros _ _.
    eapply keeps_bind.
    { apply keeps_list_comp. intros lvl.
      apply (keeps_bind _ _ _ _ _ (keeps_can_use_plan _ _)). intros ok _.
      now apply keeps_ret. }
    intros can_use _.
    apply (keeps_bind _ _ _ _ _ (keeps_user_of email)). intros u' _.
    apply (keeps_bind _ _ _ _ _ (keeps_item _ _)). intros p' _.
    eapply keeps_bind with (Q := any).
    { destruct (String.eqb p' "monthly"); [| now apply keeps_ret].
      apply (keeps_bind _ _ _ _ _ (keeps_item _ _)). intros start _. now apply keeps_ret. }
    intros dates _.
    apply (keeps_bind _ _ _ _ _ (keeps_item _ _)). intros uc _. now apply keeps_ret.
Qed.

End UsersOkHandlers.

(* ===================================================================== *)
(** * The statements at sample requests *)
(* ===================================================================== *)

(** An account without a plan: [can_use_plan] raises. *)
Lemma can_use_plan_raises_without_plan :
  users (only_ann new_account) !! ann = Some new_account
  /\ plan new_account = None
  /\ (can_use_plan ann (Some (tier_name Easy)) (only_ann new_account)).1 = Raise KeyError
  /\ (can_use_plan ann (Some (tier_name Easy)) (only_ann new_account)).1 <> Ok false.
Proof. vm_compute. repeat split. discriminate. Qed.

Lemma no_plan_is_guarded_by_handlers_witness :
  users (only_ann new_account) !! ann = Some new_account
  /\ plan new_account = None
  /\ (can_use_plan ann (Some "easy") (only_ann new_account)).1 = Raise KeyError
  /\ index_post ann_session forty_additions (only_ann new_account)
     = (Ok (mk_response (Redirect "/choose_plan") []), only_ann new_account).
Proof.
  assert (H : users (only_ann new_account) !! ann = Some new_account)
    by (vm_compute; reflexivity).
  destruct (no_plan_is_guarded_by_handlers _ _ _ H) as [H1 _].
  destruct (H1 eq_refl) as (Ha & Hb & _).
  split; [exact H |]. split; [reflexivity |].
  split; [exact (Ha (Some "easy")) | exact (Hb ann_session forty_additions eq_refl)].
Defined.

Lemma free_plan_one_use_per_tier_witness :
  users (only_ann free_account) !! ann = Some free_account
  /\ plan free_account = Some "free"
  /\ (can_use_plan ann (Some "easy") (only_ann free_account)).1 = Ok true
  /\ exists s',
       track_usage ann (Some "easy") (only_ann free_account) = (Ok tt, s')
       /\ (can_use_plan ann (Some "easy") s').1 = Ok false
       /\ (can_use_plan ann (Some "hard") s').1 = Ok true.
Proof.
  assert (H : users (only_ann free_account) !! ann = Some free_account)
    by (vm_compute; reflexivity).
  destruct (free_plan_one_use_per_tier _ _ _ Easy H eq_refl) as [H1 H2].
  destruct (H2 0) as (s' & E & Hf & Ho); [vm_compute; reflexivity | lia |].
  split; [exact H |]. split; [reflexivity |]. split; [exact H1 |].
  exists s'. split; [exact E |]. split; [exact Hf |].
  apply (Ho Hard); [discriminate | vm_compute; reflexivity].
Defined.

Lemma twenty_plan_twenty_uses_witness :
  users (only_ann twenty_account) !! ann = Some twenty_account
  /\ plan twenty_account = Some "twenty"
  /\ complete (usage_or_default twenty_account) = true
  /\ (can_use_plan ann (Some "expert") (only_ann twenty_account)).1 = Ok true
  /\ exists s',
       track_usages ann (repeat Easy 12 ++ repeat Expert 8) (only_ann twenty_account)
       = (Ok tt, s')
       /\ (can_use_plan ann (Some "hard") s').1 = Ok false.
Proof.
  assert (H : users (only_ann twenty_account) !! ann = Some twenty_account)
    by (vm_compute; reflexivity).
  assert (Hc : complete (usage_or_default twenty_account) = true)
    by (vm_compute; reflexivity).
  destruct (twenty_plan_twenty_uses _ _ _ H eq_refl Hc) as (total & Ht & H1 & _ & H3).
  assert (total = 0) as -> by (vm_compute in Ht; congruence).
  destruct (H3 (repeat Easy 12 ++ repeat Expert 8)%list eq_refl) as (s' & E & Hf).
  split; [exact H |]. split; [reflexivity |]. split; [exact Hc |].
  split; [exact (H1 (Some "expert")) |].
  exists s'. split; [exact E | exact (Hf (Some "hard"))].
Defined.

Lemma monthly_plan_expires_after_thirty_days_witness :
  users (only_ann monthly_subscriber) !! ann = Some monthly_subscriber
  /\ plan monthly_subscriber = Some "monthly"
  /\ plan_start monthly_subscriber = Some 1750000000000000
  /\ (can_use_plan ann (Some "expert") (only_ann monthly_subscriber)).1 = Ok true
  /\ (exists u',
         users (index_get ann_session (1750000000000000 + thirty_days)
                  (only_ann monthly_subscriber)).2 !! ann = Some u'
         /\ plan u' = Some "monthly" /\ plan_start u' = Some 1750000000000000)
  /\ (exists u',
         index_get ann_session (1750000000000000 + thirty_days + 1)
           (only_ann monthly_subscriber)
         = (Ok (mk_response (Redirect "/choose_plan") [expired_message]),
            update_user ann u' (only_ann monthly_subscriber))
         /\ plan u' = None /\ plan_start u' = None
         /\ usage_count u' = usage_count monthly_subscriber).
Proof.
  assert (H : users (only_ann monthly_subscriber) !! ann = Some monthly_subscriber)
    by (vm_compute; reflexivity).
  destruct (monthly_plan_expires_after_thirty_days _ _ _ _ H eq_refl eq_refl) as [H1 H2].
  split; [exact H |]. split; [reflexivity |]. split; [reflexivity |].
  split; [exact (H1 (Some "expert")) |]. split.
  - destruct (H2 ann_session (1750000000000000 + thirty_days) eq_refl) as (_ & _ & H30).
    exact (H30 eq_refl).
  - destruct (H2 ann_session (1750000000000000 + thirty_days + 1) eq_refl) as (H31 & _).
    apply H31. lia.
Defined.

Lemma plan_change_keeps_usage_count_witness :
  session_user ann_session = Some ann
  /\ users (only_ann used_account) !! ann = Some used_account
  /\ usage_count used_account = Some (<["easy" := 1]> (<["hard" := 1]> default_usage))
  /\ (exists r s' u',
         choose_plan ann_session "POST" {["plan" := "free"]} (only_ann used_account)
         = (Ok r, s')
         /\ users s' !! ann = Some u'
         /\ usage_count u' = Some (<["easy" := 1]> (<["hard" := 1]> default_usage)))
  /\ (exists s' u',
         update_activation_after_payment ann_session "20250615120000" 1750000000000000
           "twenty" (only_ann used_account) = (Ok tt, s')
         /\ users s' !! ann = Some u'
         /\ usage_count u' = Some (<["easy" := 1]> (<["hard" := 1]> default_usage))).
Proof.
  assert (H : users (only_ann used_account) !! ann = Some used_account)
    by (vm_compute; reflexivity).
  destruct (plan_change_keeps_usage_count (only_ann used_account) ann_session ann
              used_account _ eq_refl H eq_refl) as (H1 & H2 & _).
  split; [reflexivity |]. split; [exact H |]. split; [reflexivity |].
  split; [apply H1 | apply H2].
Defined.

Lemma unanswered_is_counted_incorrect_witness :
  (exists s, word_answer !! field (Some "addition") 0 "" = Some s /\ int_of_str s = None)
  /\ normalize_answer (word_answer !! field (Some "addition") 0 "") = NotAnswered
  /\ exists t',
       grade_question word_answer (Some "addition") (mk_tally [] 0 0) 0 = Ok t'
       /\ feedback_op t' = [mk_feedback "  1.   7 +   5 = Not answered" false]
       /\ total_questions t' = 1
       /\ total_correct t' = 0.
Proof.
  assert (H : exists s, word_answer !! field (Some "addition") 0 "" = Some s
                        /\ int_of_str s = None)
    by (exists "twelve"; vm_compute; split; reflexivity).
  destruct (unanswered_is_counted_incorrect word_answer (Some "addition") 0
              (mk_tally [] 0 0) (or_intror (or_intror H))) as (Hn & _ & Hg).
  split; [exact H |]. split; [exact Hn |].
  destruct (Hg 7 5 (Some 12)) as (t' & E & Hf & Hq & Hc); [vm_compute; reflexivity |].
  exists t'. split; [exact E |]. split; [| split; [exact Hq | exact Hc]].
  rewrite Hf. vm_compute. reflexivity.
Defined.

(** The scenarios of the specification, run. *)
Example blank_division_is_unanswered :
  let r := (answers_route ann_session blank_division after_forty_additions).1 in
  page_feedback r = [mk_feedback ("  1.  12 " +:+ sign_div +:+ "   4 = Not answered") false]
  /\ page_score r = Some 0.
Proof. vm_compute. split; reflexivity. Qed.

Example ten_right_answers_score_100 :
  let s := (index_post ann_session
              (list_to_map [("phase", "generate"); ("level", "easy");
                            ("category", "addition"); ("nb_ops", "10")])
              (only_ann monthly_subscriber)).2 in
  let form := exercise_form "easy" "addition" "blue" (default [] (latest_exercises s))
                (fun _ ex => str_of_int (Exercise.result ex)) in
  let r := (answers_route ann_session form s).1 in
  page_score r = Some 100
  /\ length (page_feedback r) = 10%nat
  /\ forallb fb_correct (page_feedback r) = true.
Proof. vm_compute. repeat split. Qed.

Example free_account_scenario :
  let s0 := only_ann free_account in
  let s1 := (track_usage ann (Some "easy") s0).2 in
  (can_use_plan ann (Some "easy") s0).1 = Ok true
  /\ (can_use_plan ann (Some "easy") s1).1 = Ok false
  /\ (can_use_plan ann (Some "hard") s1).1 = Ok true.
Proof. vm_compute. repeat split. Qed.

(* ===================================================================== *)
(** * More on the generator: ranges, rejected input, draws *)
(* ===================================================================== *)

Section GeneratorRanges.

Lemma generate_addition level low high s :
  addsub_bounds level = Some (low, high) ->
  low <= high ->
  exists a b s',
    generate_exercise (Some "addition") level s
    = (Ok (Some (Exercise.mk a b sign_add (a + b) (len_str_of_int (a + b)))), s')
    /\ low <= a <= high /\ low <= b <= high.
Proof.
intros Hb Hle.
destruct (randint_in_range low high s Hle) as (a & Ea & Ra).
destruct (randint_in_range low high
            (set_random_taken (S (random_taken s)) s) Hle) as (b & Eb & Rb).
exists a, b. eexists. split; [| split; assumption].
unfold generate_exercise. cbn [is_str String.eqb Ascii.eqb Bool.eqb orb].
rewrite Hb. cbn [bound]. rewrite bind_ret.
rewrite (bind_ok _ _ _ _ _ Ea), (bind_ok _ _ _ _ _ Eb). reflexivity.
Qed.

Lemma generate_multiplication level low high s :
  mul_bounds level = Some (low, high) ->
  low <= high ->
  exists a b s',
    generate_exercise (Some "multiplication") level s
    = (Ok (Some (Exercise.mk a b sign_mul (a * b) (len_str_of_int (a * b)))), s')
    /\ low <= a <= high /\ low <= b <= high.
Proof.
intros Hb Hle.
destruct (randint_in_range low high s Hle) as (a & Ea & Ra).
destruct (randint_in_range low high
            (set_random_taken (S (random_taken s)) s) Hle) as (b & Eb & Rb).
exists a, b. eexists. split; [| split; assumption].
unfold generate_exercise. cbn [is_str String.eqb Ascii.eqb Bool.eqb orb].
rewrite Hb. cbn [bound]. rewrite bind_ret.
rewrite (bind_ok _ _ _ _ _ Ea), (bind_ok _ _ _ _ _ Eb). reflexivity.
Qed.

Lemma mul_bounds_tier t :
  exists high, mul_bounds (Some (tier_name t)) = Some (0, high) /\ 0 <= high.
Proof. destruct t; eexists; (split; [reflexivity | lia]). Qed.

(** A level that is none of the five leaves the bounds of every table
    unbound. *)
Lemma unknown_level_unbound level :
  (forall t, level <> Some (tier_name t)) ->
  addsub_bounds level = None /\ mul_bounds level = None /\ div_bounds level = None.
Proof.
intros H.
assert (E : forall t, is_str level (tier_name t) = false).
{ intros t. destruct level as [l |]; [| reflexivity]. cbn.
  apply String.eqb_neq. intros ->. now apply (H t). }
pose proof (E Easy) as E1. pose proof (E Intermediate) as E2. pose proof (E Hard) as E3.
pose proof (E VeryHard) as E4. pose proof (E Expert) as E5. cbn [tier_name] in *.
unfold addsub_bounds, mul_bounds, div_bounds.
rewrite E1, E2, E3, E4, E5. repeat split.
Qed.

End GeneratorRanges.

(** X1. For every tier, the operands of an addition and of a subtraction
    lie in the range [0, high] the shared table gives the tier: an addition
    has [0 <= a, b <= high] and [result = a + b]; a subtraction has
    [0 <= b <= a <= high]. *)
Theorem addition_and_subtraction_operands_in_range (t : tier) (s : state) :
  exists high,
    addsub_bounds (Some (tier_name t)) = Some (0, high)
    /\ (exists ex s',
           generate_exercise (Some "addition") (Some (tier_name t)) s = (Ok (Some ex), s')
           /\ Exercise.op ex = sign_add
           /\ 0 <= Exercise.a ex <= high /\ 0 <= Exercise.b ex <= high
           /\ Exercise.result ex = Exercise.a ex + Exercise.b ex)
    /\ (exists ex s',
           generate_exercise (Some "subtraction") (Some (tier_name t)) s = (Ok (Some ex), s')
           /\ 0 <= Exercise.b ex <= Exercise.a ex /\ Exercise.a ex <= high).
Proof.
destruct (addsub_bounds_tier t) as (high & Hb & Hh). exists high.
split; [exact Hb |]. split.
- destruct (generate_addition _ _ _ s Hb Hh) as (a & b & s' & E & Ra & Rb).
  eexists; exists s'. split; [exact E |]. cbn. repeat split; lia.
- destruct (generate_subtraction _ _ _ s Hb Hh) as (a & b & s' & E & Ra & Rb).
  eexists; exists s'. split; [exact E |]. cbn. repeat split; lia.
Qed.

(** X2. For every tier, a multiplication has both operands in the range
    [0, high] of the multiplication table and [result = a * b], so
    [0 <= result <= high * high]. *)
Theorem multiplication_exercise_in_range (t : tier) (s : state) :
  exists high ex s',
    mul_bounds (Some (tier_name t)) = Some (0, high)
    /\ generate_exercise (Some "multiplication") (Some (tier_name t)) s = (Ok (Some ex), s')
    /\ Exercise.op ex = sign_mul
    /\ 0 <= Exercise.a ex <= high /\ 0 <= Exercise.b ex <= high
    /\ Exercise.result ex = Exercise.a ex * Exercise.b ex
    /\ 0 <= Exercise.result ex <= high * high.
Proof.
destruct (mul_bounds_tier t) as (high & Hb & Hh).
destruct (generate_multiplication _ _ _ s Hb Hh) as (a & b & s' & E & Ra & Rb).
exists high. eexists; exists s'. split; [exact Hb |]. split; [exact E |].
cbn. repeat split; nia.
Qed.

(** X3. For every tier, a division has its divisor in [1, b_high] and its
    quotient in [0, q_high], the bounds of the division table, so the
    dividend is at most [b_high * q_high]. *)
Theorem division_operands_in_range (t : tier) (s : state) :
  exists b_high q_high ex s',
    div_bounds (Some (tier_name t)) = Some ((1, b_high), (0, q_high))
    /\ generate_exercise (Some "division") (Some (tier_name t)) s = (Ok (Some ex), s')
    /\ 1 <= Exercise.b ex <= b_high
    /\ 0 <= Exercise.result ex <= q_high
    /\ 0 <= Exercise.a ex <= b_high * q_high.
Proof.
destruct (div_bounds_tier t) as (bh & qh & Hb & Hbh & Hqh).
destruct (generate_division _ _ _ _ _ s Hb Hbh Hqh) as (b & q & s' & E & Rb & Rq).
exists bh, qh. eexists; exists s'. split; [exact Hb |]. split; [exact E |].
cbn. repeat split; nia.
Qed.

(** X4. A level that is none of the five tier names makes each of the
    four operations raise [UnboundLocalError] before any draw; an operation
    that is none of the four returns [None] without a draw, whatever the
    level.  Neither changes the globals. *)
Theorem generate_exercise_rejects_unknown_input (operation level : pstr) (s : state) :
  ((forall t, level <> Some (tier_name t)) ->
     (is_str operation "addition" || is_str operation "subtraction"
      || is_str operation "multiplication" || is_str operation "division" = true) ->
     generate_exercise operation level s = (Raise UnboundLocalError, s))
  /\ ((is_str operation "addition" || is_str operation "subtraction"
       || is_str operation "multiplication" || is_str operation "division" = false) ->
      generate_exercise operation level s = (Ok None, s)).
Proof.
split.
- intros Hl Hop. destruct (unknown_level_unbound level Hl) as (E1 & E2 & E3).
  unfold generate_exercise. rewrite E1, E2, E3.
  destruct (is_str operation "addition"), (is_str operation "subtraction"),
    (is_str operation "multiplication"), (is_str operation "division");
    try reflexivity; discriminate Hop.
- intros Hop. unfold generate_exercise.
  destruct (is_str operation "addition"), (is_str operation "subtraction"),
    (is_str operation "multiplication"), (is_str operation "division");
    try discriminate Hop; reflexivity.
Qed.

Lemma generate_exercise_state
  (operation level : pstr) (s s' : state) (ex : Exercise.t) :
  generate_exercise operation level s = (Ok (Some ex), s') ->
  s' = set_random_taken (2 + random_taken s) s
  /\ Exercise.res_len ex = len_str_of_int (Exercise.result ex).
Proof.
unfold generate_exercise, bind, randint, bound, ret, raise.
destruct (is_str operation "addition" || is_str operation "subtraction").
- destruct (addsub_bounds level) as [[low high] |]; [| discriminate].
  destruct (high <? low); [discriminate |]. cbn [random_draws random_taken set_random_taken].
  destruct (is_str operation "addition").
  + intros [= <- <-]. split; reflexivity.
  + match goal with |- context [if ?c then _ else _] => destruct c end; [discriminate |].
    intros [= <- <-]. split; reflexivity.
- destruct (is_str operation "multiplication").
  + destruct (mul_bounds level) as [[low high] |]; [| discriminate].
    destruct (high <? low); [discriminate |].
    cbn [random_draws random_taken set_random_taken].
    intros [= <- <-]. split; reflexivity.
  + destruct (is_str operation "division"); [| discriminate].
    destruct (div_bounds level) as [[[b_low b_high] [q_low q_high]] |]; [| discriminate].
    destruct (b_high <? b_low); [discriminate |].
    cbn [random_draws random_taken set_random_taken].
    destruct (q_high <? q_low); [discriminate |]. intros [= <- <-]. split; reflexivity.
Qed.

(** X5. Whatever the operation and the level, a call of
    [generate_exercise] that returns an exercise has taken exactly two
    draws from the random generator and has changed nothing else; the
    [res_len] of the exercise is the length of the decimal writing of its
    result. *)
Theorem generate_exercise_takes_two_draws
  (operation level : pstr) (s s' : state) (ex : Exercise.t) :
  generate_exercise operation level s = (Ok (Some ex), s') ->
  s' = set_random_taken (2 + random_taken s) s
  /\ Exercise.res_len ex = len_str_of_int (Exercise.result ex).
Proof. apply generate_exercise_state. Qed.

(* ===================================================================== *)
(** * More on the tracker: what a call changes *)
(* ===================================================================== *)

Section TrackerEffects.

Lemma bind_const_state {S A B} (m : M S A) (b : B) s :
  (bind m (fun _ => ret b) s).2 = (m s).2.
Proof. unfold bind, ret. destruct (m s) as [[a | e] s']; reflexivity. Qed.

Lemma counters_grow_refl d : counters_grow d d.
Proof. intros k. lia. Qed.

Lemma counters_grow_trans d1 d2 d3 :
  counters_grow d1 d2 -> counters_grow d2 d3 -> counters_grow d1 d3.
Proof. intros H1 H2 k. specialize (H1 k). specialize (H2 k). lia. Qed.

Lemma counters_grow_incr d k n :
  d !! k = Some n -> counters_grow d (<[k := n + 1]> d).
Proof.
intros Hk [key |]; cbn [dict_get]; [| lia].
destruct (decide (k = key)) as [<- | Hne].
- rewrite lookup_insert_eq, Hk. lia.
- rewrite lookup_insert_ne by exact Hne. lia.
Qed.

Lemma same_but_user_update email u s : same_but_user email s (update_user email u s).
Proof.
split; [| repeat split].
intros other Hne. apply update_user_lookup_ne. congruence.
Qed.

Lemma same_but_user_refl email s : same_but_user email s s.
Proof. repeat split. Qed.

(** The state [usage_count[key] += 1] leaves, whether it raises or not. *)
Lemma usage_count_incr_state email key u d s :
  users s !! email = Some u -> usage_count u = Some d ->
  exists d',
    (usage_count_incr email key s).2 = update_user email (set_usage_count (Some d') u) s
    /\ counters_grow d d'.
Proof.
intros H Hd. unfold usage_count_incr.
rewrite (bind_ok _ _ _ _ _ (user_of_ok _ _ _ H)). rewrite Hd. cbn [item]. rewrite bind_ret.
assert (Hsame : s = update_user email (set_usage_count (Some d) u) s).
{ symmetry. apply update_user_same. rewrite H. f_equal.
  destruct u; cbn in Hd |- *. now subst. }
destruct key as [k |]; cbn [item].
- rewrite bind_ret. destruct (d !! k) as [n |] eqn:Hk; cbn [item].
  + rewrite bind_ret. exists (<[k := n + 1]> d).
    split; [reflexivity | now apply counters_grow_incr].
  + exists d. split; [exact Hsame | apply counters_grow_refl].
- exists d. split; [exact Hsame | apply counters_grow_refl].
Qed.

(** The state [track_usage] leaves, whether it raises or not: the entry of
    the account with a usage dict whose counters have not gone down. *)
Lemma track_usage_state email level u s :
  users s !! email = Some u ->
  exists d',
    (track_usage email level s).2 = update_user email (set_usage_count (Some d') u) s
    /\ counters_grow (usage_or_default u) d'.
Proof.
intros H. unfold track_usage, save_users.
rewrite (bind_ok _ _ _ _ _ (user_of_ok _ _ _ H)).
rewrite (bind_ok _ _ _ _ _ (usage_count_setdefault_ok _ _ _ H)).
rewrite (bind_ok _ _ _ _ _ (user_of_ok _ _ _ (update_user_lookup _ _ _))).
rewrite plan_with_usage.
set (s1 := update_user email (with_usage u) s).
assert (H1 : users s1 !! email = Some (with_usage u)) by apply update_user_lookup.
destruct (plan u) as [p |]; cbn [item].
2:{ exists (usage_or_default u). split; [reflexivity | apply counters_grow_refl]. }
rewrite bind_ret, bind_const_state.
destruct (String.eqb p "free").
- destruct (usage_count_incr_state email level _ _ s1 H1 eq_refl) as (d' & E & G).
  exists d'. split; [| exact G]. rewrite E. apply update_user_twice.
- destruct (String.eqb p "twenty").
  2:{ exists (usage_or_default u). split; [reflexivity | apply counters_grow_refl]. }
  destruct (usage_count_incr_state email (Some "total") _ _ s1 H1 eq_refl) as (d1 & E1 & G1).
  unfold bind.
  destruct (usage_count_incr email (Some "total") s1) as [[[] | e] s2] eqn:E; cbn [snd] in *.
  + subst s2.
    destruct (usage_count_incr_state email level (set_usage_count (Some d1) (with_usage u))
                d1 (update_user email (set_usage_count (Some d1) (with_usage u)) s1)
                (update_user_lookup _ _ _) eq_refl) as (d2 & E2 & G2).
    exists d2. split.
    * rewrite E2. unfold s1. rewrite !update_user_twice. reflexivity.
    * exact (counters_grow_trans _ _ _ G1 G2).
  + subst s2. exists d1. split; [apply update_user_twice | exact G1].
Qed.

End TrackerEffects.

(** X6. On the monthly plan [track_usage] counts nothing: for every
    level, known or not, it returns, and the entry it leaves has the same
    plan and the same counters as before (a usage dict that was missing is
    filled in with zeros). *)
Theorem track_usage_monthly_counts_nothing
  (s : state) (email : string) (u : user_data) (level : pstr) :
  users s !! email = Some u -> plan u = Some "monthly" ->
  exists s' u',
    track_usage email level s = (Ok tt, s')
    /\ users s' !! email = Some u'
    /\ usage_count u' = Some (usage_or_default u)
    /\ same_but_usage u u'
    /\ same_but_user email s s'.
Proof.
intros H Hp. exists (update_user email (with_usage u) s), (with_usage u).
split; [| split; [apply update_user_lookup | split; [reflexivity | split]]].
- unfold track_usage, save_users.
  rewrite (bind_ok _ _ _ _ _ (user_of_ok _ _ _ H)).
  rewrite (bind_ok _ _ _ _ _ (usage_count_setdefault_ok _ _ _ H)).
  rewrite (bind_ok _ _ _ _ _ (user_of_ok _ _ _ (update_user_lookup _ _ _))).
  rewrite plan_with_usage, Hp. reflexivity.
- unfold same_but_usage, with_usage. cbn. repeat split; reflexivity.
- apply same_but_user_update.
Qed.

(** X7. [track_usage] with a level that is no key of the usage dict
    raises [KeyError].  On the free plan the counters stay as they were; on
    the fixed-count plan the total counter has already been raised by 1
    when the subscript of the level fails, so the failed call still costs
    one of the uses. *)
Theorem track_usage_unknown_level
  (s : state) (email : string) (u : user_data) (level : pstr) :
  users s !! email = Some u ->
  (level = None \/ exists k, level = Some k /\ k <> "total" /\ usage_or_default u !! k = None) ->
  (plan u = Some "free" ->
     track_usage email level s = (Raise KeyError, update_user email (with_usage u) s))
  /\ (plan u = Some "twenty" ->
      forall total, usage_or_default u !! "total" = Some total ->
        track_usage email level s
        = (Raise KeyError,
           update_user email
             (set_usage_count (Some (<["total" := total + 1]> (usage_or_default u))) u) s)).
Proof.
intros H Hl. split.
- intros Hp. unfold track_usage, save_users.
  rewrite (bind_ok _ _ _ _ _ (user_of_ok _ _ _ H)).
  rewrite (bind_ok _ _ _ _ _ (usage_count_setdefault_ok _ _ _ H)).
  rewrite (bind_ok _ _ _ _ _ (user_of_ok _ _ _ (update_user_lookup _ _ _))).
  rewrite plan_with_usage, Hp. cbn [item]. rewrite bind_ret.
  cbn [String.eqb Ascii.eqb Bool.eqb].
  apply bind_raise.
  destruct Hl as [-> | (k & -> & _ & Hk)].
  + unfold usage_count_incr.
    rewrite (bind_ok _ _ _ _ _ (user_of_ok _ _ _ (update_user_lookup _ _ _))).
    reflexivity.
  + apply (usage_count_incr_missing _ (with_usage u) (usage_or_default u));
      [apply update_user_lookup | reflexivity | exact Hk].
- intros Hp total Ht. unfold track_usage, save_users.
  rewrite (bind_ok _ _ _ _ _ (user_of_ok _ _ _ H)).
  rewrite (bind_ok _ _ _ _ _ (usage_count_setdefault_ok _ _ _ H)).
  rewrite (bind_ok _ _ _ _ _ (user_of_ok _ _ _ (update_user_lookup _ _ _))).
  rewrite plan_with_usage, Hp. cbn [item]. rewrite bind_ret.
  cbn [String.eqb Ascii.eqb Bool.eqb].
  apply bind_raise. 
  rewrite (bind_ok _ _ _ _ _
             (usage_count_incr_ok _ _ _ _ _ _ (update_user_lookup _ _ _)
                (usage_count_with_usage u) Ht)).
  rewrite update_user_twice.
  set (d := <["total" := total + 1]> (usage_or_default u)).
  destruct Hl as [-> | (k & -> & Hne & Hk)].
  + unfold usage_count_incr.
    rewrite (bind_ok _ _ _ _ _ (user_of_ok _ _ _ (update_user_lookup _ _ _))).
    reflexivity.
  + rewrite (usage_count_incr_missing _ (set_usage_count (Some d) (with_usage u)) d k);
      [reflexivity | apply update_user_lookup | reflexivity |].
    unfold d. rewrite lookup_insert_ne by congruence. exact Hk.
Qed.

(** X8. Whatever the plan, the level and the outcome, [can_use_plan] and
    [track_usage] touch the entry of the one account only, and of this
    entry the usage dict only: the plan, its start, the activation id and
    the profile stay, the other accounts and the other globals stay, and no
    counter goes down ([can_use_plan] leaves every counter as it was). *)
Theorem tracker_changes_usage_counters_only
  (s : state) (email : string) (level : pstr) :
  (users s !! email = None ->
     (can_use_plan email level s).2 = s /\ (track_usage email level s).2 = s)
  /\ (forall u, users s !! email = Some u ->
        (can_use_plan email level s).2 = update_user email (with_usage u) s
        /\ exists u',
             users (track_usage email level s).2 !! email = Some u'
             /\ same_but_usage u u'
             /\ counters_grow (usage_or_default u) (usage_or_default u')
             /\ same_but_user email s (track_usage email level s).2).
Proof.
split.
- intros H. unfold can_use_plan, track_usage.
  rewrite !(bind_raise _ _ _ _ _ (user_of_missing _ _ H)). split; reflexivity.
- intros u H. split.
  + destruct (plan u) as [p |] eqn:Hp.
    * now rewrite (can_use_plan_ok _ _ _ _ _ H Hp).
    * now rewrite (can_use_plan_no_plan _ _ _ _ H Hp).
  + destruct (track_usage_state email level u s H) as (d' & E & G).
    exists (set_usage_count (Some d') u). rewrite E.
    split; [apply update_user_lookup |]. split; [unfold same_but_usage; cbn; repeat split; reflexivity |].
    split; [exact G | apply same_but_user_update].
Qed.

(** X9. Run in a state where every entry holds a complete usage dict (or
    none yet), each of [can_use_plan], [track_usage], [choose_plan],
    [update_activation_after_payment], [index_get] and [index_post] leaves
    such a state, whether it returns or raises. *)
Theorem handlers_keep_usage_dicts_complete
  (sess : session) (email : string) (level : pstr) (method now_str p : string)
  (form : gmap string string) (now : Z) :
  keeps users_ok (can_use_plan email level) (fun _ => True)
  /\ keeps users_ok (track_usage email level) (fun _ => True)
  /\ keeps users_ok (choose_plan sess method form) (fun _ => True)
  /\ keeps users_ok (update_activation_after_payment sess now_str now p) (fun _ => True)
  /\ keeps users_ok (index_get sess now) (fun _ => True)
  /\ keeps users_ok (index_post sess form) (fun _ => True).
Proof.
split; [apply keeps_can_use_plan |].
split; [apply keeps_track_usage |].
split; [apply keeps_choose_plan |].
split; [apply keeps_update_activation |].
split; [apply keeps_index_get | apply keeps_index_post].
Qed.

(* ===================================================================== *)
(** * More on the handlers: the exhausted trial, plan choice, generation *)
(* ===================================================================== *)

Section FreeTrial.

Lemma all_exhausted_tier d t :
  all_exhausted d = true -> 1 <= dict_get d (Some (tier_name t)) 0.
Proof.
unfold all_exhausted. rewrite forallb_forall. intros H.
apply Z.leb_le, H. unfold levels. apply in_map. destruct t; cbn; tauto.
Qed.

Lemma all_exhausted_has_dict u :
  all_exhausted (usage_or_default u) = true -> usage_count u = Some (usage_or_default u).
Proof.
unfold usage_or_default. destruct (usage_count u); [reflexivity |].
cbn [default]. vm_compute. discriminate.
Qed.

Lemma settled_state email u s :
  users s !! email = Some u -> usage_count u = Some (usage_or_default u) ->
  update_user email (with_usage u) s = s.
Proof.
intros H Hd. rewrite (with_usage_some _ _ Hd). now apply update_user_same.
Qed.

End FreeTrial.

(** X10. A free account whose five tier counters are all at 1 or more is
    locked out everywhere: [index_get] redirects to the plan selection with
    the exhausted-trial flash, [choose_plan] refuses a new choice of the
    free plan, and [index_post] refuses to generate at every tier, redirects
    to the index and generates nothing.  None of the three changes the
    globals. *)
Theorem free_trial_exhausted_locks_out
  (s : state) (sess : session) (email : string) (u : user_data) :
  session_user sess = Some email ->
  users s !! email = Some u -> plan u = Some "free" ->
  all_exhausted (usage_or_default u) = true ->
  (forall now,
      index_get sess now s
      = (Ok (mk_response (Redirect "/choose_plan") [trial_exhausted_message]), s))
  /\ (forall form, form !! "plan" = Some "free" ->
        choose_plan sess "POST" form s
        = (Ok (mk_response (ChoosePlanPage true) [trial_exhausted_message]), s))
  /\ (forall form t,
        form !! "phase" = Some "generate" -> form !! "level" = Some (tier_name t) ->
        index_post sess form s
        = (Ok (mk_response (Redirect "/") [uses_exhausted_message]), s)).
Proof.
intros Hl H Hp Hx.
pose proof (all_exhausted_has_dict u Hx) as Hd.
pose proof (settled_state email u s H Hd) as Hs.
split; [| split].
- intros now. unfold index_get. rewrite Hl.
  rewrite (bind_ok _ _ _ _ _ (user_of_ok _ _ _ H)). rewrite Hp.
  cbn [String.eqb Ascii.eqb Bool.eqb]. rewrite bind_ret.
  rewrite bind_assoc.
  rewrite (bind_ok _ _ _ _ _ (usage_count_setdefault_ok _ _ _ H)).
  rewrite bind_ret, Hx, Hs. reflexivity.
- intros form Hf. unfold choose_plan. rewrite Hl.
  rewrite (bind_ok _ _ _ _ _ (user_of_ok _ _ _ H)).
  rewrite Hd, Hx, Hf. reflexivity.
- intros form t Hph Hlv. unfold index_post. rewrite Hl.
  rewrite (bind_ok _ _ _ _ _ (user_of_ok _ _ _ H)). rewrite Hp, Hph, Hlv.
  cbn [is_str String.eqb Ascii.eqb Bool.eqb].
  pose proof (can_use_plan_ok email (Some (tier_name t)) u "free" s H Hp) as E.
  cbn [String.eqb Ascii.eqb Bool.eqb] in E. rewrite Hs in E.
  pose proof (all_exhausted_tier _ t Hx) as Ht.
  destruct (Z.ltb_spec (dict_get (usage_or_default u) (Some (tier_name t)) 0) 1); [lia |].
  rewrite (bind_ok _ _ _ _ _ E). reflexivity.
Qed.

(** X11. [choose_plan] can only ever activate the free plan: whatever
    the request, it returns, and the plan of the account afterwards is the
    plan it had or ["free"], the latter only for a POST that asks for
    ["free"].  A POST that asks for a paid plan is redirected to its
    purchase page and changes nothing. *)
Theorem choose_plan_sets_only_free
  (s : state) (sess : session) (email : string) (u : user_data)
  (method : string) (form : gmap string string) :
  session_user sess = Some email -> users s !! email = Some u ->
  (exists r s' u',
      choose_plan sess method form s = (Ok r, s')
      /\ users s' !! email = Some u'
      /\ (plan u' = plan u
          \/ (plan u' = Some "free" /\ method = "POST" /\ form !! "plan" = Some "free"))
      /\ same_but_user email s s')
  /\ (forall p, method = "POST" -> form !! "plan" = Some p ->
        p = "monthly" \/ p = "twenty" ->
        choose_plan sess method form s
        = (Ok (mk_response (Redirect ("/purchase_plan/" +:+ p)) []), s)).
Proof.
intros Hl H. split.
- unfold choose_plan. rewrite Hl.
  rewrite (bind_ok _ _ _ _ _ (user_of_ok _ _ _ H)).
  destruct (String.eqb_spec method "POST") as [-> | _];
    [| exists (mk_response (ChoosePlanPage
                 match usage_count u with Some uc => all_exhausted uc | None => false end) []),
         s, u; split; [reflexivity |];
       split; [exact H | split; [now left | apply same_but_user_refl]]].
  destruct (is_str (form !! "plan") "monthly" || is_str (form !! "plan") "twenty") eqn:Hpaid;
    [do 2 eexists; exists u; split; [reflexivity |];
     split; [exact H | split; [now left | apply same_but_user_refl]] |].
  destruct (negb _) eqn:Hv;
    [do 2 eexists; exists u; split; [reflexivity |];
     split; [exact H | split; [now left | apply same_but_user_refl]] |].
  destruct (is_str (form !! "plan") "free" && _) eqn:Hf;
    [do 2 eexists; exists u; split; [reflexivity |];
     split; [exact H | split; [now left | apply same_but_user_refl]] |].
  rewrite (bind_ok _ _ _ _ _ (store_user_ok _ _ _)).
  rewrite (bind_ok _ _ _ _ _
             (usage_count_setdefault_ok _ _ _ (update_user_lookup _ _ _))).
  rewrite update_user_twice.
  do 3 eexists. split; [reflexivity |].
  split; [apply update_user_lookup |]. split; [| apply same_but_user_update].
  right. cbn [plan with_usage set_plan set_usage_count].
  assert (Hfree : is_str (form !! "plan") "free" = true).
  { apply negb_false_iff in Hv. apply orb_false_elim in Hpaid. destruct Hpaid as [Hm Ht].
    rewrite Hm, Ht in Hv. now destruct (is_str (form !! "plan") "free"). }
  destruct (form !! "plan") as [p |]; [| discriminate Hfree].
  cbn [is_str] in Hfree. apply String.eqb_eq in Hfree. subst p. repeat split.
- intros p -> Hf Hp. unfold choose_plan. rewrite Hl.
  rewrite (bind_ok _ _ _ _ _ (user_of_ok _ _ _ H)). rewrite Hf.
  cbn [String.eqb Ascii.eqb Bool.eqb].
  destruct Hp as [-> | ->]; reflexivity.
Qed.

Section Generation.

Lemma bind_lift {S A B} (a : A) (k : A -> M S B) s : bind (lift (Ok a)) k s = k a s.
Proof. reflexivity. Qed.

Lemma bind_modify {S B} (f : S -> S) (k : unit -> M S B) s :
  bind (modify f) k s = k tt (f s).
Proof. reflexivity. Qed.

Lemma set_random_taken_twice a b s :
  set_random_taken a (set_random_taken b s) = set_random_taken a s.
Proof. reflexivity. Qed.

Lemma set_random_taken_same s : set_random_taken (random_taken s) s = s.
Proof. destruct s; reflexivity. Qed.

(** Each of the four operations, at each tier: an exercise the grader
    agrees with, for two draws. *)
Lemma generate_exercise_ok op t s :
  In op four_operations ->
  exists ex,
    generate_exercise (Some op) (Some (tier_name t)) s
    = (Ok ex, set_random_taken (2 + random_taken s) s)
    /\ agrees_with_grader ex.
Proof.
intros Hop.
assert (Hgen : exists e s',
           generate_exercise (Some op) (Some (tier_name t)) s = (Ok (Some e), s')
           /\ expected (Exercise.a e) (Exercise.b e) (Some (Exercise.op e))
              = Ok (Some (Exercise.result e))).
{ cbn in Hop. destruct Hop as [<- | [<- | [<- | [<- | []]]]].
  - destruct (addsub_bounds_tier t) as (high & Hb & Hh).
    destruct (generate_addition _ _ _ s Hb Hh) as (a & b & s' & E & _).
    do 2 eexists. split; [exact E | reflexivity].
  - destruct (addsub_bounds_tier t) as (high & Hb & Hh).
    destruct (generate_subtraction _ _ _ s Hb Hh) as (a & b & s' & E & _).
    do 2 eexists. split; [exact E | reflexivity].
  - destruct (mul_bounds_tier t) as (high & Hb & Hh).
    destruct (generate_multiplication _ _ _ s Hb Hh) as (a & b & s' & E & _).
    do 2 eexists. split; [exact E | reflexivity].
  - destruct (div_bounds_tier t) as (bh & qh & Hb & Hbh & Hqh).
    destruct (generate_division _ _ _ _ _ s Hb Hbh Hqh) as (b & q & s' & E & Rb & _).
    do 2 eexists. split; [exact E |].
    cbn [Exercise.a Exercise.b Exercise.op Exercise.result].
    unfold expected, sign_div, sign_mul. cbn [is_str String.eqb Ascii.eqb Bool.eqb orb].
    unfold floordiv. destruct (Z.eqb_spec b 0); [lia |]. cbn [rbind].
    rewrite Z.mul_comm, Z.div_mul by lia. reflexivity. }
destruct Hgen as (e & s' & E & Hg).
destruct (generate_exercise_state _ _ _ _ _ E) as [-> _].
exists (Some e). split; [exact E |]. exists e. split; [reflexivity | exact Hg].
Qed.

(** The inner comprehension of [index_post]: one exercise for each index. *)
Lemma generate_list op t (indices : list nat) : forall s,
  In op four_operations ->
  exists l,
    list_comp indices (fun _ => generate_exercise (Some op) (Some (tier_name t))) s
    = (Ok l, set_random_taken (2 * length indices + random_taken s) s)
    /\ length l = length indices
    /\ Forall agrees_with_grader l.
Proof.
induction indices as [| i indices IH]; intros s Hop.
- exists []. cbn [list_comp length]. rewrite Nat.mul_0_r, Nat.add_0_l, set_random_taken_same.
  repeat split. constructor.
- destruct (generate_exercise_ok op t s Hop) as (ex & E & Hex).
  destruct (IH (set_random_taken (2 + random_taken s) s) Hop) as (l & El & Hlen & Hl).
  exists (ex :: l). cbn [list_comp]. rewrite (bind_ok _ _ _ _ _ E), (bind_ok _ _ _ _ _ El).
  cbn [ret length]. split; [| split; [now rewrite Hlen | now constructor]].
  rewrite set_random_taken_twice. f_equal. f_equal.
  cbn [random_taken set_random_taken]. lia.
Qed.

(** The outer loop of [index_post]: one list for each operation. *)
Lemma generate_lists t n (ops : list string) : forall s,
  Forall (fun op => In op four_operations) ops ->
  exists exercises,
    list_comp (map Some ops)
      (fun op => bind (list_comp (seq 0 n)
                         (fun _ => generate_exercise op (Some (tier_name t))))
                      (fun l => ret (op, l))) s
    = (Ok exercises, set_random_taken (2 * n * length ops + random_taken s) s)
    /\ map fst exercises = map Some ops
    /\ Forall (fun l => length l = n /\ Forall agrees_with_grader l) (map snd exercises).
Proof.
induction ops as [| op ops IH]; intros s Hops.
- exists []. cbn [list_comp map length]. rewrite Nat.mul_0_r, Nat.add_0_l, set_random_taken_same.
  repeat split. constructor.
- inversion Hops as [| ? ? Hop Hops']; subst.
  destruct (generate_list op t (seq 0 n) s Hop) as (l & El & Hlen & Hl).
  rewrite length_seq in El, Hlen.
  destruct (IH (set_random_taken (2 * n + random_taken s) s) Hops') as (exs & E & Hfst & Hsnd).
  exists ((Some op, l) :: exs). cbn [list_comp map].
  rewrite bind_assoc, (bind_ok _ _ _ _ _ El), bind_ret, (bind_ok _ _ _ _ _ E).
  cbn [ret fst snd length]. split; [| split].
  + rewrite set_random_taken_twice. f_equal. f_equal.
    cbn [random_taken set_random_taken]. lia.
  + now rewrite Hfst.
  + constructor; [split; assumption | exact Hsnd].
Qed.

Lemma operations_of_category c :
  c = "all" \/ In c four_operations ->
  exists ops, operations_of (Some c) = map Some ops
              /\ Forall (fun op => In op four_operations) ops.
Proof.
intros [-> | Hc].
- exists four_operations. split; [reflexivity |]. apply Forall_forall.
  intros x Hx. now apply list_elem_of_In.
- exists [c]. split; [| constructor; [exact Hc | constructor]].
  unfold operations_of. cbn [is_str].
  cbn in Hc. destruct Hc as [<- | [<- | [<- | [<- | []]]]]; reflexivity.
Qed.

(** [track_usage] run after [can_use_plan] does what it does run alone. *)
Lemma track_usage_after_setdefault email level u s :
  users s !! email = Some u ->
  track_usage email level (update_user email (with_usage u) s) = track_usage email level s.
Proof.
intros H. unfold track_usage at 1.
rewrite (bind_ok _ _ _ _ _ (user_of_ok _ _ _ (update_user_lookup _ _ _))).
rewrite (bind_ok _ _ _ _ _
           (usage_count_setdefault_ok _ _ _ (update_user_lookup _ _ _))).
rewrite update_user_twice.
unfold track_usage.
rewrite (bind_ok _ _ _ _ _ (user_of_ok _ _ _ H)).
rewrite (bind_ok _ _ _ _ _ (usage_count_setdefault_ok _ _ _ H)).
reflexivity.
Qed.

(** With a complete usage dict, [track_usage] at a tier returns. *)
Lemma track_usage_returns email t u p s :
  users s !! email = Some u -> plan u = Some p ->
  complete (usage_or_default u) = true ->
  exists s', track_usage email (Some (tier_name t)) s = (Ok tt, s')
             /\ same_but_user email s s'.
Proof.
intros H Hp Hc.
destruct (complete_lookup _ _ Hc (tier_name_counter t)) as (n & Hn & _).
destruct (complete_lookup _ _ Hc total_counter) as (total & Ht & _).
destruct (String.eqb_spec p "free") as [-> | Hf].
{ eexists. split; [apply (track_usage_free _ _ _ _ _ H Hp Hn) | apply same_but_user_update]. }
destruct (String.eqb_spec p "twenty") as [-> | Htw].
{ eexists. split; [apply (track_usage_twenty _ _ _ _ _ _ H Hp Ht (tier_name_not_total t) Hn) |
                   apply same_but_user_update]. }
exists (update_user email (with_usage u) s). split; [| apply same_but_user_update].
unfold track_usage, save_users.
rewrite (bind_ok _ _ _ _ _ (user_of_ok _ _ _ H)).
rewrite (bind_ok _ _ _ _ _ (usage_count_setdefault_ok _ _ _ H)).
rewrite (bind_ok _ _ _ _ _ (user_of_ok _ _ _ (update_user_lookup _ _ _))).
rewrite plan_with_usage, Hp. cbn [item]. rewrite bind_ret.
apply String.eqb_neq in Hf, Htw. rewrite Hf, Htw. reflexivity.
Qed.

End Generation.

(** X12. For each of the four operations, every tier and every state of
    the random generator, the exercise [generate_exercise] returns is one
    the grader agrees with: what [answers_route] recomputes from its
    operands and its sign is its reported result. *)
Theorem generated_exercise_agrees_with_grader (t : tier) (s : state) :
  Forall (fun op =>
            exists ex s',
              generate_exercise (Some op) (Some (tier_name t)) s = (Ok ex, s')
              /\ agrees_with_grader ex)
    four_operations.
Proof.
apply Forall_forall. intros op Hop. apply list_elem_of_In in Hop.
destruct (generate_exercise_ok op t s Hop) as (ex & E & Hex).
exists ex. eexists. split; [exact E | exact Hex].
Qed.

(** X13. An authorized POST to the index for a tier, a category (one of
    the four operations, or ["all"]) and a count [nb_ops] records the use,
    then generates, for each operation of the category and in their order,
    exactly [nb_ops] exercises the grader agrees with (none when [nb_ops] is
    0 or negative); it stores them in [latest_exercises], stores the request
    in [latest_meta], clears [latest_result], and takes two draws for each
    exercise. *)
Theorem index_post_generates_nb_ops
  (s : state) (sess : session) (email : string) (u : user_data) (p : string)
  (form : gmap string string) (t : tier) (c : string) (n cols : Z) :
  session_user sess = Some email ->
  users s !! email = Some u -> plan u = Some p ->
  complete (usage_or_default u) = true ->
  form !! "phase" = Some "generate" -> form !! "level" = Some (tier_name t) ->
  form !! "category" = Some c -> (c = "all" \/ In c four_operations) ->
  form_int form "nb_ops" 100 = Ok n -> form_int form "pdf_columns" 3 = Ok cols ->
  (can_use_plan email (Some (tier_name t)) s).1 = Ok true ->
  exists exercises s',
    index_post sess form s
    = (Ok (mk_response (ExercisePage exercises (Some (tier_name t)) (Some c)) []), s')
    /\ map fst exercises = operations_of (Some c)
    /\ Forall (fun l => length l = Z.to_nat n /\ Forall agrees_with_grader l)
         (map snd exercises)
    /\ latest_exercises s' = Some exercises
    /\ latest_result s' = None
    /\ latest_meta s'
       = Some (mk_meta (Some (tier_name t)) (Some c) (default "blue" (session_theme sess))
                 n cols)
    /\ users s' = users (track_usage email (Some (tier_name t)) s).2
    /\ random_taken s'
       = (2 * Z.to_nat n * length exercises + random_taken s)%nat.
Proof.
intros Hl H Hp Hc Hph Hlv Hcat Hvalid Hn Hcols Hcan.
destruct (operations_of_category c Hvalid) as (ops & Hops & Hfour).
pose proof (can_use_plan_ok email (Some (tier_name t)) u p s H Hp) as E.
rewrite E in Hcan. cbn [fst] in Hcan. rewrite Hcan in E.
destruct (track_usage_returns email t u p s H Hp Hc) as (s2 & Et & Hsame).
pose proof (track_usage_after_setdefault email (Some (tier_name t)) u s H) as Et'.
rewrite Et in Et'.
set (meta := mk_meta (Some (tier_name t)) (Some c) (default "blue" (session_theme sess)) n cols).
destruct (generate_lists t (Z.to_nat n) ops (set_latest_meta (Some meta) s2) Hfour)
  as (exercises & Eg & Hfst & Hsnd).
exists exercises. eexists. split.
- unfold index_post. rewrite Hl.
  rewrite (bind_ok _ _ _ _ _ (user_of_ok _ _ _ H)). rewrite Hp, Hph, Hlv, Hcat.
  cbn [is_str String.eqb Ascii.eqb Bool.eqb].
  rewrite (bind_ok _ _ _ _ _ E). cbn [negb].
  rewrite (bind_ok _ _ _ _ _ Et').
  rewrite Hn, Hcols, !bind_lift, bind_modify.
  rewrite Hops. rewrite (bind_ok _ _ _ _ _ Eg). reflexivity.
- assert (Hlen : length exercises = length ops).
  { rewrite <- (length_map fst exercises), Hfst. apply length_map. }
  split; [now rewrite Hops |]. split; [exact Hsnd |].
  split; [reflexivity |]. split; [reflexivity |]. split; [reflexivity |].
  split.
  + rewrite Et. reflexivity.
  + cbn [bind modify ret snd random_taken set_latest_result set_latest_exercises
           set_random_taken set_latest_meta].
    destruct Hsame as (_ & _ & _ & _ & _ & Hr). rewrite Hr.
    f_equal. f_equal. symmetry. exact Hlen.
Qed.

(** X14. On the free plan, an authorized POST whose [nb_ops] field is no
    integer raises [ValueError] after the use has been recorded: the counter
    of the tier is at 1, the tier is closed from then on, and no exercise
    has been generated ([latest_exercises] and [latest_meta] are as
    before). *)
Theorem index_post_bad_count_costs_a_use
  (s : state) (sess : session) (email : string) (u : user_data)
  (form : gmap string string) (t : tier) (v : string) :
  session_user sess = Some email ->
  users s !! email = Some u -> plan u = Some "free" ->
  usage_or_default u !! tier_name t = Some 0 ->
  form !! "phase" = Some "generate" -> form !! "level" = Some (tier_name t) ->
  form !! "nb_ops" = Some v -> int_of_str v = None ->
  exists s' u',
    index_post sess form s = (Raise ValueError, s')
    /\ users s' !! email = Some u'
    /\ tier_count u' t = 1
    /\ (can_use_plan email (Some (tier_name t)) s').1 = Ok false
    /\ latest_exercises s' = latest_exercises s
    /\ latest_meta s' = latest_meta s.
Proof.
intros Hl H Hp H0 Hph Hlv Hnb Hv.
pose proof (can_use_plan_ok email (Some (tier_name t)) u "free" s H Hp) as E.
cbn [String.eqb Ascii.eqb Bool.eqb dict_get] in E. rewrite H0 in E.
change (0 <? 1) with true in E.
pose proof (track_usage_free email u (tier_name t) 0 s H Hp H0) as Et.
rewrite <- (track_usage_after_setdefault email (Some (tier_name t)) u s H) in Et.
set (u' := set_usage_count (Some (<[tier_name t := 0 + 1]> (usage_or_default u))) u) in *.
exists (update_user email u' s), u'. split; [| split; [apply update_user_lookup | split; [| split]]].
- unfold index_post. rewrite Hl.
  rewrite (bind_ok _ _ _ _ _ (user_of_ok _ _ _ H)). rewrite Hp, Hph, Hlv.
  cbn [is_str String.eqb Ascii.eqb Bool.eqb].
  rewrite (bind_ok _ _ _ _ _ E). cbn [negb].
  rewrite (bind_ok _ _ _ _ _ Et).
  unfold form_int. rewrite Hnb. cbn [int_of_pstr]. rewrite Hv. reflexivity.
- unfold tier_count, u'. rewrite usage_or_default_set. cbn [dict_get].
  now rewrite lookup_insert_eq.
- rewrite (can_use_plan_ok _ _ u' "free" _ (update_user_lookup _ _ _) Hp).
  cbn [String.eqb Ascii.eqb Bool.eqb dict_get fst]. unfold u'.
  rewrite usage_or_default_set, lookup_insert_eq. reflexivity.
- split; reflexivity.
Qed.

(* ===================================================================== *)
(** * The conversions between text and ints *)
(* ===================================================================== *)

Section Conversions.

Lemma digit_of_range c d : digit_of c = Some d -> 0 <= d <= 9.
Proof.
unfold digit_of.
destruct ((48 <=? nat_of_ascii c)%nat && (nat_of_ascii c <=? 57)%nat) eqn:E;
  [| discriminate].
apply andb_true_iff in E. destruct E as [E1 E2].
apply Nat.leb_le in E1, E2. intros [= <-]. lia.
Qed.

Lemma int_space_no_digit c : is_int_space c = true -> digit_of c = None.
Proof.
unfold is_int_space, digit_of. intros H.
destruct ((48 <=? nat_of_ascii c)%nat && (nat_of_ascii c <=? 57)%nat) eqn:E;
  [| reflexivity].
apply andb_true_iff in E. destruct E as [E1 E2]. apply Nat.leb_le in E1, E2.
apply orb_true_iff in H. destruct H as [H | H].
- apply andb_true_iff in H. destruct H as [_ H]. apply Nat.leb_le in H. lia.
- apply Nat.eqb_eq in H. lia.
Qed.

Lemma count_digits_drop s : count_digits (drop_int_space s) = count_digits s.
Proof.
induction s as [| c s IH]; [reflexivity |].
cbn [drop_int_space]. destruct (is_int_space c) eqn:E; [| reflexivity].
cbn [count_digits]. now rewrite (int_space_no_digit _ E).
Qed.

(** What [digits] reads is below the power of ten of the digits it is
    given. *)
Lemma digits_bound s : forall acc prev n,
  0 <= acc -> digits acc prev s = Some n ->
  0 <= n < (acc + 1) * 10 ^ Z.of_nat (count_digits s).
Proof.
induction s as [| c s IH]; intros acc prev n Hacc.
- cbn [digits count_digits]. destruct prev; [| discriminate]. intros [= <-].
  change (10 ^ Z.of_nat 0) with 1. lia.
- change (digits acc prev (String c s))
    with (match digit_of c with
          | Some d => digits (10 * acc + d) true s
          | None =>
              if Ascii.eqb c "_"%char then
                if prev then
                  match s with
                  | String c' _ =>
                      match digit_of c' with
                      | Some _ => digits acc false s
                      | None => None
                      end
                  | EmptyString => None
                  end
                else None
              else if is_int_space c then
                if prev then
                  match drop_int_space (String c s) with
                  | EmptyString => Some acc
                  | String _ _ => None
                  end
                else None
              else None
          end).
  cbn [count_digits]. destruct (digit_of c) as [d |] eqn:Hd.
  + intros H. pose proof (digit_of_range _ _ Hd) as Hr.
    apply IH in H; [| lia]. rewrite Nat2Z.inj_succ, Z.pow_succ_r by lia.
    assert (0 < 10 ^ Z.of_nat (count_digits s)) by (apply Z.pow_pos_nonneg; lia).
    nia.
  + assert (Hpos : 0 < 10 ^ Z.of_nat (count_digits s)) by (apply Z.pow_pos_nonneg; lia).
    destruct (Ascii.eqb c "_"%char).
    * destruct prev; [| discriminate]. destruct s as [| c' s']; [discriminate |].
      destruct (digit_of c'); [| discriminate]. intros H. now apply IH in H.
    * destruct (is_int_space c); [| discriminate]. destruct prev; [| discriminate].
      destruct (drop_int_space (String c s)); [| discriminate]. intros [= <-]. nia.
Qed.

Lemma literal_bound s n :
  literal s = Some n -> Z.abs n < 10 ^ Z.of_nat (count_digits s).
Proof.
unfold literal. rewrite <- (count_digits_drop s).
destruct (drop_int_space s) as [| c s'] eqn:E.
- discriminate.
- assert (Hs : forall m, digits 0 false s' = Some m ->
                 digit_of c = None ->
                 Z.abs m < 10 ^ Z.of_nat (count_digits (String c s'))).
  { intros m Hm Hc. cbn [count_digits]. rewrite Hc.
    apply digits_bound in Hm; lia. }
  assert (Hw : forall m, digits 0 false (String c s') = Some m ->
                 Z.abs m < 10 ^ Z.of_nat (count_digits (String c s'))).
  { intros m Hm. apply digits_bound in Hm; lia. }
  destruct c as [[] [] [] [] [] [] [] []];
    first
      [ exact (Hw n)
      | intros Hm; now apply Hs
      | destruct (digits 0 false s') as [m |] eqn:Hm; [| discriminate];
        cbn [fmap option_fmap option_map]; intros [= <-]; rewrite Z.abs_opp;
        now apply Hs ].
Qed.

(** An int that [int] read converts to text. *)
Lemma int_of_str_prints s n : int_of_str s = Some n -> prints n = true.
Proof.
unfold int_of_str, prints.
destruct (int_text s) as [text |]; [| discriminate].
destruct (literal text) as [m |] eqn:Hl; [| discriminate].
destruct (int_max_str_digits <? count_digits text)%nat eqn:Hc; [discriminate |].
intros [= <-]. apply Nat.ltb_ge in Hc. apply literal_bound in Hl.
destruct (Z.log2 (Z.abs m) <? 14284); [reflexivity |].
apply Z.ltb_lt. eapply Z.lt_le_trans; [exact Hl |].
apply Z.pow_le_mono_r; lia.
Qed.

(** [prints] is the test of the 4300 digits. *)
Lemma prints_spec n : prints n = (Z.abs n <? 10 ^ Z.of_nat int_max_str_digits).
Proof.
unfold prints. destruct (Z.ltb_spec (Z.log2 (Z.abs n)) 14284) as [H |]; [| reflexivity].
symmetry. apply Z.ltb_lt.
assert (Hp : (2 ^ 14284 <=? 10 ^ Z.of_nat int_max_str_digits) = true)
  by (vm_compute; reflexivity).
apply Z.leb_le in Hp. eapply Z.lt_le_trans; [| exact Hp].
destruct (Z.eq_dec (Z.abs n) 0) as [-> | Hn].
- apply Z.pow_pos_nonneg; lia.
- apply Z.log2_lt_pow2; lia.
Qed.

End Conversions.

(** The operands the grader reads convert to text, so the question text
    of a turn of the loop raises nothing. *)
Lemma recomputed_prints form op i a b correct :
  recomputed form op i = Ok (a, b, correct) -> prints a = true /\ prints b = true.
Proof.
unfold recomputed, int_of_pstr.
destruct (form !! field op i "_a") as [sa |]; [| discriminate].
destruct (int_of_str sa) as [a' |] eqn:Ha; [| discriminate].
destruct (form !! field op i "_b") as [sb |]; [| discriminate].
destruct (int_of_str sb) as [b' |] eqn:Hb; [| discriminate].
cbn [rbind]. destruct (expected a' b' _); cbn [rbind]; [| discriminate].
intros [= <- <- _]. split; eapply int_of_str_prints; eassumption.
Qed.

(* ===================================================================== *)
(** * More on the grader: the tally, what the grade depends on *)
(* ===================================================================== *)

Section Tally.

Local Abbreviation bump item := (if fb_correct item then 1 else 0).

(** A turn of the loop that returns has appended one item, counted one
    question, and counted it right exactly when the item is marked
    correct. *)
Lemma grade_question_tally form op t i t' :
  grade_question form op t i = Ok t' ->
  exists item,
    feedback_op t' = (feedback_op t ++ [item])%list
    /\ total_questions t' = total_questions t + 1
    /\ total_correct t' = total_correct t + bump item.
Proof.
unfold grade_question.
destruct (int_of_pstr (form !! field op i "_a")) as [a |]; cbn [rbind]; [| discriminate].
destruct (int_of_pstr (form !! field op i "_b")) as [b |]; cbn [rbind]; [| discriminate].
destruct (expected a b (form !! field op i "_op")) as [c |]; cbn [rbind]; [| discriminate].
destruct (normalize_answer _);
  [| destruct (answer_matches _ _);
     [| destruct (fmt_expected c) as [text |]; cbn [rbind]; [| discriminate]]];
  intros [= <-]; eexists; cbn [feedback_op total_questions total_correct];
  (split; [reflexivity | split; [reflexivity | cbn; lia]]).
Qed.

Lemma count_correct_app l1 l2 :
  count_correct (l1 ++ l2) = (count_correct l1 + count_correct l2)%nat.
Proof. unfold count_correct. now rewrite List.filter_app, length_app. Qed.

Lemma count_correct_one item : Z.of_nat (count_correct [item]) = bump item.
Proof. unfold count_correct. cbn. now destruct (fb_correct item). Qed.

Lemma grade_questions_tally form op indices : forall t t',
  grade_questions form op t indices = Ok t' ->
  exists items,
    feedback_op t' = (feedback_op t ++ items)%list
    /\ total_questions t' = total_questions t + Z.of_nat (length items)
    /\ total_correct t' = total_correct t + Z.of_nat (count_correct items).
Proof.
induction indices as [| i indices IH]; intros t t'; cbn [grade_questions].
- intros [= <-]. exists []. rewrite app_nil_r. cbn. split; [reflexivity | lia].
- destruct (grade_question form op t i) as [t1 |] eqn:E1; cbn [rbind]; [| discriminate].
  intros E2. destruct (grade_question_tally _ _ _ _ _ E1) as (item & Hf & Hq & Hc).
  destruct (IH _ _ E2) as (items & Hf' & Hq' & Hc').
  exists (item :: items). rewrite Hf', Hf, <- app_assoc. split; [reflexivity |].
  change (item :: items) with ([item] ++ items)%list.
  rewrite count_correct_app, length_app, !Nat2Z.inj_add, count_correct_one.
  cbn [length]. lia.
Qed.

Lemma grade_operations_tally form operations : forall feedback c q feedback' c' q',
  grade_operations form operations feedback c q = Ok (feedback', c', q') ->
  exists added,
    feedback' = (feedback ++ added)%list
    /\ q' = q + Z.of_nat (length (all_feedback added))
    /\ c' = c + Z.of_nat (count_correct (all_feedback added)).
Proof.
induction operations as [| op rest IH]; intros feedback c q feedback' c' q';
  cbn [grade_operations].
- intros [= <- <- <-]. exists []. rewrite app_nil_r. cbn. repeat split; lia.
- destruct (grade_questions form op (mk_tally [] c q) (seq 0 (nb_ops_of form op)))
    as [t |] eqn:E1; cbn [rbind]; [| discriminate].
  intros E2. destruct (grade_questions_tally _ _ _ _ _ E1) as (items & Hf & Hq & Hc).
  cbn [feedback_op total_questions total_correct app] in Hf, Hq, Hc.
  destruct (IH _ _ _ _ _ _ E2) as (added & -> & -> & ->).
  exists ((op, feedback_op t) :: added). rewrite <- app_assoc. split; [reflexivity |].
  unfold all_feedback. cbn [map concat snd].
  rewrite count_correct_app, length_app, !Nat2Z.inj_add, Hq, Hc, Hf. lia.
Qed.

Lemma count_correct_le l : (count_correct l <= length l)%nat.
Proof. unfold count_correct. apply List.filter_length_le. Qed.

End Tally.

(** X15. Whenever [answers_route] serves a result page, the score on it
    is computed from exactly the feedback items on it: with [n] items of
    which [k] are marked correct, [k <= n] and the score is
    [round((k / n) * 100)], or 0 when [n] is 0. *)
Theorem result_page_score_matches_feedback
  (sess : session) (form : gmap string string) (s s' : state)
  (feedback : by_operation feedback_item) (sc : Z) (theme : pstr)
  (flashes : list (string * string)) :
  answers_route sess form s = (Ok (mk_response (ResultPage feedback sc theme) flashes), s') ->
  sc = score (Z.of_nat (count_correct (all_feedback feedback)))
             (Z.of_nat (length (all_feedback feedback)))
  /\ (count_correct (all_feedback feedback) <= length (all_feedback feedback))%nat.
Proof.
intros E. split; [| apply count_correct_le].
unfold answers_route, bind, get, lift, ret, modify in E.
destruct (session_user sess); [| discriminate E].
destruct (latest_exercises s) as [exs |]; [| discriminate E].
destruct exs as [| x xs]; [discriminate E |].
destruct (latest_meta s) as [m |]; [| discriminate E].
destruct (grade_operations form (operations_of (form !! "selected_category")) [] 0 0)
  as [[[fb c] q] |] eqn:Eg; [| discriminate E].
destruct (solutions_of (x :: xs)); [| discriminate E].
injection E as <- <- _ _ _.
destruct (grade_operations_tally _ _ _ _ _ _ _ _ Eg) as (added & -> & -> & ->).
reflexivity.
Qed.

(** X16. The grade comes from the posted form alone: in any two states
    with exercises in progress, [answers_route] gives the same response to
    the same form, whatever exercises were generated.  The route changes
    nothing but [latest_result], and changes nothing at all when it raises or
    redirects. *)
Theorem grading_ignores_stored_exercises
  (sess : session) (form : gmap string string) (s : state) :
  (forall s2, in_progress s -> in_progress s2 ->
     (answers_route sess form s).1 = (answers_route sess form s2).1)
  /\ (exists r, (answers_route sess form s).2 = set_latest_result r s)
  /\ (forall r, (answers_route sess form s).1 = r ->
        (forall feedback sc theme flashes,
            r <> Ok (mk_response (ResultPage feedback sc theme) flashes)) ->
        (answers_route sess form s).2 = s).
Proof.
assert (Hsame : set_latest_result (latest_result s) s = s) by (destruct s; reflexivity).
split; [| split].
- intros s2 (e & es & m & sols & He & Hm & Hs) (e2 & es2 & m2 & sols2 & He2 & Hm2 & Hs2).
  unfold answers_route. destruct (session_user sess); [| reflexivity].
  unfold bind, get, lift. rewrite He, Hm, He2, Hm2, Hs, Hs2.
  destruct (grade_operations form (operations_of (form !! "selected_category")) [] 0 0)
    as [[[fb c] q] |]; reflexivity.
- unfold answers_route. destruct (session_user sess); [| now exists (latest_result s)].
  unfold bind, get, lift.
  destruct (latest_exercises s) as [exs |]; [| now exists (latest_result s)].
  destruct exs as [| x xs]; [now exists (latest_result s) |].
  destruct (latest_meta s) as [m |]; [| now exists (latest_result s)].
  destruct (grade_operations form (operations_of (form !! "selected_category")) [] 0 0)
    as [[[fb c] q] |]; [| now exists (latest_result s)].
  destruct (solutions_of (x :: xs)); [| now exists (latest_result s)].
  eexists. reflexivity.
- intros r <- Hr. unfold answers_route in *. destruct (session_user sess); [| reflexivity].
  unfold bind, get, lift in *.
  destruct (latest_exercises s) as [exs |]; [| reflexivity].
  destruct exs as [| x xs]; [reflexivity |].
  destruct (latest_meta s) as [m |]; [| reflexivity].
  destruct (grade_operations form (operations_of (form !! "selected_category")) [] 0 0)
    as [[[fb c] q] |]; [| reflexivity].
  destruct (solutions_of (x :: xs)); [| reflexivity].
  exfalso. eapply Hr. reflexivity.
Qed.

(** An answer equals the recomputed value exactly when [==] says so. *)
Lemma answer_matches_iff n correct : answer_matches n correct = true <-> correct = Some n.
Proof.
unfold answer_matches. destruct correct as [c |]; [| split; discriminate].
rewrite Z.eqb_eq. split; [now intros -> | now intros [= ->]].
Qed.

(** X17. An answer that [int] reads as [n] is graded against the value
    recomputed from the posted operands and sign, and nothing else.  When
    the answer is that value, or that value converts to text (it has no
    more than 4300 digits, or the sign is unknown and it is [None]), the
    turn returns: one item is appended, marked correct and counted in
    [total_correct] exactly when the answer equals the value.  When the
    answer differs from a value too long to convert, the message of the
    wrong answer raises [ValueError]. *)
Theorem integer_answer_graded_by_recomputation
  (form : gmap string string) (op : pstr) (i : nat) (t : tally)
  (n a b : Z) (correct : option Z) :
  normalize_answer (form !! field op i "") = Answered n ->
  recomputed form op i = Ok (a, b, correct) ->
  (correct = Some n \/ (exists text, fmt_expected correct = Ok text) ->
     exists t' item,
       grade_question form op t i = Ok t'
       /\ feedback_op t' = (feedback_op t ++ [item])%list
       /\ (fb_correct item = true <-> correct = Some n)
       /\ total_questions t' = total_questions t + 1
       /\ total_correct t' = total_correct t + (if fb_correct item then 1 else 0))
  /\ (correct <> Some n ->
      forall c, correct = Some c -> prints c = false ->
        grade_question form op t i = Raise ValueError).
Proof.
intros Hnorm Hr. unfold grade_question, recomputed in *. rewrite Hnorm.
destruct (int_of_pstr (form !! field op i "_a")) as [a' |]; cbn [rbind] in *; [| discriminate].
destruct (int_of_pstr (form !! field op i "_b")) as [b' |]; cbn [rbind] in *; [| discriminate].
destruct (expected a' b' (form !! field op i "_op")) as [c |]; cbn [rbind] in *;
  [| discriminate].
injection Hr as -> -> ->.
pose proof (answer_matches_iff n correct) as Hiff.
destruct (answer_matches n correct) eqn:Hm; split.
- intros _. do 2 eexists. split; [reflexivity |].
  cbn [feedback_op total_questions total_correct fb_correct].
  split; [reflexivity |]. split; [| split; [reflexivity | cbn; lia]].
  split; [intros _; now apply Hiff | reflexivity].
- intros Hne. exfalso. apply Hne. now apply Hiff.
- intros [Heq | [text Htext]]; [apply Hiff in Heq; discriminate |].
  rewrite Htext. cbn [rbind]. do 2 eexists. split; [reflexivity |].
  cbn [feedback_op total_questions total_correct fb_correct].
  split; [reflexivity |]. split; [| split; [reflexivity | cbn; lia]].
  split; [discriminate |]. intros Heq. apply Hiff in Heq. discriminate.
- intros _ c -> Hp. cbn [fmt_expected]. unfold checked_str. rewrite Hp. reflexivity.
Qed.

(** X18. A form whose first question has operand fields that cannot be
    read (a field absent or no integer, or a zero divisor under a division
    sign) makes [answers_route] raise that very error; nothing is stored. *)
Theorem answers_route_raises_on_bad_operands
  (sess : session) (email : string) (form : gmap string string) (s : state)
  (op : pstr) (rest : list pstr) (e : exn) :
  session_user sess = Some email -> in_progress s ->
  operations_of (form !! "selected_category") = op :: rest ->
  (0 < nb_ops_of form op)%nat ->
  recomputed form op 0 = Raise e ->
  answers_route sess form s = (Raise e, s).
Proof.
intros Hl (x & xs & m & sols & He & Hm & Hs) Hops Hn Hr.
unfold answers_route. rewrite Hl. unfold bind, get, lift. rewrite He, Hm, Hops.
cbn [grade_operations].
destruct (nb_ops_of form op) as [| k]; [lia |]. cbn [seq grade_questions].
rewrite (recomputed_raises form op (mk_tally [] 0 0) 0 e Hr). reflexivity.
Qed.

(* ===================================================================== *)
(** * Activation keys *)
(* ===================================================================== *)

Section Base36.

Lemma size_nat_div2 n : N.size_nat (N.div2 n) = Nat.pred (N.size_nat n).
Proof. destruct n as [| [p | p |]]; reflexivity. Qed.

Lemma size_nat_mono n m : (n <= m)%N -> (N.size_nat n <= N.size_nat m)%nat.
Proof.
destruct n as [| p], m as [| q]; cbn; intros H; try lia.
destruct (Pos.eq_dec p q) as [-> | Hne]; [lia |].
apply Pos.size_nat_monotone. lia.
Qed.

Lemma size_nat_div36 num :
  (0 < num)%N -> (N.size_nat (num / 36) < N.size_nat num)%nat.
Proof.
intros Hpos.
assert (H1 : (num / 36 <= N.div2 num)%N).
{ rewrite N.div2_div. apply N.div_le_compat_l. lia. }
apply size_nat_mono in H1. rewrite size_nat_div2 in H1.
destruct num as [| p]; [lia |]. cbn [N.size_nat] in *.
destruct p; cbn [Pos.size_nat] in *; lia.
Qed.

Lemma alphabet_index_at r : (r < 36)%N -> alphabet_index (alphabet_at r) = Some r.
Proof.
intros H. rewrite <- (N2Nat.id r) at 2. unfold alphabet_at.
assert (Hn : (N.to_nat r < 36)%nat) by lia. revert Hn. generalize (N.to_nat r). intros n Hn.
do 36 (destruct n as [| n]; [reflexivity |]). lia.
Qed.

Lemma in_alphabet_at r : in_alphabet (alphabet_at r) = true.
Proof.
unfold alphabet_at. generalize (N.to_nat r). intros n.
do 36 (destruct n as [| n]; [reflexivity |]). reflexivity.
Qed.

(** With as many turns as [num] has bits, the loop writes [num] in base
    36 in front of the key. *)
Lemma base36_loop_value turns : forall num key,
  (N.size_nat num <= turns)%nat ->
  base36_value 0 (base36_loop turns num key) = base36_value num key.
Proof.
induction turns as [| turns IH]; intros num key Hsize.
- destruct num; [reflexivity | cbn in Hsize; destruct p; cbn in Hsize; lia].
- cbn [base36_loop]. destruct (N.ltb_spec 0 num) as [Hpos | Hz].
  + rewrite IH by (pose proof (size_nat_div36 num Hpos); lia).
    cbn [base36_value]. rewrite alphabet_index_at by (apply N.mod_lt; lia).
    f_equal. rewrite (N.div_mod num 36) at 3 by lia. reflexivity.
  + now replace num with 0%N by lia.
Qed.

Lemma base36_loop_alphabet turns : forall num key,
  string_forall in_alphabet key = true ->
  string_forall in_alphabet (base36_loop turns num key) = true.
Proof.
induction turns as [| turns IH]; intros num key Hkey; [exact Hkey |].
cbn [base36_loop]. destruct (0 <? num)%N; [| exact Hkey].
apply IH. cbn [string_forall]. now rewrite in_alphabet_at.
Qed.

Lemma string_forall_app P s1 s2 :
  string_forall P (s1 +:+ s2) = string_forall P s1 && string_forall P s2.
Proof.
induction s1 as [| c s1 IH]; simpl; [reflexivity |].
now rewrite IH, andb_assoc.
Qed.

Lemma string_length_app s1 s2 :
  String.length (s1 +:+ s2) = (String.length s1 + String.length s2)%nat.
Proof.
induction s1 as [| c s1 IH]; simpl; [reflexivity |].
now rewrite IH.
Qed.

Lemma zeros_length n : String.length (zeros n) = n.
Proof. induction n; cbn; congruence. Qed.

Lemma zeros_alphabet n : string_forall in_alphabet (zeros n) = true.
Proof. induction n; cbn; [reflexivity | exact IHn]. Qed.

(** On a string of alphabet characters, which starts with no sign,
    [zfill] puts the zeros in front. *)
Lemma zfill_alphabet width s :
  string_forall in_alphabet s = true ->
  zfill width s = zeros (width - String.length s) +:+ s.
Proof.
destruct s as [| c s]; cbn [zfill string_forall].
- intros _. clear. induction (width - String.length "")%nat as [| n IH];
    [reflexivity |].
  change (String "0" (zeros n) = String "0" (zeros n +:+ "")). now rewrite <- IH.
- intros H. apply andb_prop in H. destruct H as [Hc _].
  destruct (Ascii.eqb_spec c "+") as [-> | _]; [discriminate Hc |].
  destruct (Ascii.eqb_spec c "-") as [-> | _]; [discriminate Hc |]. reflexivity.
Qed.

Lemma substring0_length n : forall s,
  String.length (String.substring 0 n s) = Nat.min n (String.length s).
Proof.
induction n as [| n IH]; intros [| c s]; cbn; try reflexivity. now rewrite IH.
Qed.

Lemma substring0_forall P n : forall s,
  string_forall P s = true -> string_forall P (String.substring 0 n s) = true.
Proof.
induction n as [| n IH]; intros [| c s]; cbn; try reflexivity.
intros H. apply andb_prop in H. destruct H as [Hc Hs]. now rewrite Hc, IH.
Qed.

(** A key of 16 characters, cut in groups of 4 and joined with dashes. *)
Lemma groups_of_16 P k :
  String.length k = 16%nat -> string_forall P k = true ->
  exists g1 g2 g3 g4,
    String.concat "-" (groups_of_4 k) = g1 +:+ "-" +:+ g2 +:+ "-" +:+ g3 +:+ "-" +:+ g4
    /\ Forall (fun g => String.length g = 4%nat /\ string_forall P g = true) [g1; g2; g3; g4].
Proof.
intros Hlen HP.
do 16 (destruct k as [| ? k]; [discriminate Hlen |]).
destruct k; [| discriminate Hlen]. clear Hlen.
cbn [string_forall] in HP.
repeat (apply andb_prop in HP; destruct HP as [? HP]).
eexists (String _ (String _ (String _ (String _ "")))),
        (String _ (String _ (String _ (String _ "")))),
        (String _ (String _ (String _ (String _ "")))),
        (String _ (String _ (String _ (String _ "")))).
split; [reflexivity |].
repeat constructor; cbn [string_forall];
  repeat match goal with H : P _ = true |- _ => rewrite H; clear H end; reflexivity.
Qed.

Lemma format_key_groups num :
  exists g1 g2 g3 g4,
    format_key num = g1 +:+ "-" +:+ g2 +:+ "-" +:+ g3 +:+ "-" +:+ g4
    /\ Forall (fun g => String.length g = 4%nat /\ string_forall in_alphabet g = true)
         [g1; g2; g3; g4].
Proof.
unfold format_key.
assert (Ha : string_forall in_alphabet (base36 num) = true)
  by (apply base36_loop_alphabet; reflexivity).
rewrite (zfill_alphabet 16 _ Ha).
apply groups_of_16.
- rewrite substring0_length, string_length_app, zeros_length. lia.
- apply substring0_forall. now rewrite string_forall_app, zeros_alphabet, Ha.
Qed.

End Base36.

(** X19. Whatever the hash, the email, the plan, the secret and the
    date, an activation key is four groups of four characters of the
    alphabet [0-9A-Z], joined by dashes: 19 characters in all. *)
Theorem activation_key_has_fixed_format
  (lower : string -> string) (sha256_int : string -> N)
  (email plan secret date_str : string) :
  exists g1 g2 g3 g4,
    generate_activation_key lower sha256_int email plan secret date_str
    = g1 +:+ "-" +:+ g2 +:+ "-" +:+ g3 +:+ "-" +:+ g4
    /\ Forall (fun g => String.length g = 4%nat /\ string_forall in_alphabet g = true)
         [g1; g2; g3; g4].
Proof. apply format_key_groups. Qed.

(** X20. The loop of [generate_activation_key] writes the hash in base
    36 with the characters of the alphabet, most significant digit first:
    read back in base 36, its string is the hash (the empty string for 0). *)
Theorem base36_digits_write_the_number (num : N) :
  base36_value 0 (base36 num) = Some num
  /\ string_forall in_alphabet (base36 num) = true.
Proof.
split.
- unfold base36. now rewrite base36_loop_value.
- apply base36_loop_alphabet. reflexivity.
Qed.

(** X21. [activate_key] changes an account only for a key that equals
    one of the two keys of the day.  A key that equals neither changes
    nothing and is answered with the invalid-key flash; the monthly key (it
    is tested first) sets the plan to monthly with its start at the clock
    reading; the fixed-count key sets the plan to twenty.  Neither touches a
    usage dict that is there. *)
Theorem activate_key_needs_a_key_of_the_day
  (lower : string -> string) (sha256_int : string -> N) (token : string)
  (s : state) (sess : session)
  (email : string) (u : user_data) (form : gmap string string)
  (today now_str : string) (now : Z) :
  session_user sess = Some email -> users s !! email = Some u ->
  let monthly_key := generate_activation_key lower sha256_int email "monthly" token today in
  let twenty_key := generate_activation_key lower sha256_int email "twenty" token today in
  (form !! "activation_key" <> Some monthly_key ->
   form !! "activation_key" <> Some twenty_key ->
     activate_key lower sha256_int token sess form today now_str now s
     = (Ok (mk_response (Redirect "/activation") [("Invalid activation key.", "danger")]), s))
  /\ (form !! "activation_key" = Some monthly_key ->
      exists r u',
        activate_key lower sha256_int token sess form today now_str now s
        = (Ok r, update_user email u' s)
        /\ plan u' = Some "monthly" /\ plan_start u' = Some now
        /\ activation_id u' = Some (email +:+ "_" +:+ now_str)
        /\ usage_count u' = usage_count u /\ profile u' = profile u)
  /\ (form !! "activation_key" = Some twenty_key -> monthly_key <> twenty_key ->
      exists r u',
        activate_key lower sha256_int token sess form today now_str now s
        = (Ok r, update_user email u' s)
        /\ plan u' = Some "twenty" /\ plan_start u' = plan_start u
        /\ usage_count u' = usage_count u /\ profile u' = profile u).
Proof.
intros Hl H monthly_key twenty_key.
assert (Hact : forall p,
           update_activation_after_payment sess now_str now p s
           = (if String.eqb p "monthly" then
                (Ok tt, update_user email
                          (set_activation_id (Some (email +:+ "_" +:+ now_str))
                             (set_plan_start (Some now) (set_plan (Some "monthly") u))) s)
              else if String.eqb p "twenty" then
                (Ok tt, update_user email
                          (set_activation_id
                             (Some (email +:+ "_"
                                    +:+ fmt_pstr (default (Some "unknown")
                                                    (profile u !! "birth_date"))
                                    +:+ "_" +:+ now_str))
                             (set_plan (Some "twenty") u)) s)
              else (Ok tt, s))).
{ intros p. unfold update_activation_after_payment. rewrite Hl. cbn [item]. rewrite bind_ret.
  rewrite (bind_ok _ _ _ _ _ (user_of_ok _ _ _ H)).
  destruct (String.eqb p "monthly"); [reflexivity |].
  destruct (String.eqb p "twenty"); reflexivity. }
split; [| split].
- intros Hm Ht. unfold activate_key. rewrite Hl. fold monthly_key twenty_key.
  destruct (form !! "activation_key") as [k |]; cbn [is_str]; [| reflexivity].
  destruct (String.eqb_spec k monthly_key) as [-> | _]; [congruence |].
  destruct (String.eqb_spec k twenty_key) as [-> | _]; [congruence | reflexivity].
- intros Hm. unfold activate_key. rewrite Hl. fold monthly_key twenty_key.
  rewrite Hm. cbn [is_str]. rewrite String.eqb_refl.
  rewrite (bind_ok _ _ _ _ _ (Hact "monthly")).
  do 2 eexists. split; [reflexivity |]. repeat split.
- intros Ht Hne. unfold activate_key. rewrite Hl. fold monthly_key twenty_key.
  rewrite Ht. cbn [is_str].
  destruct (String.eqb_spec twenty_key monthly_key) as [E | _]; [congruence |].
  rewrite String.eqb_refl.
  rewrite (bind_ok _ _ _ _ _ (Hact "twenty")).
  do 2 eexists. split; [reflexivity |]. repeat split.
Qed.

(* ===================================================================== *)
(** * Accounts *)
(* ===================================================================== *)

Section AccountFacts.

Variable sha256_hex : string -> string.

Lemma pstr_eqb_eq x y : pstr_eqb x y = true <-> x = y.
Proof. unfold pstr_eqb. apply bool_decide_eq_true. Qed.

Lemma pstr_eqb_refl x : pstr_eqb x x = true.
Proof. now apply pstr_eqb_eq. Qed.

Lemma pstr_eqb_neq x y : x <> y -> pstr_eqb x y = false.
Proof. intros H. unfold pstr_eqb. now apply bool_decide_eq_false. Qed.

Lemma known_user_some e u s : users s !! e = Some u -> known_user (Some e) s = Some (e, u).
Proof. intros H. unfold known_user. now rewrite H. Qed.

Lemma known_user_inv email s e u :
  known_user email s = Some (e, u) -> email = Some e /\ users s !! e = Some u.
Proof.
unfold known_user. destruct email as [e0 |]; [| discriminate].
destruct (users s !! e0) as [u0 |] eqn:E; [| discriminate]. now intros [= <- <-].
Qed.

Lemma known_user_none e s : users s !! e = None -> known_user (Some e) s = None.
Proof. intros H. unfold known_user. now rewrite H. Qed.

(** A login with the stored password. *)
Lemma login_route_ok form sess token now s e u p :
  form !! "email" = Some e -> form !! "password" = Some p ->
  users s !! e = Some u -> stored_password u = Some (Some (sha256_hex p)) ->
  exists r s',
    login_route sha256_hex "POST" form sess token now s = (Done r, s')
    /\ reply_body r = GoTo "/"
    /\ reply_session r = set_session_user (Some e) sess
    /\ (is_str (form !! "remember") "on" = true ->
          reply_cookie r = Some (SetToken token (now + thirty_days))
          /\ s' = update_user e
                    (set_profile (<["remember_token" := Some token]> (profile u)) u) s)
    /\ (is_str (form !! "remember") "on" = false ->
          reply_cookie r = Some ClearToken
          /\ s' = update_user e (set_profile (delete "remember_token" (profile u)) u) s).
Proof.
intros He Hp H Hs. unfold login_route, stored_password in *.
cbn [String.eqb Ascii.eqb Bool.eqb]. rewrite He, Hp, (known_user_some _ _ _ H), Hs.
cbn [hash_password]. rewrite pstr_eqb_refl.
destruct (is_str (form !! "remember") "on"); do 2 eexists;
  (split; [reflexivity |]); repeat split; intros; try discriminate; reflexivity.
Qed.

(** [register_route] leaves every entry that exists. *)
Lemma register_route_keeps_entry method form sess s k u :
  users s !! k = Some u ->
  users (register_route sha256_hex method form sess s).2 !! k = Some u.
Proof.
intros H. unfold register_route. destruct (String.eqb method "POST"); [| exact H].
destruct (known_user (form !! "email") s) as [[e0 u0] |] eqn:Ek; [exact H |].
destruct (negb _); [exact H |].
destruct (hash_password sha256_hex (form !! "password")); [| exact H].
destruct (form !! "email") as [e |]; [| exact H].
cbn [snd]. rewrite update_user_lookup_ne; [exact H |].
intros ->. unfold known_user in Ek. rewrite H in Ek. discriminate.
Qed.

End AccountFacts.

(** X22. A registration with a new email and the password typed twice
    creates the account, without a plan and without a usage dict, and a
    login with the same email and password then succeeds: the session is
    that of the account, and [index_get] sends it to the plan selection. *)
Theorem register_then_login
  (sha256_hex : string -> string) (s : state) (sess sess' : session)
  (form_r form_l : gmap string string) (e p token : string) (now now' : Z) :
  form_r !! "email" = Some e -> users s !! e = None ->
  form_r !! "password" = Some p -> form_r !! "confirm_password" = Some p ->
  form_l !! "email" = Some e -> form_l !! "password" = Some p ->
  exists s1 u1,
    register_route sha256_hex "POST" form_r sess s
    = (Done (mk_reply (GoTo "/login") [("Account created successfully!", "success")]
               sess None), s1)
    /\ users s1 !! e = Some u1
    /\ plan u1 = None /\ usage_count u1 = None
    /\ exists r s2,
         login_route sha256_hex "POST" form_l sess' token now s1 = (Done r, s2)
         /\ reply_body r = GoTo "/"
         /\ session_user (reply_session r) = Some e
         /\ index_get (reply_session r) now' s2
            = (Ok (mk_response (Redirect "/choose_plan") []), s2).
Proof.
intros Her Hnew Hpr Hcr Hel Hpl.
do 2 eexists. split.
{ unfold register_route. cbn [String.eqb Ascii.eqb Bool.eqb].
  rewrite Her, Hpr, Hcr, (known_user_none _ _ Hnew), pstr_eqb_refl. reflexivity. }
split; [apply update_user_lookup |]. split; [reflexivity |]. split; [reflexivity |].
match goal with |- context [update_user e ?u s] => set (u1 := u) end.
assert (H1 : users (update_user e u1 s) !! e = Some u1) by apply update_user_lookup.
assert (Hs1 : stored_password u1 = Some (Some (sha256_hex p))).
{ unfold stored_password, u1. cbn [profile]. apply lookup_insert_eq. }
destruct (login_route_ok sha256_hex form_l sess' token now _ e u1 p Hel Hpl H1 Hs1)
  as (r & s2 & E & Hb & Hsess & Hon & Hoff).
exists r, s2. split; [exact E |]. split; [exact Hb |]. split; [now rewrite Hsess |].
assert (Hl : session_user (reply_session r) = Some e) by now rewrite Hsess.
destruct (is_str (form_l !! "remember") "on") eqn:Hr.
- destruct (Hon eq_refl) as [_ ->]. rewrite update_user_twice.
  eapply (index_get_no_plan _ e Hl); [apply update_user_lookup | reflexivity].
- destruct (Hoff eq_refl) as [_ ->]. rewrite update_user_twice.
  eapply (index_get_no_plan _ e Hl); [apply update_user_lookup | reflexivity].
Qed.

(** X23. [register_route] never changes an account that exists: whatever
    the request and its outcome, every entry of [users] is afterwards what
    it was; an email that is already used is answered with a flash, and
    so are two passwords that differ. *)
Theorem register_keeps_existing_accounts
  (sha256_hex : string -> string) (method : string) (form : gmap string string)
  (sess : session) (s : state) (k : string) (u : user_data) :
  users s !! k = Some u ->
  users (register_route sha256_hex method form sess s).2 !! k = Some u
  /\ (method = "POST" -> form !! "email" = Some k ->
        register_route sha256_hex method form sess s
        = (Done (mk_reply RegisterPage [("This email is already used.", "warning")]
                   sess None), s))
  /\ (method = "POST" -> known_user (form !! "email") s = None ->
        form !! "password" <> form !! "confirm_password" ->
        register_route sha256_hex method form sess s
        = (Done (mk_reply RegisterPage [("Passwords do not match.", "warning")]
                   sess None), s)).
Proof.
intros H. split; [| split].
- now apply register_route_keeps_entry.
- intros -> He. unfold register_route. cbn [String.eqb Ascii.eqb Bool.eqb].
  rewrite He, (known_user_some _ _ _ H). reflexivity.
- intros -> Hk Hne. unfold register_route. cbn [String.eqb Ascii.eqb Bool.eqb].
  rewrite Hk, (pstr_eqb_neq _ _ Hne). reflexivity.
Qed.

(** X24. [login_route] opens a session only for the stored password.  For
    a POST whose form has an email: when that email is not registered, or
    the hash of the password typed is not the stored one, the answer is the
    invalid-credentials flash and neither the session nor the globals
    change; with the stored password the session becomes that of the
    account. *)
Theorem login_needs_the_stored_password
  (sha256_hex : string -> string) (form : gmap string string) (sess : session)
  (token : string) (now : Z) (s : state) (e : string) :
  form !! "email" = Some e ->
  let invalid :=
    (Done (mk_reply LoginPage [("Invalid credentials.", "danger")] sess None), s) in
  (users s !! e = None ->
     login_route sha256_hex "POST" form sess token now s = invalid)
  /\ (forall u stored p,
        users s !! e = Some u ->
        stored_password u = Some stored -> form !! "password" = Some p ->
        (stored <> Some (sha256_hex p) ->
           login_route sha256_hex "POST" form sess token now s = invalid)
        /\ (stored = Some (sha256_hex p) ->
              exists r s',
                login_route sha256_hex "POST" form sess token now s = (Done r, s')
                /\ reply_body r = GoTo "/"
                /\ reply_session r = set_session_user (Some e) sess)).
Proof.
intros He invalid. split.
- intros Hk. unfold login_route. cbn [String.eqb Ascii.eqb Bool.eqb].
  rewrite He. unfold known_user. now rewrite Hk.
- intros u stored p H Hs Hp. split.
  + intros Hne. unfold login_route, stored_password in *.
    cbn [String.eqb Ascii.eqb Bool.eqb].
    rewrite He, Hp, (known_user_some _ _ _ H), Hs. cbn [hash_password].
    now rewrite (pstr_eqb_neq _ _ Hne).
  + intros ->.
    destruct (login_route_ok sha256_hex form sess token now s e u p He Hp H Hs)
      as (r & s' & E & Hb & Hsess & _).
    exists r, s'. repeat split; assumption.
Qed.

(** X25. [change_password_route] replaces the password only against the
    old one: when the hash of the old password typed is not the stored one,
    the POST is answered with a flash and changes nothing; when it is, and
    the new password is typed twice, the stored hash becomes that of the new
    password, the plan state of the account stays, and a login with the new
    password succeeds. *)
Theorem change_password_needs_the_old_password
  (sha256_hex : string -> string) (s : state) (sess : session) (e : string)
  (u : user_data) (form : gmap string string) (stored : pstr) (old_pw : string) :
  session_user sess = Some e -> users s !! e = Some u ->
  stored_password u = Some stored -> form !! "old_password" = Some old_pw ->
  (stored <> Some (sha256_hex old_pw) ->
     change_password_route sha256_hex "POST" form sess s
     = (Done (mk_reply ChangePage [("Incorrect old password.", "danger")] sess None), s))
  /\ (stored = Some (sha256_hex old_pw) ->
      forall new_pw, form !! "new_password" = Some new_pw ->
        form !! "confirm_password" = Some new_pw ->
        exists s' u',
          change_password_route sha256_hex "POST" form sess s
          = (Done (mk_reply (GoTo "/") [("Password changed successfully!", "success")]
                     sess None), s')
          /\ users s' !! e = Some u'
          /\ stored_password u' = Some (Some (sha256_hex new_pw))
          /\ same_plan_state u u'
          /\ forall form_l sess_l token now,
               form_l !! "email" = Some e -> form_l !! "password" = Some new_pw ->
               exists r s2,
                 login_route sha256_hex "POST" form_l sess_l token now s' = (Done r, s2)
                 /\ session_user (reply_session r) = Some e).
Proof.
intros Hl H Hs Ho. unfold stored_password in Hs. split.
- intros Hne. unfold change_password_route. rewrite Hl.
  cbn [String.eqb Ascii.eqb Bool.eqb]. rewrite H, Hs, Ho. cbn [hash_password].
  now rewrite (pstr_eqb_neq _ _ Hne).
- intros -> new_pw Hn Hc.
  set (u' := set_profile (<["password" := Some (sha256_hex new_pw)]> (profile u)) u).
  exists (update_user e u' s), u'.
  assert (H' : users (update_user e u' s) !! e = Some u') by apply update_user_lookup.
  assert (Hs' : stored_password u' = Some (Some (sha256_hex new_pw)))
    by apply lookup_insert_eq.
  split; [| split; [exact H' | split; [exact Hs' | split; [repeat split |]]]].
  + unfold change_password_route. rewrite Hl.
    cbn [String.eqb Ascii.eqb Bool.eqb]. rewrite H, Hs, Ho, Hn, Hc. cbn [hash_password].
    rewrite !pstr_eqb_refl. reflexivity.
  + intros form_l sess_l token now He Hp.
    destruct (login_route_ok sha256_hex form_l sess_l token now _ e u' new_pw He Hp H' Hs')
      as (r & s2 & E & _ & Hsess & _).
    exists r, s2. split; [exact E | now rewrite Hsess].
Qed.

(** X26. [forgot_password_route] resets the password exactly when the
    father's and the mother's names of the form equal the stored ones,
    compared as they are (a field absent from the form equals a stored
    [None]): then the stored hash becomes that of the new password and the
    plan state stays; otherwise the POST is answered with a flash and
    changes nothing. *)
Theorem forgot_password_checks_both_names
  (sha256_hex : string -> string) (s : state) (sess : session) (e : string)
  (u : user_data) (form : gmap string string) (father mother : pstr) (new_pw : string) :
  form !! "email" = Some e -> users s !! e = Some u ->
  profile u !! "father_name" = Some father -> profile u !! "mother_name" = Some mother ->
  form !! "new_password" = Some new_pw -> form !! "confirm_password" = Some new_pw ->
  (form !! "father_name" = father /\ form !! "mother_name" = mother ->
     exists u',
       forgot_password_route sha256_hex "POST" form sess s
       = (Done (mk_reply (GoTo "/login") [("Password reset successfully!", "success")]
                  sess None), update_user e u' s)
       /\ stored_password u' = Some (Some (sha256_hex new_pw))
       /\ same_plan_state u u')
  /\ (form !! "father_name" <> father \/ form !! "mother_name" <> mother ->
      forgot_password_route sha256_hex "POST" form sess s
      = (Done (mk_reply ForgotPage [("Incorrect verification information.", "danger")]
                 sess None), s)).
Proof.
intros He H Hf Hm Hn Hc. split.
- intros [Ef Em].
  exists (set_profile (<["password" := Some (sha256_hex new_pw)]> (profile u)) u).
  split; [| split; [apply lookup_insert_eq | repeat split]].
  unfold forgot_password_route. cbn [String.eqb Ascii.eqb Bool.eqb].
  rewrite He, (known_user_some _ _ _ H), Hn, Hc, Hf, Hm, Ef, Em. cbn [hash_password].
  rewrite !pstr_eqb_refl. reflexivity.
- intros Hne. unfold forgot_password_route. cbn [String.eqb Ascii.eqb Bool.eqb].
  rewrite He, (known_user_some _ _ _ H), Hn, Hc, Hf, Hm, pstr_eqb_refl. cbn [negb].
  destruct (decide (father = form !! "father_name")) as [Ef | Ef].
  + rewrite (proj2 (pstr_eqb_eq _ _) Ef).
    destruct Hne as [Hne | Hne]; [congruence |].
    rewrite (pstr_eqb_neq mother (form !! "mother_name")) by congruence. reflexivity.
  + now rewrite (pstr_eqb_neq _ _ Ef).
Qed.

Section RememberMe.

Lemma users_items_in keys s e u :
  In (e, u) (users_items keys s) -> users s !! e = Some u.
Proof.
unfold users_items. intros Hin. apply list_elem_of_In, list_elem_of_omap in Hin.
destruct Hin as (k & _ & Hk). now apply known_user_inv in Hk.
Qed.

Lemma users_items_has keys s e u :
  In e keys -> users s !! e = Some u -> In (e, u) (users_items keys s).
Proof.
intros Hin H. apply list_elem_of_In, list_elem_of_omap.
exists e. split; [now apply list_elem_of_In | now apply known_user_some].
Qed.

End RememberMe.

(** X27. [check_remember_me] logs in only the holder of the cookie's
    token: whatever the order of [users], a session that was anonymous and
    comes out as that of an account does so for a cookie that is not empty
    and equals the token stored in that account's entry.  A session that is
    logged in already, and a request with no cookie or an empty one, are
    left as they are. *)
Theorem remember_me_needs_the_stored_token
  (sess : session) (remember_token : pstr) (keys : list string) (s : state) :
  let sess' := check_remember_me sess remember_token keys s in
  (forall e, session_user sess = None -> session_user sess' = Some e ->
     exists token u,
       remember_token = Some token /\ token <> ""
       /\ users s !! e = Some u
       /\ profile u !! "remember_token" = Some (Some token))
  /\ (session_user sess <> None \/ remember_token = None \/ remember_token = Some "" ->
      sess' = sess)
  /\ session_theme sess' = session_theme sess.
Proof.
intros sess'. subst sess'. unfold check_remember_me. split; [| split].
- intros e Hanon. rewrite Hanon.
  destruct remember_token as [token |]; [| rewrite Hanon; discriminate].
  destruct (String.eqb_spec token "") as [-> | Hne]; [rewrite Hanon; discriminate |].
  destruct (List.find _ _) as [[e' u'] |] eqn:Ef; [| rewrite Hanon; discriminate].
  cbn [session_user set_session_user]. intros [= ->].
  apply List.find_some in Ef. destruct Ef as [Hin Hh]. cbn [snd] in Hh.
  exists token, u'. split; [reflexivity |]. split; [exact Hne |].
  split; [exact (users_items_in _ _ _ _ Hin) |].
  unfold holds_token in Hh. destruct (profile u' !! "remember_token") as [st |];
    [| discriminate]. apply pstr_eqb_eq in Hh. now subst.
- intros [Hs | [-> | ->]].
  + destruct (session_user sess); [reflexivity | congruence].
  + destruct (session_user sess); reflexivity.
  + destruct (session_user sess); reflexivity.
- destruct (session_user sess); [reflexivity |].
  destruct remember_token as [token |]; [| reflexivity].
  destruct (String.eqb token ""); [reflexivity |].
  destruct (List.find _ _) as [[e' u'] |]; reflexivity.
Qed.

(** X28. The remember-me cookie works until the logout.  After a login
    with [remember] on, a later anonymous request that carries the token the
    login stored is logged in, as the account again when no other account
    holds that token; after [logout_route] the entry holds no token, and the
    same cookie logs nobody in unless another account holds it. *)
Theorem remember_me_until_logout
  (sha256_hex : string -> string) (s : state) (sess anonymous : session)
  (form : gmap string string) (e p token : string) (u : user_data) (now : Z)
  (keys : list string) :
  form !! "email" = Some e -> form !! "password" = Some p ->
  form !! "remember" = Some "on" ->
  users s !! e = Some u -> stored_password u = Some (Some (sha256_hex p)) ->
  token <> "" -> session_user anonymous = None -> In e keys ->
  (forall e' u', e' <> e -> users s !! e' = Some u' -> holds_token token u' = false) ->
  exists r s1,
    login_route sha256_hex "POST" form sess token now s = (Done r, s1)
    /\ reply_cookie r = Some (SetToken token (now + thirty_days))
    /\ session_user (check_remember_me anonymous (Some token) keys s1) = Some e
    /\ exists r2 s2 u2,
         logout_route (reply_session r) s1 = (Done r2, s2)
         /\ session_user (reply_session r2) = None
         /\ reply_cookie r2 = Some ClearToken
         /\ users s2 !! e = Some u2
         /\ profile u2 !! "remember_token" = None
         /\ check_remember_me anonymous (Some token) keys s2 = anonymous.
Proof.
intros He Hp Hr H Hs Htok Hanon Hin Hothers.
destruct (login_route_ok sha256_hex form sess token now s e u p He Hp H Hs)
  as (r & s1 & E & _ & Hsess & Hon & _).
rewrite Hr in Hon. cbn [is_str] in Hon. destruct (Hon eq_refl) as [Hcookie ->].
set (u1 := set_profile (<["remember_token" := Some token]> (profile u)) u) in *.
assert (H1 : users (update_user e u1 s) !! e = Some u1) by apply update_user_lookup.
assert (Hh1 : holds_token token u1 = true).
{ unfold holds_token, u1. cbn [profile set_profile]. rewrite lookup_insert_eq.
  apply pstr_eqb_refl. }
assert (Hfind : forall s' (Hsame : forall e', e' <> e -> users s' !! e' = users s !! e'),
           forall e' u', List.find (fun item => holds_token token item.2) (users_items keys s')
                         = Some (e', u') -> e' = e).
{ intros s' Hsame e' u' Ef. apply List.find_some in Ef. destruct Ef as [Hi Hh].
  cbn [snd] in Hh. apply users_items_in in Hi.
  destruct (decide (e' = e)) as [-> | Hne]; [reflexivity |].
  rewrite (Hsame _ Hne) in Hi. rewrite (Hothers _ _ Hne Hi) in Hh. discriminate. }
exists r, (update_user e u1 s). split; [exact E |]. split; [exact Hcookie |]. split.
- unfold check_remember_me. rewrite Hanon.
  destruct (String.eqb_spec token "") as [-> | _]; [congruence |].
  destruct (List.find _ _) as [[e' u'] |] eqn:Ef.
  + cbn [session_user set_session_user]. f_equal.
    apply (Hfind _ (fun e' Hne => update_user_lookup_ne e e' u1 s (not_eq_sym Hne)) _ _ Ef).
  + pose proof (List.find_none _ _ Ef (e, u1)
                  (users_items_has keys _ e u1 Hin H1)) as Hno.
    cbn [snd] in Hno. rewrite Hh1 in Hno. discriminate.
- set (u2 := set_profile (delete "remember_token" (profile u1)) u1).
  unfold logout_route. rewrite Hsess. cbn [session_user set_session_user].
  rewrite (known_user_some _ _ _ H1), update_user_twice.
  do 2 eexists. exists u2. split; [reflexivity |].
  split; [reflexivity |]. split; [reflexivity |].
  split; [apply update_user_lookup |].
  split; [apply lookup_delete_eq |].
  unfold check_remember_me. rewrite Hanon.
  destruct (String.eqb_spec token "") as [-> | _]; [congruence |].
  destruct (List.find _ _) as [[e' u'] |] eqn:Ef; [| reflexivity].
  exfalso.
  pose proof (Hfind _ (fun e' Hne => update_user_lookup_ne e e' u2 s (not_eq_sym Hne))
                _ _ Ef) as ->.
  apply List.find_some in Ef. destruct Ef as [Hi Hh]. cbn [snd] in Hh.
  apply users_items_in in Hi. rewrite update_user_lookup in Hi. injection Hi as <-.
  unfold holds_token, u2 in Hh. cbn [profile set_profile] in Hh.
  rewrite lookup_delete_eq in Hh. discriminate.
Qed.

(** X29. No account handler touches a plan: after [login_route],
    [logout_route], [register_route], [forgot_password_route] or
    [change_password_route], whatever the request and the outcome, every
    account that existed still exists with the same plan, plan start, usage
    dict and activation id. *)
Theorem account_handlers_keep_plans
  (sha256_hex : string -> string) (method : string) (form : gmap string string)
  (sess : session) (token : string) (now : Z) (s : state) (k : string) (u : user_data) :
  users s !! k = Some u ->
  let kept s' := exists u', users s' !! k = Some u' /\ same_plan_state u u' in
  kept (login_route sha256_hex method form sess token now s).2
  /\ kept (logout_route sess s).2
  /\ kept (register_route sha256_hex method form sess s).2
  /\ kept (forgot_password_route sha256_hex method form sess s).2
  /\ kept (change_password_route sha256_hex method form sess s).2.
Proof.
intros H kept.
assert (Hs : kept s) by (exists u; split; [exact H | repeat split]).
assert (Hupd : forall e u0 prof, users s !! e = Some u0 ->
                 kept (update_user e (set_profile prof u0) s)).
{ intros e u0 prof H0. destruct (decide (e = k)) as [-> | Hne].
  - exists (set_profile prof u0). rewrite update_user_lookup. split; [reflexivity |].
    assert (u0 = u) as -> by congruence. repeat split.
  - exists u. rewrite update_user_lookup_ne by exact Hne. split; [exact H | repeat split]. }
split; [| split; [| split; [| split]]].
- unfold login_route. destruct (String.eqb method "POST"); [| exact Hs].
  destruct (known_user (form !! "email") s) as [[e0 u0] |] eqn:Ek; [| exact Hs].
  apply known_user_inv in Ek. destruct Ek as [_ H0].
  destruct (profile u0 !! "password"); [| exact Hs].
  destruct (hash_password sha256_hex (form !! "password")); [| exact Hs].
  destruct (pstr_eqb _ _); [| exact Hs].
  destruct (is_str (form !! "remember") "on"); now apply Hupd.
- unfold logout_route. cbn [snd].
  destruct (known_user (session_user sess) s) as [[e0 u0] |] eqn:Ek; [| exact Hs].
  apply known_user_inv in Ek. destruct Ek as [_ H0]. now apply Hupd.
- exists u. split; [| repeat split].
  apply (register_route_keeps_entry sha256_hex method form sess s k u H).
- unfold forgot_password_route. destruct (String.eqb method "POST"); [| exact Hs].
  destruct (known_user (form !! "email") s) as [[e0 u0] |] eqn:Ek; [| exact Hs].
  apply known_user_inv in Ek. destruct Ek as [_ H0].
  destruct (negb _); [exact Hs |].
  destruct (profile u0 !! "father_name"); [| exact Hs].
  destruct (pstr_eqb _ _); [| exact Hs].
  destruct (profile u0 !! "mother_name"); [| exact Hs].
  destruct (pstr_eqb _ _); [| exact Hs].
  destruct (hash_password sha256_hex (form !! "new_password")); [| exact Hs].
  now apply Hupd.
- unfold change_password_route. destruct (session_user sess) as [e0 |]; [| exact Hs].
  destruct (String.eqb method "POST"); [| exact Hs].
  destruct (users s !! e0) as [u0 |] eqn:H0; [| exact Hs].
  destruct (profile u0 !! "password"); [| exact Hs].
  destruct (hash_password sha256_hex (form !! "old_password")); [| exact Hs].
  destruct (negb _); [exact Hs |].
  destruct (negb _); [exact Hs |].
  destruct (hash_password sha256_hex (form !! "new_password")); [| exact Hs].
  now apply Hupd.
Qed.

(* ===================================================================== *)
(** * Examples: the statements above at sample inputs *)
(* ===================================================================== *)

Lemma only_ann_lookup u : users (only_ann u) !! ann = Some u.
Proof. apply lookup_singleton_eq. Qed.

Lemma only_ann_others u e : e <> ann -> users (only_ann u) !! e = None.
Proof. intros H. apply lookup_singleton_ne. congruence. Qed.

Lemma generate_exercise_takes_two_draws_witness :
  exists ex s',
    generate_exercise (Some "division") (Some "easy") (only_ann free_account)
    = (Ok (Some ex), s')
    /\ random_taken s' = 2%nat
    /\ Exercise.res_len ex = len_str_of_int (Exercise.result ex).
Proof.
  destruct (generate_exercise (Some "division") (Some "easy") (only_ann free_account))
    as [[[ex |] | e] s'] eqn:E; [| vm_compute in E; discriminate ..].
  destruct (generate_exercise_takes_two_draws _ _ _ _ _ E) as [Hs Hlen].
  exists ex, s'. split; [reflexivity |]. split; [now rewrite Hs | exact Hlen].
Defined.

Lemma track_usage_monthly_counts_nothing_witness :
  users (only_ann monthly_subscriber) !! ann = Some monthly_subscriber
  /\ plan monthly_subscriber = Some "monthly"
  /\ exists s' u',
       track_usage ann (Some "easy") (only_ann monthly_subscriber) = (Ok tt, s')
       /\ users s' !! ann = Some u'
       /\ usage_count u' = Some default_usage.
Proof.
  pose proof (only_ann_lookup monthly_subscriber) as H.
  destruct (track_usage_monthly_counts_nothing _ _ _ (Some "easy") H eq_refl)
    as (s' & u' & E & Hu & Hc & _).
  split; [exact H |]. split; [reflexivity |].
  exists s', u'. split; [exact E |]. split; [exact Hu | exact Hc].
Defined.

Lemma track_usage_unknown_level_witness :
  users (only_ann free_account) !! ann = Some free_account
  /\ usage_or_default free_account !! "beginner" = None
  /\ track_usage ann (Some "beginner") (only_ann free_account)
     = (Raise KeyError, update_user ann (with_usage free_account) (only_ann free_account)).
Proof.
  pose proof (only_ann_lookup free_account) as H.
  assert (Hk : usage_or_default free_account !! "beginner" = None)
    by (vm_compute; reflexivity).
  assert (Hl : Some "beginner" = None
               \/ exists k, Some "beginner" = Some k /\ k <> "total"
                            /\ usage_or_default free_account !! k = None).
  { right. exists "beginner". split; [reflexivity |]. split; [discriminate | exact Hk]. }
  destruct (track_usage_unknown_level (only_ann free_account) ann free_account
              (Some "beginner") H Hl) as [Hfree _].
  split; [exact H |]. split; [exact Hk |]. exact (Hfree eq_refl).
Defined.

Lemma free_trial_exhausted_locks_out_witness :
  all_exhausted (usage_or_default exhausted_account) = true
  /\ index_get ann_session 0 (only_ann exhausted_account)
     = (Ok (mk_response (Redirect "/choose_plan") [trial_exhausted_message]),
        only_ann exhausted_account)
  /\ choose_plan ann_session "POST" choose_free (only_ann exhausted_account)
     = (Ok (mk_response (ChoosePlanPage true) [trial_exhausted_message]),
        only_ann exhausted_account)
  /\ index_post ann_session generate_easy (only_ann exhausted_account)
     = (Ok (mk_response (Redirect "/") [uses_exhausted_message]),
        only_ann exhausted_account).
Proof.
  assert (Ha : all_exhausted (usage_or_default exhausted_account) = true)
    by (vm_compute; reflexivity).
  destruct (free_trial_exhausted_locks_out (only_ann exhausted_account) ann_session ann
              exhausted_account eq_refl (only_ann_lookup _) eq_refl Ha) as (Hg & Hc & Hp).
  split; [exact Ha |]. split; [apply Hg |]. split.
  - apply Hc. vm_compute; reflexivity.
  - apply (Hp _ Easy); vm_compute; reflexivity.
Defined.

Lemma choose_plan_sets_only_free_witness :
  exists r s' u',
    choose_plan ann_session "POST" choose_free (only_ann new_account) = (Ok r, s')
    /\ users s' !! ann = Some u'
    /\ (plan u' = None \/ plan u' = Some "free").
Proof.
  destruct (choose_plan_sets_only_free (only_ann new_account) ann_session ann new_account
              "POST" choose_free eq_refl (only_ann_lookup _))
    as [(r & s' & u' & E & Hu & Hp & _) _].
  exists r, s', u'. split; [exact E |]. split; [exact Hu |].
  destruct Hp as [Hp | [Hp _]]; [left | right]; exact Hp.
Defined.

Lemma index_post_generates_nb_ops_witness :
  (can_use_plan ann (Some "easy") (only_ann monthly_subscriber)).1 = Ok true
  /\ exists exercises s',
       index_post ann_session forty_additions (only_ann monthly_subscriber)
       = (Ok (mk_response (ExercisePage exercises (Some "easy") (Some "addition")) []), s')
       /\ map fst exercises = [Some "addition"]
       /\ Forall (fun l => length l = 40%nat /\ Forall agrees_with_grader l)
            (map snd exercises)
       /\ random_taken s' = 80%nat.
Proof.
  assert (Hc : (can_use_plan ann (Some "easy") (only_ann monthly_subscriber)).1 = Ok true)
    by (vm_compute; reflexivity).
  assert (Hu : complete (usage_or_default monthly_subscriber) = true)
    by (vm_compute; reflexivity).
  assert (Hf1 : forty_additions !! "phase" = Some "generate") by (vm_compute; reflexivity).
  assert (Hf2 : forty_additions !! "level" = Some (tier_name Easy))
    by (vm_compute; reflexivity).
  assert (Hf3 : forty_additions !! "category" = Some "addition")
    by (vm_compute; reflexivity).
  assert (Hf4 : "addition" = "all" \/ In "addition" four_operations)
    by (right; left; reflexivity).
  assert (Hf5 : form_int forty_additions "nb_ops" 100 = Ok 40) by (vm_compute; reflexivity).
  assert (Hf6 : form_int forty_additions "pdf_columns" 3 = Ok 3)
    by (vm_compute; reflexivity).
  destruct (index_post_generates_nb_ops (only_ann monthly_subscriber) ann_session ann
              monthly_subscriber "monthly" forty_additions Easy "addition" 40 3
              eq_refl (only_ann_lookup _) eq_refl Hu Hf1 Hf2 Hf3 Hf4 Hf5 Hf6 Hc)
    as (exercises & s' & E & Hops & Hall & _ & _ & _ & _ & Hn).
  split; [exact Hc |]. exists exercises, s'. split; [exact E |].
  split; [exact Hops |]. split; [exact Hall |].
  assert (Hl : length exercises = 1%nat).
  { rewrite <- (length_map fst), Hops. reflexivity. }
  rewrite Hn, Hl. reflexivity.
Defined.

Lemma index_post_bad_count_costs_a_use_witness :
  int_of_str "many" = None
  /\ exists s' u',
       index_post ann_session many_operations (only_ann free_account)
       = (Raise ValueError, s')
       /\ users s' !! ann = Some u'
       /\ tier_count u' Easy = 1
       /\ (can_use_plan ann (Some "easy") s').1 = Ok false.
Proof.
  assert (Hi : int_of_str "many" = None) by (vm_compute; reflexivity).
  assert (H0 : usage_or_default free_account !! tier_name Easy = Some 0)
    by (vm_compute; reflexivity).
  assert (Hf1 : many_operations !! "phase" = Some "generate") by (vm_compute; reflexivity).
  assert (Hf2 : many_operations !! "level" = Some (tier_name Easy))
    by (vm_compute; reflexivity).
  assert (Hf3 : many_operations !! "nb_ops" = Some "many") by (vm_compute; reflexivity).
  destruct (index_post_bad_count_costs_a_use (only_ann free_account) ann_session ann
              free_account many_operations Easy "many" eq_refl (only_ann_lookup _) eq_refl
              H0 Hf1 Hf2 Hf3 Hi)
    as (s' & u' & E & Hu & Ht & Hc & _).
  split; [exact Hi |]. exists s', u'.
  split; [exact E |]. split; [exact Hu |]. split; [exact Ht | exact Hc].
Defined.

Lemma result_page_score_matches_feedback_witness :
  exists feedback sc theme flashes s',
    answers_route ann_session answers_23_of_40 after_forty_additions
    = (Ok (mk_response (ResultPage feedback sc theme) flashes), s')
    /\ sc = score (Z.of_nat (count_correct (all_feedback feedback)))
                  (Z.of_nat (length (all_feedback feedback))).
Proof.
  destruct (answers_route ann_session answers_23_of_40 after_forty_additions)
    as [[[pg fl] | e] s'] eqn:E; [| vm_compute in E; discriminate].
  destruct pg; try (vm_compute in E; discriminate).
  do 5 eexists. split; [reflexivity |].
  exact (proj1 (result_page_score_matches_feedback _ _ _ _ _ _ _ _ E)).
Defined.

Lemma integer_answer_graded_by_recomputation_witness :
  normalize_answer (right_answer !! field (Some "addition") 0 "") = Answered 12
  /\ recomputed right_answer (Some "addition") 0 = Ok (7, 5, Some 12)
  /\ exists t' item,
       grade_question right_answer (Some "addition") (mk_tally [] 0 0) 0 = Ok t'
       /\ feedback_op t' = [item]
       /\ fb_correct item = true.
Proof.
  assert (Hn : normalize_answer (right_answer !! field (Some "addition") 0 "") = Answered 12)
    by (vm_compute; reflexivity).
  assert (Hr : recomputed right_answer (Some "addition") 0 = Ok (7, 5, Some 12))
    by (vm_compute; reflexivity).
  destruct (integer_answer_graded_by_recomputation right_answer (Some "addition") 0
              (mk_tally [] 0 0) 12 7 5 (Some 12) Hn Hr) as [Hok _].
  destruct (Hok (or_introl eq_refl)) as (t' & item & E & Hf & Hc & _).
  split; [exact Hn |]. split; [exact Hr |].
  exists t', item. split; [exact E |]. split; [exact Hf |]. now apply Hc.
Defined.

Lemma in_progressb_ok s : in_progressb s = true -> in_progress s.
Proof.
  unfold in_progressb, in_progress. intros H.
  destruct (latest_exercises s) as [[| x xs] |]; try discriminate.
  destruct (latest_meta s) as [m |]; try discriminate.
  destruct (solutions_of (x :: xs)) as [sols | e] eqn:Es; try discriminate.
  exists x, xs, m, sols. split; [reflexivity |]. split; [reflexivity | exact Es].
Qed.

Lemma answers_route_raises_on_bad_operands_witness :
  recomputed bad_operand (Some "addition") 0 = Raise ValueError
  /\ answers_route ann_session bad_operand after_forty_additions
     = (Raise ValueError, after_forty_additions).
Proof.
  assert (Hr : recomputed bad_operand (Some "addition") 0 = Raise ValueError)
    by (vm_compute; reflexivity).
  split; [exact Hr |].
  assert (Hp : in_progress after_forty_additions)
    by (apply in_progressb_ok; vm_compute; reflexivity).
  assert (Ho : operations_of (bad_operand !! "selected_category") = [Some "addition"])
    by (vm_compute; reflexivity).
  assert (Hn : (0 < nb_ops_of bad_operand (Some "addition"))%nat)
    by (apply Nat.ltb_lt; vm_compute; reflexivity).
  exact (answers_route_raises_on_bad_operands ann_session ann bad_operand
           after_forty_additions (Some "addition") [] ValueError eq_refl Hp Ho Hn Hr).
Defined.

Lemma activate_key_needs_a_key_of_the_day_witness :
  key_form !! "activation_key" = Some sample_monthly_key
  /\ exists r u',
       activate_key sample_lower sample_sha256_int "secret" ann_session key_form "20250615"
         "20250615093000" 1750000000000000 (only_ann new_account)
       = (Ok r, update_user ann u' (only_ann new_account))
       /\ plan u' = Some "monthly" /\ plan_start u' = Some 1750000000000000.
Proof.
  assert (Hk : key_form !! "activation_key" = Some sample_monthly_key)
    by apply lookup_singleton_eq.
  destruct (activate_key_needs_a_key_of_the_day sample_lower sample_sha256_int "secret"
              (only_ann new_account) ann_session ann new_account key_form "20250615"
              "20250615093000" 1750000000000000 eq_refl (only_ann_lookup _))
    as (_ & Hm & _).
  destruct (Hm Hk) as (r & u' & E & Hp & Hs & _).
  split; [exact Hk |]. exists r, u'. split; [exact E |]. split; [exact Hp | exact Hs].
Defined.

Lemma register_then_login_witness :
  users (only_ann new_account) !! bob = None
  /\ exists s1 u1,
       register_route sample_sha256_hex "POST" bob_registers anonymous_session
         (only_ann new_account)
       = (Done (mk_reply (GoTo "/login") [("Account created successfully!", "success")]
                  anonymous_session None), s1)
       /\ users s1 !! bob = Some u1
       /\ plan u1 = None
       /\ exists r s2,
            login_route sample_sha256_hex "POST" bob_logs_in anonymous_session "a3f1" 0 s1
            = (Done r, s2)
            /\ session_user (reply_session r) = Some bob.
Proof.
  assert (Hn : users (only_ann new_account) !! bob = None)
    by (apply only_ann_others; discriminate).
  assert (Hr1 : bob_registers !! "email" = Some bob) by (vm_compute; reflexivity).
  assert (Hr2 : bob_registers !! "password" = Some "password") by (vm_compute; reflexivity).
  assert (Hr3 : bob_registers !! "confirm_password" = Some "password")
    by (vm_compute; reflexivity).
  assert (Hl1 : bob_logs_in !! "email" = Some bob) by (vm_compute; reflexivity).
  assert (Hl2 : bob_logs_in !! "password" = Some "password") by (vm_compute; reflexivity).
  destruct (register_then_login sample_sha256_hex (only_ann new_account) anonymous_session
              anonymous_session bob_registers bob_logs_in bob "password" "a3f1" 0 0
              Hr1 Hn Hr2 Hr3 Hl1 Hl2)
    as (s1 & u1 & E & Hu & Hp & _ & r & s2 & El & _ & Hs & _).
  split; [exact Hn |]. exists s1, u1. split; [exact E |]. split; [exact Hu |].
  split; [exact Hp |]. exists r, s2. split; [exact El | exact Hs].
Defined.

Lemma register_keeps_existing_accounts_witness :
  users (register_route sample_sha256_hex "POST" ann_registers_again anonymous_session
           (only_ann new_account)).2 !! ann = Some new_account
  /\ register_route sample_sha256_hex "POST" ann_registers_again anonymous_session
       (only_ann new_account)
     = (Done (mk_reply RegisterPage [("This email is already used.", "warning")]
                anonymous_session None), only_ann new_account).
Proof.
  destruct (register_keeps_existing_accounts sample_sha256_hex "POST" ann_registers_again
              anonymous_session (only_ann new_account) ann new_account (only_ann_lookup _))
    as (Hk & Hused & _).
  split; [exact Hk |]. apply Hused; [reflexivity | vm_compute; reflexivity].
Defined.

Lemma login_needs_the_stored_password_witness :
  bob_logs_in !! "email" = Some bob
  /\ login_route sample_sha256_hex "POST" bob_logs_in anonymous_session "a3f1" 0
       (only_ann new_account)
     = (Done (mk_reply LoginPage [("Invalid credentials.", "danger")]
                anonymous_session None), only_ann new_account).
Proof.
  assert (He : bob_logs_in !! "email" = Some bob) by (vm_compute; reflexivity).
  destruct (login_needs_the_stored_password sample_sha256_hex bob_logs_in
              anonymous_session "a3f1" 0 (only_ann new_account) bob He) as [Hunknown _].
  split; [exact He |]. apply Hunknown. apply only_ann_others. discriminate.
Defined.

Lemma change_password_needs_the_old_password_witness :
  stored_password new_account = Some (Some (sample_sha256_hex "password"))
  /\ exists s' u',
       change_password_route sample_sha256_hex "POST" ann_changes_password ann_session
         (only_ann new_account)
       = (Done (mk_reply (GoTo "/") [("Password changed successfully!", "success")]
                  ann_session None), s')
       /\ users s' !! ann = Some u'
       /\ stored_password u' = Some (Some (sample_sha256_hex "tiger")).
Proof.
  assert (Hs : stored_password new_account = Some (Some (sample_sha256_hex "password")))
    by (vm_compute; reflexivity).
  destruct (change_password_needs_the_old_password sample_sha256_hex (only_ann new_account)
              ann_session ann new_account ann_changes_password
              (Some (sample_sha256_hex "password")) "password" eq_refl (only_ann_lookup _) Hs)
    as [_ Hok]; [vm_compute; reflexivity |].
  destruct (Hok eq_refl "tiger") as (s' & u' & E & Hu & Hp & _);
    try (vm_compute; reflexivity).
  split; [exact Hs |]. exists s', u'. split; [exact E |]. split; [exact Hu | exact Hp].
Defined.

Lemma forgot_password_checks_both_names_witness :
  profile new_account !! "father_name" = Some (Some "Omar")
  /\ profile new_account !! "mother_name" = Some (Some "Lina")
  /\ exists u',
       forgot_password_route sample_sha256_hex "POST" ann_forgot_password anonymous_session
         (only_ann new_account)
       = (Done (mk_reply (GoTo "/login") [("Password reset successfully!", "success")]
                  anonymous_session None), update_user ann u' (only_ann new_account))
       /\ stored_password u' = Some (Some (sample_sha256_hex "tiger")).
Proof.
  assert (Hf : profile new_account !! "father_name" = Some (Some "Omar"))
    by (vm_compute; reflexivity).
  assert (Hm : profile new_account !! "mother_name" = Some (Some "Lina"))
    by (vm_compute; reflexivity).
  assert (He : ann_forgot_password !! "email" = Some ann) by (vm_compute; reflexivity).
  assert (Hn : ann_forgot_password !! "new_password" = Some "tiger")
    by (vm_compute; reflexivity).
  assert (Hc : ann_forgot_password !! "confirm_password" = Some "tiger")
    by (vm_compute; reflexivity).
  assert (Hnames : ann_forgot_password !! "father_name" = Some "Omar"
                   /\ ann_forgot_password !! "mother_name" = Some "Lina")
    by (split; vm_compute; reflexivity).
  destruct (forgot_password_checks_both_names sample_sha256_hex (only_ann new_account)
              anonymous_session ann new_account ann_forgot_password (Some "Omar")
              (Some "Lina") "tiger" He (only_ann_lookup _) Hf Hm Hn Hc)
    as [Hok _].
  destruct (Hok Hnames) as (u' & E & Hp & _).
  split; [exact Hf |]. split; [exact Hm |]. exists u'. split; [exact E | exact Hp].
Defined.

Lemma remember_me_until_logout_witness :
  exists r s1,
    login_route sample_sha256_hex "POST" ann_logs_in_remembered anonymous_session "a3f1"
      1750000000000000 (only_ann new_account) = (Done r, s1)
    /\ reply_cookie r = Some (SetToken "a3f1" (1750000000000000 + thirty_days))
    /\ session_user (check_remember_me anonymous_session (Some "a3f1") [ann] s1) = Some ann
    /\ exists r2 s2,
         logout_route (reply_session r) s1 = (Done r2, s2)
         /\ check_remember_me anonymous_session (Some "a3f1") [ann] s2 = anonymous_session.
Proof.
  assert (Hf1 : ann_logs_in_remembered !! "email" = Some ann) by (vm_compute; reflexivity).
  assert (Hf2 : ann_logs_in_remembered !! "password" = Some "password")
    by (vm_compute; reflexivity).
  assert (Hf3 : ann_logs_in_remembered !! "remember" = Some "on")
    by (vm_compute; reflexivity).
  assert (Hs : stored_password new_account = Some (Some (sample_sha256_hex "password")))
    by (vm_compute; reflexivity).
  assert (Ht : "a3f1" <> "") by discriminate.
  assert (Hk : In ann [ann]) by (left; reflexivity).
  assert (Hothers : forall e' u', e' <> ann -> users (only_ann new_account) !! e' = Some u' ->
                      holds_token "a3f1" u' = false).
  { intros e' u' Hne H. rewrite (only_ann_others _ _ Hne) in H. discriminate. }
  destruct (remember_me_until_logout sample_sha256_hex (only_ann new_account)
              anonymous_session anonymous_session ann_logs_in_remembered ann "password"
              "a3f1" new_account 1750000000000000 [ann]
              Hf1 Hf2 Hf3 (only_ann_lookup _) Hs Ht eq_refl Hk Hothers)
    as (r & s1 & E & Hc & Hin & r2 & s2 & u2 & Eo & _ & _ & _ & _ & Hout).
  exists r, s1. split; [exact E |]. split; [exact Hc |]. split; [exact Hin |].
  exists r2, s2. split; [exact Eo | exact Hout].
Defined.

Lemma account_handlers_keep_plans_witness :
  exists u',
    users (change_password_route sample_sha256_hex "POST" ann_changes_password ann_session
             (only_ann monthly_subscriber)).2 !! ann = Some u'
    /\ plan u' = Some "monthly"
    /\ plan_start u' = Some 1750000000000000.
Proof.
  destruct (account_handlers_keep_plans sample_sha256_hex "POST" ann_changes_password
              ann_session "a3f1" 0 (only_ann monthly_subscriber) ann monthly_subscriber
              (only_ann_lookup _))
    as (_ & _ & _ & _ & u' & Hu & Hp & Hs & _).
  exists u'. split; [exact Hu |]. split; [exact Hp | exact Hs].
Defined.
